(** * Positional counting of melodic patterns in segmented scores

    A shallow embedding of the section-extraction and pattern-position
    counting pipeline ([extract_score_data.py], [score_data_processing.py],
    [seg2_score_data_processing.py]) together with the properties the
    specification states about it.

    Conventions of the embedding:
    - Python [int] is [Z]; a Python [list] is a [list]; a [dict] whose
      iteration order is observable is an association list in insertion
      order; a [str] is a [string] whose characters are code points below 256.
    - Python [float] is IEEE-754 binary64, modelled bit-exactly with
      [SpecFloat] wherever the code turns a float back into an [int]
      (the bucket thresholds [int(score_length * c)]); the quotients in
      [pandas] columns are exact rationals, with NaN and the infinities.
    - A [music21] stream is the offset-ordered list of its elements.
    - A key that a [dict] may lack is an [option] field; a raised exception is
      an explicit result together with the state the in-place updates had
      reached when it was raised. *)

From Stdlib Require Import ZArith QArith List Bool Lia Sorted.
From Stdlib Require Import Strings.String Strings.Ascii.
From Stdlib Require Import DecimalString DecimalZ.
From Stdlib Require Import Floats.SpecFloat.
Import ListNotations.

Open Scope string_scope.
Open Scope list_scope.
Open Scope Z_scope.

(* ================================================================= *)
(** ** Python built-ins *)

Module Py.

(** [len(l)] *)
Definition len {A : Type} (l : list A) : Z := Z.of_nat (List.length l).

(** [range(n)]: empty when [n <= 0]. *)
Definition range (n : Z) : list Z := map Z.of_nat (seq 0 (Z.to_nat n)).

(** [l[i:j]] for [0 <= i]; out-of-range bounds are clipped, never raised. *)
Definition slice {A : Type} (l : list A) (i j : Z) : list A :=
  firstn (Z.to_nat (j - i)) (skipn (Z.to_nat i) l).

(** [a == b] on lists of strings. *)
Fixpoint list_eqb (a b : list string) : bool :=
  match a, b with
  | [], [] => true
  | x :: a', y :: b' => String.eqb x y && list_eqb a' b'
  | _, _ => false
  end.

(** [a == b] on lists of integers. *)
Fixpoint list_eqb_Z (a b : list Z) : bool :=
  match a, b with
  | [], [] => true
  | x :: a', y :: b' => (x =? y) && list_eqb_Z a' b'
  | _, _ => false
  end.

(** [s.split(sep)[0]] for a non-empty [sep]: the part of [s] before the
    first occurrence of [sep], the whole of [s] when there is none. *)
Fixpoint split_head (sep s : string) : string :=
  if String.prefix sep s then ""
  else match s with
       | EmptyString => ""
       | String c s' => String c (split_head sep s')
       end.

(** [str.isspace] on one-byte code points. *)
Definition isspace (c : ascii) : bool :=
  let n := N_of_ascii c in
  ((9 <=? n) && (n <=? 13) || (28 <=? n) && (n <=? 32)
   || (n =? 133) || (n =? 160))%N.

Fixpoint lstrip_chars (l : list ascii) : list ascii :=
  match l with
  | c :: l' => if isspace c then lstrip_chars l' else l
  | [] => []
  end.

(** [s.strip()] *)
Definition strip (s : string) : string :=
  string_of_list_ascii
    (rev (lstrip_chars (rev (lstrip_chars (list_ascii_of_string s))))).

(** A [dict] with string keys, in insertion order. *)
Definition dict (V : Type) : Type := list (string * V).

Fixpoint dict_get {V : Type} (d : dict V) (k : string) : option V :=
  match d with
  | [] => None
  | (k', v) :: d' => if String.eqb k' k then Some v else dict_get d' k
  end.

(** [d[k] = v]: an existing key keeps its place, a new key goes last. *)
Fixpoint dict_set {V : Type} (d : dict V) (k : string) (v : V) : dict V :=
  match d with
  | [] => [(k, v)]
  | (k', v') :: d' =>
      if String.eqb k' k then (k', v) :: d' else (k', v') :: dict_set d' k v
  end.

Definition keys {V : Type} (d : dict V) : list string := map fst d.

(** *** binary64 *)

Definition prec : Z := 53.
Definition emax : Z := 1024.

(** [float(n)], rounding to nearest, ties to even. *)
Definition float_of_int (n : Z) : spec_float :=
  binary_normalize prec emax n 0 false.

Definition float_mul : spec_float -> spec_float -> spec_float :=
  SFmul prec emax.

Definition float_div : spec_float -> spec_float -> spec_float :=
  SFdiv prec emax.

(** [int(x)]: truncation towards zero.  Python raises on an infinity or a
    NaN; the thresholds below multiply a list length (below [2^63]) by a
    constant below one, which is finite, so that case is mapped to [0]. *)
Definition int_of_float (x : spec_float) : Z :=
  match x with
  | S754_finite s m e =>
      let a := match e with
               | Z0 => Zpos m
               | Zpos _ => Z.shiftl (Zpos m) e
               | Zneg k => Z.shiftr (Zpos m) (Zpos k)
               end in
      if s then - a else a
  | _ => 0
  end.

(** [int(n * c)] for an [int] [n] and a [float] [c]. *)
Definition int_mul (n : Z) (c : spec_float) : Z :=
  int_of_float (float_mul (float_of_int n) c).

(** The float literals of the sources, as [float.hex] prints them:
    [0x1.<13 hex digits>p<e>] is the mantissa [0x1<13 hex digits>] at
    exponent [e - 52]. *)
Definition f0_25 : spec_float := S754_finite false 0x10000000000000 (-54).
Definition f0_1 : spec_float := S754_finite false 0x1999999999999a (-56).
Definition f0_2 : spec_float := S754_finite false 0x1999999999999a (-55).
Definition f0_3 : spec_float := S754_finite false 0x13333333333333 (-54).
Definition f0_4 : spec_float := S754_finite false 0x1999999999999a (-54).
Definition f0_5 : spec_float := S754_finite false 0x10000000000000 (-53).
Definition f0_6 : spec_float := S754_finite false 0x13333333333333 (-53).
Definition f0_7 : spec_float := S754_finite false 0x16666666666666 (-53).
Definition f0_8 : spec_float := S754_finite false 0x1999999999999a (-53).
Definition f0_9 : spec_float := S754_finite false 0x1ccccccccccccd (-53).

(** [''.join(l)] *)
Definition join (l : list string) : string := String.concat "" l.

(** [str(n)] on an [int] *)
Definition str (n : Z) : string := NilZero.string_of_int (Z.to_int n).

End Py.

(* ================================================================= *)
(** ** The part of [music21] the sources use *)

Module music21.

(** Stream elements.  [Other] stands for everything that is neither a note,
    a rest nor a chord (clefs, signatures, bar lines). *)
Inductive element : Type :=
| Note (name : string) (octave : Z) (quarterLength : Q)
| Rest (quarterLength : Q)
| Chord (quarterLength : Q)
| Other (quarterLength : Q).

Definition quarterLength (e : element) : Q :=
  match e with
  | Note _ _ q | Rest q | Chord q | Other q => q
  end.

(** A stream: its elements with their offsets in it, in stream order. *)
Definition Stream : Type := list (Q * element).

Definition elements (s : Stream) : list element := map snd s.

(** [n.name for n in s.getElementsByClass(note.Note)]: the pitch names
    (no octave) of the notes; rests, chords and the rest are skipped. *)
Fixpoint note_names (s : Stream) : list string :=
  match s with
  | [] => []
  | (_, Note name _ _) :: s' => name :: note_names s'
  | _ :: s' => note_names s'
  end.

(** [s.notesAndRests.stream()] *)
Definition is_general_note (e : element) : bool :=
  match e with
  | Other _ => false
  | _ => true
  end.

Definition notesAndRests (s : Stream) : Stream :=
  filter (fun oe => is_general_note (snd oe)) s.

Definition Qltb (a b : Q) : bool := negb (Qle_bool b a).

(** [s.getElementsByOffset(offsetStart, offsetEnd, includeEndBoundary=b)]
    with the other options at their defaults ([mustBeginInSpan=True]): the
    elements that begin in the span, the end boundary counted in only when
    [includeEndBoundary] is set. *)
Definition in_span (offsetStart offsetEnd : Q) (includeEndBoundary : bool)
           (o : Q) : bool :=
  Qle_bool offsetStart o
  && (if includeEndBoundary then Qle_bool o offsetEnd else Qltb o offsetEnd).

Definition getElementsByOffset (s : Stream) (offsetStart offsetEnd : Q)
           (includeEndBoundary : bool) : list element :=
  elements (filter (fun oe => in_span offsetStart offsetEnd
                                     includeEndBoundary (fst oe)) s).

(** [s.highestTime]: where the last-ending element ends. *)
Definition Qmaxb (a b : Q) : Q := if Qle_bool a b then b else a.

Definition highestTime (s : Stream) : Q :=
  fold_left (fun h oe => Qmaxb h (fst oe + quarterLength (snd oe))%Q) s 0%Q.

(** [s.append(e)]: [e] goes to the end of [s], at [s.highestTime]; its
    offset in the stream it came from plays no part. *)
Definition append (s : Stream) (e : element) : Stream :=
  s ++ [(highestTime s, e)].

(** A parsed score: its parts, each given by its flattened element list
    ([part.flatten()]). *)
Record Score : Type := { parts : list Stream }.

End music21.

(* ================================================================= *)
(** ** The part of [pandas] the sources use *)

Module pandas.

(** A table of position counts: a ['Pattern'] column and the bucket
    columns, here in the order of the frame's columns. *)
Definition row : Type := (string * list Z)%type.
Definition DataFrame : Type := list row.

Definition Pattern (r : row) : string := fst r.
Definition buckets (r : row) : list Z := snd r.

(** The value of a row in bucket column [c]. *)
Definition cell (c : nat) (r : row) : Z := nth c (buckets r) 0.

(** [pd.concat([a, b], ignore_index=True)] on frames with the same
    columns. *)
Definition concat (a b : DataFrame) : DataFrame := a ++ b.

(** Column-wise sum of two rows of buckets. *)
Fixpoint add_buckets (a b : list Z) : list Z :=
  match a, b with
  | x :: a', y :: b' => (x + y) :: add_buckets a' b'
  | [], _ => b
  | _, [] => a
  end.

(** [df.groupby('Pattern').sum().reset_index()]: one row per distinct
    pattern, the rows sorted by pattern, each bucket the sum of the bucket
    over the rows of the pattern.  Built by adding one row at a time to the
    sorted result. *)
Fixpoint group_add (acc : DataFrame) (r : row) : DataFrame :=
  match acc with
  | [] => [r]
  | r' :: acc' =>
      match String.compare (Pattern r) (Pattern r') with
      | Eq => (Pattern r', add_buckets (buckets r') (buckets r)) :: acc'
      | Lt => r :: acc
      | Gt => r' :: group_add acc' r
      end
  end.

Definition groupby_Pattern_sum (df : DataFrame) : DataFrame :=
  fold_left group_add df [].

(** Rows sorted by pattern, no pattern twice. *)
Definition sorted_rows (df : DataFrame) : Prop :=
  StronglySorted
    (fun r r' => String.compare (Pattern r) (Pattern r') = Lt) df.

(** *** Float columns

    The quotients of counts are kept as exact rationals: binary64 rounding
    of a quotient is left out.  What division by zero yields is kept: an
    infinity for a non-zero numerator, NaN for [0/0]. *)
Inductive float : Type :=
| Fin (q : Q)
| PInf
| NInf
| NaN.

Definition isnan (x : float) : bool :=
  match x with
  | NaN => true
  | _ => false
  end.

(** [x / s] on integer columns. *)
Definition truediv (x s : Z) : float :=
  if s =? 0 then
    if x =? 0 then NaN else if 0 <? x then PInf else NInf
  else Fin (inject_Z x / inject_Z s).

Definition fadd (a b : float) : float :=
  match a, b with
  | NaN, _ | _, NaN => NaN
  | PInf, NInf | NInf, PInf => NaN
  | PInf, _ | _, PInf => PInf
  | NInf, _ | _, NInf => NInf
  | Fin x, Fin y => Fin (x + y)
  end.

(** [series.sum()]: [skipna=True] is the default, NaN entries are left
    out of the sum. *)
Definition series_sum (l : list float) : float :=
  fold_left fadd (filter (fun x => negb (isnan x)) l) (Fin 0).

(** [df[cols]] for the first [ncols] bucket columns. *)
Definition select (ncols : nat) (r : row) : list Z :=
  map (fun c => cell c r) (seq 0 ncols).

(** One entry of [df[cols].sum(axis=1)]. *)
Definition row_sum (ncols : nat) (r : row) : Z :=
  fold_right Z.add 0 (select ncols r).

(** One row of [df[cols].div(row_sums, axis=0)]. *)
Definition normalized_row (ncols : nat) (r : row) : list float :=
  map (fun x => truediv x (row_sum ncols r)) (select ncols r).

Definition normalized_counts (ncols : nat) (df : DataFrame)
  : list (list float) :=
  map (normalized_row ncols) df.

(** [normalized_counts[col]] *)
Definition column (c : nat) (n : list (list float)) : list float :=
  map (fun r => nth c r NaN) n.

End pandas.

(* ================================================================= *)
(** ** [extract_score_data.py] *)

Module extract_score_data.
Import Py music21.

(** The exceptions that can arise: a missing [dict] key, an index out of
    range, and whatever [converter.parse] raises (kept by its message). *)
Inductive exn : Type :=
| KeyError (key : string)
| IndexError
| ParseError (msg : string).

(** [str(e)] *)
Definition exn_str (e : exn) : string :=
  match e with
  | KeyError k => ("'" ++ k ++ "'")%string
  | IndexError => "list index out of range"
  | ParseError msg => msg
  end.

(** *** The annotation tree

    Four levels of [dict]s: section, sana, line, line section.  A field is
    [None] when the [dict] lacks the key.  ['score'] is the key the
    extraction adds. *)

Record line_section : Type := {
  ls_start : option Q;
  ls_end : option Q;
  ls_score : option Stream
}.

Record line : Type := {
  l_start : option Q;
  l_end : option Q;
  l_score : option Stream;
  l_sections : option (list line_section)
}.

Record sana : Type := {
  sa_start : option Q;
  sa_end : option Q;
  sa_score : option Stream;
  sa_lines : option (list line)
}.

Record section : Type := {
  s_start : option Q;
  s_end : option Q;
  s_score : option Stream;
  s_sanai : option (list sana)
}.

(** One record of the annotation set. *)
Record annotation : Type := {
  a_mbid : option string;
  a_sections : option (list section)
}.

(** A value of the corpus: [{'score': ..., 'annotations': ...}]. *)
Record score_info : Type := {
  score : Score;
  annotations : list section
}.

(** *** [get_score_data] *)

(** [os.path.join(a, b)] (POSIX). *)
Definition ends_with_sep (a : string) : bool :=
  match rev (list_ascii_of_string a) with
  | c :: _ => Ascii.eqb c "/"%char
  | [] => false
  end.

Definition os_path_join (a b : string) : string :=
  if String.prefix "/" b then b
  else if String.eqb a "" || ends_with_sep a then (a ++ b)%string
  else (a ++ "/" ++ b)%string.

(** What the function can be seen to do: the corpus it builds, the lines
    it prints, and the files it hands to [converter.parse]. *)
Record world : Type := {
  scores : dict score_info;
  stdout : list string;
  parsed : list string
}.

Definition empty_world : world :=
  {| scores := []; stdout := []; parsed := [] |}.

Definition error_line (file_path : string) (e : exn) : string :=
  ("Error parsing file '" ++ file_path ++ "': " ++ exn_str e)%string.

Section GetScoreData.

(** [converter.parse]: a score, or the exception it raises. *)
Variable converter_parse : string -> exn + Score.

(** The body of the [try]: the [for annotation in annotations] loop.
    The result is the world it leaves and the exception that ended it,
    if one did. *)
Fixpoint try_body (annotations : list annotation)
         (mbid file_path : string) (w : world) : world * option exn :=
  match annotations with
  | [] => (w, None)
  | annotation :: rest =>
      match a_mbid annotation with
      | None => (w, Some (KeyError "mbid"))
      | Some m =>
          if String.eqb m mbid then
            let w1 := {| scores := scores w;
                         stdout := stdout w;
                         parsed := parsed w ++ [file_path] |} in
            match converter_parse file_path with
            | inl e => (w1, Some e)
            | inr sc =>
                match a_sections annotation with
                | None => (w1, Some (KeyError "sections"))
                | Some secs =>
                    ({| scores :=
                          dict_set (scores w1) mbid
                                   {| score := sc; annotations := secs |};
                        stdout := stdout w1;
                        parsed := parsed w1 |}, None)
                end
            end
          else try_body rest mbid file_path w
      end
  end.

(** One turn of [for file_name in scores_folder], [except] included. *)
Definition process_file (folder_path : string)
           (annotations : list annotation) (w : world)
           (file_name : string) : world :=
  let mbid := split_head ".xml" file_name in
  let file_path := os_path_join folder_path file_name in
  match try_body annotations mbid file_path w with
  | (w', None) => w'
  | (w', Some e) =>
      {| scores := scores w';
         stdout := stdout w' ++ [error_line file_path e];
         parsed := parsed w' |}
  end.

(** The loop from a given world on. *)
Definition get_score_data_from (w : world) (scores_folder : list string)
           (folder_path : string) (annotations : list annotation)
  : world :=
  fold_left (process_file folder_path annotations) scores_folder w.

(** [get_score_data(scores_folder, folder_path, annotations)]; the value
    returned is the [scores] of the result. *)
Definition get_score_data (scores_folder : list string)
           (folder_path : string) (annotations : list annotation)
  : world :=
  get_score_data_from empty_world scores_folder folder_path annotations.

End GetScoreData.

(** A record that has an ['mbid'] other than [mbid]: the loop passes it. *)
Definition unmatched (mbid : string) (r : annotation) : Prop :=
  exists m, a_mbid r = Some m /\ m <> mbid.

(** [parse_score_info(score_info)] *)
Definition parse_score_info (score_info : score_info)
  : Score * list section :=
  (score score_info, annotations score_info).

(** *** [extract_measures] *)

(** [extracted_part] after the loop has appended the elements [els]. *)
Definition append_all (extracted_part : Stream) (els : list element)
  : Stream :=
  fold_left append els extracted_part.

Definition extract_measures (score : Stream) (start_offset end_offset : Q)
  : Stream :=
  append_all [] (getElementsByOffset score start_offset end_offset false).

(** *** [extract_sections]

    The loops update the tree in place, so each level returns the nodes as
    the loop left them and the [KeyError] that stopped it, if any. *)

Fixpoint extract_line_sections (score : Stream) (l : list line_section)
  : list line_section * option exn :=
  match l with
  | [] => ([], None)
  | line_section :: rest =>
      match ls_start line_section with
      | None => (l, Some (KeyError "start"))
      | Some line_section_start =>
          match ls_end line_section with
          | None => (l, Some (KeyError "end"))
          | Some line_section_end =>
              let done :=
                {| ls_start := ls_start line_section;
                   ls_end := ls_end line_section;
                   ls_score :=
                     Some (extract_measures score line_section_start
                                            line_section_end) |} in
              let (rest', e) := extract_line_sections score rest in
              (done :: rest', e)
          end
      end
  end.

Fixpoint extract_lines (score : Stream) (l : list line)
  : list line * option exn :=
  match l with
  | [] => ([], None)
  | line :: rest =>
      match l_start line with
      | None => (l, Some (KeyError "start"))
      | Some line_start =>
          match l_end line with
          | None => (l, Some (KeyError "end"))
          | Some line_end =>
              let line_measures :=
                extract_measures score line_start line_end in
              match l_sections line with
              | None =>
                  let done := {| l_start := l_start line;
                                 l_end := l_end line;
                                 l_score := Some line_measures;
                                 l_sections := None |} in
                  let (rest', e) := extract_lines score rest in
                  (done :: rest', e)
              | Some line_sections =>
                  let (line_sections', e1) :=
                    extract_line_sections score line_sections in
                  let done := {| l_start := l_start line;
                                 l_end := l_end line;
                                 l_score := Some line_measures;
                                 l_sections := Some line_sections' |} in
                  match e1 with
                  | Some e => (done :: rest, Some e)
                  | None =>
                      let (rest', e) := extract_lines score rest in
                      (done :: rest', e)
                  end
              end
          end
      end
  end.

Fixpoint extract_sanai (score : Stream) (l : list sana)
  : list sana * option exn :=
  match l with
  | [] => ([], None)
  | sana :: rest =>
      match sa_start sana with
      | None => (l, Some (KeyError "start"))
      | Some sana_start =>
          match sa_end sana with
          | None => (l, Some (KeyError "end"))
          | Some sana_end =>
              let sana_measures :=
                extract_measures score sana_start sana_end in
              match sa_lines sana with
              | None =>
                  let done := {| sa_start := sa_start sana;
                                 sa_end := sa_end sana;
                                 sa_score := Some sana_measures;
                                 sa_lines := None |} in
                  let (rest', e) := extract_sanai score rest in
                  (done :: rest', e)
              | Some lines =>
                  let (lines', e1) := extract_lines score lines in
                  let done := {| sa_start := sa_start sana;
                                 sa_end := sa_end sana;
                                 sa_score := Some sana_measures;
                                 sa_lines := Some lines' |} in
                  match e1 with
                  | Some e => (done :: rest, Some e)
                  | None =>
                      let (rest', e) := extract_sanai score rest in
                      (done :: rest', e)
                  end
              end
          end
      end
  end.

(** [extract_sections(score, score_sections)] *)
Fixpoint extract_sections (score : Stream) (score_sections : list section)
  : list section * option exn :=
  match score_sections with
  | [] => ([], None)
  | section :: rest =>
      match s_start section with
      | None => (score_sections, Some (KeyError "start"))
      | Some start_measure =>
          match s_end section with
          | None => (score_sections, Some (KeyError "end"))
          | Some end_measure =>
              let extracted_measures :=
                extract_measures score start_measure end_measure in
              match s_sanai section with
              | None =>
                  let done := {| s_start := s_start section;
                                 s_end := s_end section;
                                 s_score := Some extracted_measures;
                                 s_sanai := None |} in
                  let (rest', e) := extract_sections score rest in
                  (done :: rest', e)
              | Some sanai =>
                  let (sanai', e1) := extract_sanai score sanai in
                  let done := {| s_start := s_start section;
                                 s_end := s_end section;
                                 s_score := Some extracted_measures;
                                 s_sanai := Some sanai' |} in
                  match e1 with
                  | Some e => (done :: rest, Some e)
                  | None =>
                      let (rest', e) := extract_sections score rest in
                      (done :: rest', e)
                  end
              end
          end
      end
  end.

(** *** [add_streams_to_score_data]

    No [try] surrounds the body of [for mbid in scores_data]: an exception
    raised for one piece leaves the function at once. *)
Fixpoint add_streams_to_score_data (scores_data : dict score_info)
  : dict score_info * option exn :=
  match scores_data with
  | [] => ([], None)
  | (mbid, info) :: rest =>
      let (score, annotations) := parse_score_info info in
      match parts score with
      | [] => (scores_data, Some IndexError)
      | part0 :: _ =>
          let flattened_score := notesAndRests part0 in
          let (score_sections, e1) :=
            extract_sections flattened_score annotations in
          let done := (mbid, {| score := score;
                                annotations := score_sections |}) in
          match e1 with
          | Some e => (done :: rest, Some e)
          | None =>
              let (rest', e) := add_streams_to_score_data rest in
              (done :: rest', e)
          end
      end
  end.

(** *** Shape of an annotation tree *)

(** Every declared node has both ['start'] and ['end']. *)
Definition has_span (a b : option Q) : bool :=
  match a, b with
  | Some _, Some _ => true
  | _, _ => false
  end.

Definition children_ok {A : Type} (ok : A -> bool) (c : option (list A))
  : bool :=
  match c with
  | None => true
  | Some l => forallb ok l
  end.

Definition line_section_ok (x : line_section) : bool :=
  has_span (ls_start x) (ls_end x).

Definition line_ok (x : line) : bool :=
  has_span (l_start x) (l_end x)
  && children_ok line_section_ok (l_sections x).

Definition sana_ok (x : sana) : bool :=
  has_span (sa_start x) (sa_end x) && children_ok line_ok (sa_lines x).

Definition section_ok (x : section) : bool :=
  has_span (s_start x) (s_end x) && children_ok sana_ok (s_sanai x).

Definition well_formed (tree : list section) : bool :=
  forallb section_ok tree.

(** Every declared node carries its slice. *)
Definition has_score (s : option Stream) : bool :=
  match s with
  | Some _ => true
  | None => false
  end.

Definition line_section_done (x : line_section) : bool :=
  has_score (ls_score x).

Definition line_done (x : line) : bool :=
  has_score (l_score x) && children_ok line_section_done (l_sections x).

Definition sana_done (x : sana) : bool :=
  has_score (sa_score x) && children_ok line_done (sa_lines x).

Definition section_done (x : section) : bool :=
  has_score (s_score x) && children_ok sana_done (s_sanai x).

(** The exception is a [KeyError] for ['start'] or ['end']. *)
Definition span_key_error (e : option exn) : Prop :=
  exists k, e = Some (KeyError k) /\ (k = "start" \/ k = "end").

(** A piece has been processed when every node of its tree has its slice. *)
Definition processed (info : score_info) : bool :=
  forallb section_done (annotations info).

(** *** [process_annotations] *)

(** [for line in lines: all_lines_scores.append(line['score'])] *)
Fixpoint lines_scores (lines : list line) : exn + list Stream :=
  match lines with
  | [] => inr []
  | line :: rest =>
      match l_score line with
      | None => inl (KeyError "score")
      | Some line_score =>
          match lines_scores rest with
          | inl e => inl e
          | inr all_lines_scores => inr (line_score :: all_lines_scores)
          end
      end
  end.

(** [for sana in sanai]: what is appended to [all_sanai_scores] and to
    [all_sanai_lines_scores]. *)
Fixpoint sanai_scores (sanai : list sana)
  : exn + (list Stream * list (list Stream)) :=
  match sanai with
  | [] => inr ([], [])
  | sana :: rest =>
      match sa_score sana with
      | None => inl (KeyError "score")
      | Some sana_score =>
          match sa_lines sana with
          | None => inl (KeyError "lines")
          | Some lines =>
              match lines_scores lines with
              | inl e => inl e
              | inr all_lines_scores =>
                  match sanai_scores rest with
                  | inl e => inl e
                  | inr (scores, lines_scores) =>
                      inr (sana_score :: scores,
                           all_lines_scores :: lines_scores)
                  end
              end
          end
      end
  end.

(** [for section in annotations] *)
Fixpoint sections_scores (annotations : list section)
  : exn + (list sana * list Stream * list (list Stream)) :=
  match annotations with
  | [] => inr ([], [], [])
  | section :: rest =>
      match s_sanai section with
      | None => sections_scores rest
      | Some sanai =>
          match sanai_scores sanai with
          | inl e => inl e
          | inr (scores, lines_scores) =>
              match sections_scores rest with
              | inl e => inl e
              | inr (all_sanai, all_scores, all_lines_scores) =>
                  inr (sanai ++ all_sanai, scores ++ all_scores,
                       lines_scores ++ all_lines_scores)
              end
          end
      end
  end.

(** [process_annotations(scores_data)]: the three lists are the function's
    own, so a raise leaves nothing of them. *)
Fixpoint process_annotations (scores_data : dict score_info)
  : exn + (list sana * list Stream * list (list Stream)) :=
  match scores_data with
  | [] => inr ([], [], [])
  | (mbid, score_info) :: rest =>
      match sections_scores (annotations score_info) with
      | inl e => inl e
      | inr (sanai, scores, lines_scores) =>
          match process_annotations rest with
          | inl e => inl e
          | inr (all_sanai, all_sanai_scores, all_sanai_lines_scores) =>
              inr (sanai ++ all_sanai, scores ++ all_sanai_scores,
                   lines_scores ++ all_sanai_lines_scores)
          end
      end
  end.

(** *** [calculate_score_section_counts]

    The counts are nested dictionaries whose values are integers or
    dictionaries.  They are updated in place through chains of subscripts
    ([counts[a][b][c]['section_count'] = n]); here an update along a path
    rebuilds the dictionaries on the way.  The dictionaries are the
    function's own, so a raise leaves nothing of them. *)

Inductive count_value : Type :=
| CInt (n : Z)
| CDict (d : list (string * count_value)).

(** A missing key, or a subscript or [in] applied to an integer. *)
Inductive count_exn : Type :=
| CKeyError (key : string)
| CTypeError.

Definition bind {E B C : Type} (m : E + B) (f : B -> E + C) : E + C :=
  match m with
  | inl e => inl e
  | inr x => f x
  end.

Notation "x <- m ;; k" := (bind m (fun x => k))
  (at level 61, m at next level, right associativity).

(** [v[p1]...[pn]] *)
Fixpoint get_path (v : count_value) (path : list string)
  : count_exn + count_value :=
  match path with
  | [] => inr v
  | p :: path' =>
      match v with
      | CInt _ => inl CTypeError
      | CDict d =>
          match dict_get d p with
          | None => inl (CKeyError p)
          | Some sub => get_path sub path'
          end
      end
  end.

(** [k in v[p1]...[pn]] *)
Definition in_path (v : count_value) (path : list string) (k : string)
  : count_exn + bool :=
  match get_path v path with
  | inl e => inl e
  | inr (CInt _) => inl CTypeError
  | inr (CDict d) =>
      inr (match dict_get d k with Some _ => true | None => false end)
  end.

(** [v[p1]...[pn][k] = x] *)
Fixpoint set_path (v : count_value) (path : list string) (k : string)
         (x : count_value) : count_exn + count_value :=
  match v with
  | CInt _ => inl CTypeError
  | CDict d =>
      match path with
      | [] => inr (CDict (dict_set d k x))
      | p :: path' =>
          match dict_get d p with
          | None => inl (CKeyError p)
          | Some sub =>
              sub' <- set_path sub path' k x ;;
              inr (CDict (dict_set d p sub'))
          end
      end
  end.

(** [if k not in v[p1]...[pn]: v[p1]...[pn][k] = {}] *)
Definition ensure (counts : count_value) (path : list string) (k : string)
  : count_exn + count_value :=
  present <- in_path counts path k ;;
  if present then inr counts else set_path counts path k (CDict []).

(** [for line_section in line['sections']: line_section_count += 1] *)
Definition count_line_sections (line_sections : list line_section) : Z :=
  fold_left (fun line_section_count _ => line_section_count + 1)
            line_sections 0.

(** [for line in sana['lines']], entered with [line_count] behind. *)
Fixpoint lines_loop (this_sanai this_sana : string) (lines : list line)
         (line_count : Z) (counts : count_value)
  : count_exn + (count_value * Z) :=
  match lines with
  | [] => inr (counts, line_count)
  | line :: rest =>
      let line_count := line_count + 1 in
      let this_line := ("line_" ++ str line_count)%string in
      counts <- ensure counts [this_sanai; this_sana] this_line ;;
      line_sections <- match l_sections line with
                       | None => inl (CKeyError "sections")
                       | Some line_sections => inr line_sections
                       end ;;
      let line_section_count := count_line_sections line_sections in
      counts <- set_path counts [this_sanai; this_sana; this_line]
                         "section_count" (CInt line_section_count) ;;
      lines_loop this_sanai this_sana rest line_count counts
  end.

(** [for sana in section[sanai]], entered with [sana_count] behind. *)
Fixpoint sanai_loop (this_sanai : string) (sanai : list sana)
         (sana_count : Z) (counts : count_value)
  : count_exn + (count_value * Z) :=
  match sanai with
  | [] => inr (counts, sana_count)
  | sana :: rest =>
      let sana_count := sana_count + 1 in
      let this_sana := ("sana_" ++ str sana_count)%string in
      counts <- ensure counts [this_sanai] this_sana ;;
      lines <- match sa_lines sana with
               | None => inl (CKeyError "lines")
               | Some lines => inr lines
               end ;;
      r <- lines_loop this_sanai this_sana lines 0 counts ;;
      counts <- set_path (fst r) [this_sanai; this_sana]
                         "line_count" (CInt (snd r)) ;;
      sanai_loop this_sanai rest sana_count counts
  end.

(** [for section in annotations], entered with the [sanai_count] reached
    so far: the counter is set to [0] once, before the loop over the
    pieces. *)
Fixpoint sections_loop (annotations : list section) (sanai_count : Z)
         (counts : count_value) : count_exn + (count_value * Z) :=
  match annotations with
  | [] => inr (counts, sanai_count)
  | section :: rest =>
      r <- match s_sanai section with
           | None => inr (counts, sanai_count)
           | Some sanai =>
               let sanai_count := sanai_count + 1 in
               let this_sanai := ("sanai_" ++ str sanai_count)%string in
               counts <- ensure counts [] this_sanai ;;
               r <- sanai_loop this_sanai sanai 0 counts ;;
               counts <- set_path (fst r) [this_sanai]
                                  "sana_count" (CInt (snd r)) ;;
               inr (counts, sanai_count)
           end ;;
      counts <- set_path (fst r) [] "sanai_count" (CInt (snd r)) ;;
      sections_loop rest (snd r) counts
  end.

(** [for mbid in scores_data] *)
Fixpoint pieces_loop (scores_data : dict score_info) (sanai_count : Z)
         (score_section_counts : dict count_value)
  : count_exn + dict count_value :=
  match scores_data with
  | [] => inr score_section_counts
  | (mbid, info) :: rest =>
      let (_, annotations) := parse_score_info info in
      r <- sections_loop annotations sanai_count (CDict []) ;;
      pieces_loop rest (snd r) (dict_set score_section_counts mbid (fst r))
  end.

Definition calculate_score_section_counts (scores_data : dict score_info)
  : count_exn + dict count_value :=
  pieces_loop scores_data 0 [].

End extract_score_data.

(* ================================================================= *)
(** ** [score_data_processing.py]: the quartile scheme *)

Module score_data_processing.
Import Py music21.

(** Loop state of [count_pattern_in_score]. *)
Record counters : Type := {
  pattern_count : Z;
  first_quarter_count : Z;
  last_quarter_count : Z
}.

(** One turn of [for i in range(...)]. *)
Definition count_step (score_pitch_names pattern : list string)
           (score_length : Z) (c : counters) (i : Z) : counters :=
  if list_eqb (slice score_pitch_names i (i + len pattern)) pattern then
    let n := pattern_count c + 1 in
    if i <? int_mul score_length f0_25 then
      {| pattern_count := n;
         first_quarter_count := first_quarter_count c + 1;
         last_quarter_count := last_quarter_count c |}
    else if i >=? score_length - int_mul score_length f0_25 then
      {| pattern_count := n;
         first_quarter_count := first_quarter_count c;
         last_quarter_count := last_quarter_count c + 1 |}
    else
      {| pattern_count := n;
         first_quarter_count := first_quarter_count c;
         last_quarter_count := last_quarter_count c |}
  else c.

(** [count_pattern_in_score(score, pattern)]: the counts for the first
    quarter, the middle half and the last quarter of the score. *)
Definition count_pattern_in_score (score : Stream) (pattern : list string)
  : Z * Z * Z :=
  let score_pitch_names := note_names score in
  let score_length := len score_pitch_names in
  let c := fold_left (count_step score_pitch_names pattern score_length)
                     (range (len score_pitch_names - len pattern + 1))
                     {| pattern_count := 0;
                        first_quarter_count := 0;
                        last_quarter_count := 0 |} in
  let middle_count :=
    pattern_count c - (first_quarter_count c + last_quarter_count c) in
  (first_quarter_count c, middle_count, last_quarter_count c).

(** *** Aggregation *)

(** [key.split(':')[0].strip()] *)
Definition prefix_of (key : string) : string := strip (split_head ":" key).

(** The first loop of [count_distribution_over_dataset]: the tables of a
    prefix concatenated, in the order the prefixes are first met. *)
Definition merge_step (merged_data : dict pandas.DataFrame)
           (item : string * pandas.DataFrame) : dict pandas.DataFrame :=
  let (key, df) := item in
  let prefix := prefix_of key in
  match dict_get merged_data prefix with
  | None => dict_set merged_data prefix df
  | Some merged => dict_set merged_data prefix (pandas.concat merged df)
  end.

(** [count_distribution_over_dataset(cumulative_centos_positions)] *)
Definition count_distribution_over_dataset
           (cumulative_centos_positions : dict pandas.DataFrame)
  : dict pandas.DataFrame :=
  let merged_data := fold_left merge_step cumulative_centos_positions [] in
  map (fun item => (fst item, pandas.groupby_Pattern_sum (snd item)))
      merged_data.

(** The body of [for df in scores_data.values()] in
    [combine_normalized_position_counts], for [ncols] bucket columns:
    [total_counts[col] += normalized_counts[col].sum()] for every column. *)
Definition combine_step (ncols : nat) (total_counts : list pandas.float)
           (df : pandas.DataFrame) : list pandas.float :=
  let normalized_counts := pandas.normalized_counts ncols df in
  map (fun c => pandas.fadd (nth c total_counts pandas.NaN)
                  (pandas.series_sum (pandas.column c normalized_counts)))
      (seq 0 ncols).

Definition combine_columns (ncols : nat)
           (scores_data : dict pandas.DataFrame) : list pandas.float :=
  fold_left (combine_step ncols) (map snd scores_data)
            (repeat (pandas.Fin 0) ncols).

(** [combine_normalized_position_counts(scores_data)]: the totals for
    ['Start 25%'], ['Middle 50%'] and ['End 25%']. *)
Definition combine_normalized_position_counts
           (scores_data : dict pandas.DataFrame) : list pandas.float :=
  combine_columns 3 scores_data.

(** *** Counting every pattern *)

(** [count_all_patterns(score, patterns, pattern_counter)]: the counter is
    a parameter, so its result type is one. *)
Definition count_all_patterns {A : Type} (score : Stream)
           (patterns : list (list string))
           (pattern_counter : Stream -> list string -> A) : dict A :=
  fold_left
    (fun pattern_counts pattern =>
       let pattern_str := join pattern in
       let pattern_count := pattern_counter score pattern in
       dict_set pattern_counts pattern_str pattern_count)
    patterns [].

(** *** Counting in every sana and every line *)

Section Wrapper.
Import extract_score_data.

Context {A : Type}.
Variables (patterns : list (list string))
          (pattern_counter : Stream -> list string -> A).

(** [all_centos_counts[mbid]]: [{'sanai': {...}, 'lines': {...}}]. *)
Record centos_counts : Type := {
  cc_sanai : dict (dict A);
  cc_lines : dict (dict A)
}.

(** ['section_' + str(section_count) + '_sana_' + str(sana_count)] *)
Definition which_sana (section_count sana_count : Z) : string :=
  ("section_" ++ str section_count ++ "_sana_" ++ str sana_count)%string.

(** [which_sana + '_line_' + str(line_count)] *)
Definition which_line (which_sana : string) (line_count : Z) : string :=
  (which_sana ++ "_line_" ++ str line_count)%string.

(** [for line in sana['lines']], entered with [line_count] lines behind. *)
Fixpoint count_lines (which_sana : string) (lines : list line)
         (line_count : Z) (c : centos_counts) : exn + centos_counts :=
  match lines with
  | [] => inr c
  | line :: rest =>
      let line_count := line_count + 1 in
      match l_score line with
      | None => inl (KeyError "score")
      | Some line_score =>
          let which_line := which_line which_sana line_count in
          let line_pattern_counts :=
            count_all_patterns line_score patterns pattern_counter in
          count_lines which_sana rest line_count
                      {| cc_sanai := cc_sanai c;
                         cc_lines := dict_set (cc_lines c) which_line
                                              line_pattern_counts |}
      end
  end.

(** [for sana in section[sanai]], entered with [sana_count] behind. *)
Fixpoint count_sanai (section_count : Z) (sanai : list sana)
         (sana_count : Z) (c : centos_counts) : exn + centos_counts :=
  match sanai with
  | [] => inr c
  | sana :: rest =>
      let sana_count := sana_count + 1 in
      match sa_score sana with
      | None => inl (KeyError "score")
      | Some sana_score =>
          let which_sana := which_sana section_count sana_count in
          let sana_pattern_counts :=
            count_all_patterns sana_score patterns pattern_counter in
          let c := {| cc_sanai := dict_set (cc_sanai c) which_sana
                                           sana_pattern_counts;
                      cc_lines := cc_lines c |} in
          match sa_lines sana with
          | None => inl (KeyError "lines")
          | Some lines =>
              match count_lines which_sana lines 0 c with
              | inl e => inl e
              | inr c => count_sanai section_count rest sana_count c
              end
          end
      end
  end.

(** [for section in annotations], entered with [section_count] behind. *)
Fixpoint count_sections (annotations : list section) (section_count : Z)
         (c : centos_counts) : exn + centos_counts :=
  match annotations with
  | [] => inr c
  | section :: rest =>
      let section_count := section_count + 1 in
      match s_sanai section with
      | None => count_sections rest section_count c
      | Some sanai =>
          match count_sanai section_count sanai 0 c with
          | inl e => inl e
          | inr c => count_sections rest section_count c
          end
      end
  end.

(** [for mbid in scores]: the entry of a piece is put in place empty and
    filled in place, which for the dictionary is one assignment of the
    filled entry. *)
Fixpoint count_pieces (scores : dict score_info)
         (all_centos_counts : dict centos_counts)
  : exn + dict centos_counts :=
  match scores with
  | [] => inr all_centos_counts
  | (mbid, info) :: rest =>
      let (_, annotations) := parse_score_info info in
      match count_sections annotations 0
                           {| cc_sanai := []; cc_lines := [] |} with
      | inl e => inl e
      | inr c => count_pieces rest (dict_set all_centos_counts mbid c)
      end
  end.

(** [count_all_patterns_wrapper(scores, patterns, pattern_counter)]: the
    dictionary is the function's own, so a raise leaves nothing of it. *)
Definition count_all_patterns_wrapper (scores : dict score_info)
  : exn + dict centos_counts :=
  count_pieces scores [].

End Wrapper.

(** *** Position tables *)

(** The columns filled by the two loops of [count_centos_positions]: one
    row per section label and pattern key, in the order of the
    dictionaries; [buckets_of] reads the buckets off the counts. *)
Definition position_rows {A : Type} (buckets_of : A -> list Z)
           (centos_counts_dict : dict (dict A)) : pandas.DataFrame :=
  flat_map (fun item =>
              map (fun pattern_counts =>
                     (fst pattern_counts, buckets_of (snd pattern_counts)))
                  (snd item))
           centos_counts_dict.

(** [counts[0]], [counts[1]], [counts[2]] *)
Definition quartile_buckets (counts : Z * Z * Z) : list Z :=
  let '(start, middle, end_) := counts in [start; middle; end_].

(** [count_centos_positions(centos_counts_dict)]: the frame grouped by
    pattern; the renaming of the columns changes no value. *)
Definition count_centos_positions
           (centos_counts_dict : dict (dict (Z * Z * Z)))
  : pandas.DataFrame :=
  pandas.groupby_Pattern_sum
    (position_rows quartile_buckets centos_counts_dict).

(** *** Tables by title *)

Section TabMizan.
Import extract_score_data.

Context {A : Type}.

(** The literal that starts the name of the tab: it has code points
    above 255, which the strings here do not hold, so it is a parameter. *)
Variable tab : string.

Variables (scores_mizan_dict : dict (list string))
          (centos_positions_counter : dict (dict A) -> pandas.DataFrame)
          (centos_list_names : list string).

(** [tab + ''.join(str(mizan) for mizan in mizan_values)], the mizans
    given in the order in which the set is iterated. *)
Definition tab_mizan_name (mizans : list string) : string :=
  let mizan_values :=
    filter (fun mizan => negb (String.eqb mizan "none")) mizans in
  (tab ++ join mizan_values)%string.

(** [for mbid, count_data in centos_list.items()], for the list at
    index [i]; [count_data] has both of its keys. *)
Fixpoint titles_loop (i : nat) (centos_list : dict (@centos_counts A))
         (cumulative : dict pandas.DataFrame * dict pandas.DataFrame)
  : exn + (dict pandas.DataFrame * dict pandas.DataFrame) :=
  match centos_list with
  | [] => inr cumulative
  | (mbid, count_data) :: rest =>
      match dict_get scores_mizan_dict mbid with
      | None => inl (KeyError mbid)
      | Some mizans =>
          let tab_mizan_name := tab_mizan_name mizans in
          match nth_error centos_list_names i with
          | None => inl IndexError
          | Some name =>
              let sanai_title :=
                (name ++ ": sanai of " ++ tab_mizan_name)%string in
              let line_title :=
                (name ++ ": lines of " ++ tab_mizan_name)%string in
              titles_loop i rest
                (dict_set (fst cumulative) sanai_title
                          (centos_positions_counter (cc_sanai count_data)),
                 dict_set (snd cumulative) line_title
                          (centos_positions_counter (cc_lines count_data)))
          end
      end
  end.

(** [for i, centos_list in enumerate(centos_counts)] *)
Fixpoint lists_loop (i : nat) (centos_counts : list (dict (@centos_counts A)))
         (cumulative : dict pandas.DataFrame * dict pandas.DataFrame)
  : exn + (dict pandas.DataFrame * dict pandas.DataFrame) :=
  match centos_counts with
  | [] => inr cumulative
  | centos_list :: rest =>
      match titles_loop i centos_list cumulative with
      | inl e => inl e
      | inr cumulative => lists_loop (S i) rest cumulative
      end
  end.

(** [get_centos_counts_per_tab_mizan_score(centos_counts,
    scores_mizan_dict, centos_positions_counter, centos_list_names)]: the
    two dictionaries are the function's own, so a raise leaves nothing of
    them. *)
Definition get_centos_counts_per_tab_mizan_score
           (centos_counts : list (dict (@centos_counts A)))
  : exn + (dict pandas.DataFrame * dict pandas.DataFrame) :=
  lists_loop 0 centos_counts ([], []).

End TabMizan.

End score_data_processing.

(* ================================================================= *)
(** ** [seg2_score_data_processing.py]: the decile scheme *)

Module seg2_score_data_processing.
Import Py music21.

(** The keys of [distributed_pattern_counts], in the order of the source. *)
Inductive pct : Type :=
| pct_10 | pct_20 | pct_30 | pct_40 | pct_50
| pct_60 | pct_70 | pct_80 | pct_90 | pct_100.

Definition pct_eqb (a b : pct) : bool :=
  match a, b with
  | pct_10, pct_10 | pct_20, pct_20 | pct_30, pct_30 | pct_40, pct_40
  | pct_50, pct_50 | pct_60, pct_60 | pct_70, pct_70 | pct_80, pct_80
  | pct_90, pct_90 | pct_100, pct_100 => true
  | _, _ => false
  end.

Definition all_pct : list pct :=
  [pct_10; pct_20; pct_30; pct_40; pct_50;
   pct_60; pct_70; pct_80; pct_90; pct_100].

(** The dictionary itself: every key is present from the start, so it is a
    total map from keys to counts. *)
Definition pct_counts : Type := pct -> Z.

Definition zero_counts : pct_counts := fun _ => 0.

(** [d[k] += 1] *)
Definition incr (d : pct_counts) (k : pct) : pct_counts :=
  fun k' => if pct_eqb k k' then d k' + 1 else d k'.

(** The [if]/[elif] chain: the key incremented for an occurrence at [i],
    [None] when no branch is taken. *)
Definition branch (score_length i : Z) : option pct :=
  let t c := int_mul score_length c in
  if i <? t f0_1 then Some pct_10
  else if (i >=? t f0_1) && (i <? t f0_2) then Some pct_20
  else if (i >=? t f0_2) && (i <? t f0_3) then Some pct_30
  else if (i >=? t f0_3) && (i <? t f0_4) then Some pct_40
  else if (i >=? t f0_4) && (i <? t f0_5) then Some pct_50
  else if (i >=? t f0_5) && (i <? t f0_6) then Some pct_60
  else if (i >=? t f0_6) && (i <? t f0_7) then Some pct_70
  else if (i >=? t f0_7) && (i <? t f0_8) then Some pct_80
  else if (i >=? t f0_8) && (i <? t f0_9) then Some pct_90
  else if i >=? score_length - t f0_1 then Some pct_100
  else None.

(** Whether an occurrence at [i] is counted at all. *)
Definition counted (score_length i : Z) : bool :=
  match branch score_length i with
  | Some _ => true
  | None => false
  end.

(** The indices of a list of [score_length] names at which an occurrence
    would not be counted. *)
Definition dropped_indices (score_length : Z) : list Z :=
  filter (fun i => negb (counted score_length i)) (range score_length).

(** One turn of [for i in range(...)]. *)
Definition count_step (score_pitch_names pattern : list string)
           (score_length : Z) (d : pct_counts) (i : Z) : pct_counts :=
  if list_eqb (slice score_pitch_names i (i + len pattern)) pattern then
    match branch score_length i with
    | Some k => incr d k
    | None => d
    end
  else d.

(** [count_pattern_in_score(score, pattern)] *)
Definition count_pattern_in_score (score : Stream) (pattern : list string)
  : pct_counts :=
  let score_pitch_names := note_names score in
  let score_length := len score_pitch_names in
  fold_left (count_step score_pitch_names pattern score_length)
            (range (len score_pitch_names - len pattern + 1))
            zero_counts.

(** The ten counts of a result, in key order. *)
Definition values (d : pct_counts) : list Z := map d all_pct.

(** [combine_normalized_position_counts(scores_data)]: the same loop as in
    the quartile module, over the ten percentile columns. *)
Definition combine_normalized_position_counts
           (scores_data : dict pandas.DataFrame) : list pandas.float :=
  score_data_processing.combine_columns 10 scores_data.

(** [count_centos_positions(centos_counts_dict)]: as in the quartile
    module, with the ten percentile counts of each entry. *)
Definition count_centos_positions
           (centos_counts_dict : dict (dict pct_counts))
  : pandas.DataFrame :=
  pandas.groupby_Pattern_sum
    (score_data_processing.position_rows values centos_counts_dict).

End seg2_score_data_processing.

(* ================================================================= *)
(** ** Occurrences of a pattern, as the specification defines them *)

Module Occurrence.
Import Py.

(** [names[i:i+len(pattern)] == pattern] *)
Definition is_occurrence (names pattern : list string) (i : Z) : bool :=
  list_eqb (slice names i (i + len pattern)) pattern.

(** The start indices [i] in [[0, len(names) - len(pattern)]] with
    [names[i:i+len(pattern)] == pattern], in increasing order. *)
Definition occurrences (names pattern : list string) : list Z :=
  filter (is_occurrence names pattern)
         (range (len names - len pattern + 1)).

Definition total_occurrences (names pattern : list string) : Z :=
  len (occurrences names pattern).

(** How many of the indices in [l] satisfy [p]. *)
Definition count (p : Z -> bool) (l : list Z) : Z := len (filter p l).

Definition sum (l : list Z) : Z := fold_right Z.add 0 l.

(** The quartile scheme in the specification's words: an occurrence at
    [i] in a list of [N] names is in the first quarter iff
    [i < floor(0.25*N)], in the last quarter iff
    [i >= N - floor(0.25*N)], in the middle half otherwise. *)
Inductive position : Type := Start_25 | Middle_50 | End_25.

Definition in_start (N i : Z) : bool := i <? N / 4.
Definition in_end (N i : Z) : bool := N - N / 4 <=? i.
Definition in_middle (N i : Z) : bool :=
  negb (in_start N i) && negb (in_end N i).

Definition quartile_bucket (N i : Z) : position :=
  if in_start N i then Start_25
  else if in_end N i then End_25
  else Middle_50.

End Occurrence.

(* ================================================================= *)
(** ** Groups of tables, as the specification speaks of them *)

Module Aggregation.
Import Py pandas.

(** The sum of bucket column [c] over the rows of [df] whose pattern is
    [p]. *)
Definition table_sum (c : nat) (p : string) (df : DataFrame) : Z :=
  fold_right
    (fun r acc => (if String.eqb (Pattern r) p then cell c r else 0) + acc)
    0 df.






(** *** Rows with a zero total *)







(** *** Totals *)






End Aggregation.

(* ================================================================= *)
(** ** Trees, corpora and pattern lists, as their users see them *)

Module Outcome.
Import Py music21 extract_score_data.

(** *** The tree a successful extraction leaves *)

(** The node with the slice of its own span attached; a node without its
    span is left as it is. *)
Definition attach_line_section (sc : Stream) (x : line_section)
  : line_section :=
  match ls_start x, ls_end x with
  | Some a, Some b =>
      {| ls_start := ls_start x; ls_end := ls_end x;
         ls_score := Some (extract_measures sc a b) |}
  | _, _ => x
  end.

Definition attach_line (sc : Stream) (x : line) : line :=
  match l_start x, l_end x with
  | Some a, Some b =>
      {| l_start := l_start x; l_end := l_end x;
         l_score := Some (extract_measures sc a b);
         l_sections := option_map (map (attach_line_section sc))
                                  (l_sections x) |}
  | _, _ => x
  end.

Definition attach_sana (sc : Stream) (x : sana) : sana :=
  match sa_start x, sa_end x with
  | Some a, Some b =>
      {| sa_start := sa_start x; sa_end := sa_end x;
         sa_score := Some (extract_measures sc a b);
         sa_lines := option_map (map (attach_line sc)) (sa_lines x) |}
  | _, _ => x
  end.

Definition attach_section (sc : Stream) (x : section) : section :=
  match s_start x, s_end x with
  | Some a, Some b =>
      {| s_start := s_start x; s_end := s_end x;
         s_score := Some (extract_measures sc a b);
         s_sanai := option_map (map (attach_sana sc)) (s_sanai x) |}
  | _, _ => x
  end.

(** The piece with the slices of its first part attached. *)
Definition attach_piece (item : string * score_info) : string * score_info :=
  (fst item,
   {| score := score (snd item);
      annotations :=
        map (attach_section (notesAndRests (hd [] (parts (score (snd item))))))
            (annotations (snd item)) |}).

(** A piece the extraction can process: a score with a part and a tree
    whose nodes all have their span. *)
Definition extractable (item : string * score_info) : bool :=
  match parts (score (snd item)) with
  | [] => false
  | _ :: _ => well_formed (annotations (snd item))
  end.

(** *** The tree without its slices *)

Definition erase_line_section (x : line_section) : line_section :=
  {| ls_start := ls_start x; ls_end := ls_end x; ls_score := None |}.

Definition erase_line (x : line) : line :=
  {| l_start := l_start x; l_end := l_end x; l_score := None;
     l_sections := option_map (map erase_line_section) (l_sections x) |}.

Definition erase_sana (x : sana) : sana :=
  {| sa_start := sa_start x; sa_end := sa_end x; sa_score := None;
     sa_lines := option_map (map erase_line) (sa_lines x) |}.

Definition erase_section (x : section) : section :=
  {| s_start := s_start x; s_end := s_end x; s_score := None;
     s_sanai := option_map (map erase_sana) (s_sanai x) |}.

(** *** Streams *)


(** The notes of a stream, everything else left out. *)
Definition is_note (e : element) : bool :=
  match e with
  | Note _ _ _ => true
  | _ => false
  end.

Definition notes_only (s : Stream) : Stream :=
  filter (fun oe => is_note (snd oe)) s.

(** *** Files and records *)

(** Whether the loop over the records stops at a record for [mbid]: the
    first record that has no ['mbid'] or has this one, has this one. *)
Fixpoint reaches_match (anns : list annotation) (mbid : string) : bool :=
  match anns with
  | [] => false
  | r :: rest =>
      match a_mbid r with
      | None => false
      | Some m => if String.eqb m mbid then true else reaches_match rest mbid
      end
  end.

(** The last pattern of the list whose key is [k]. *)
Definition last_with_key (patterns : list (list string)) (k : string)
  : option (list string) :=
  find (fun p => String.eqb (join p) k) (rev patterns).

(** *** Decile keys *)

(** Whether an occurrence at [i] is counted under the key [k]. *)
Definition counted_as (score_length i : Z)
           (k : seg2_score_data_processing.pct) : bool :=
  match seg2_score_data_processing.branch score_length i with
  | Some k' => seg2_score_data_processing.pct_eqb k' k
  | None => false
  end.

(** *** Trees the counting can walk *)

(** Every sana has its slice and its ['lines'], and every line of it has
    its slice. *)
Definition countable_line (x : line) : bool := has_score (l_score x).

Definition countable_sana (x : sana) : bool :=
  has_score (sa_score x)
  && match sa_lines x with
     | Some lines => forallb countable_line lines
     | None => false
     end.

Definition countable_section (x : section) : bool :=
  children_ok countable_sana (s_sanai x).

Definition countable (tree : list section) : bool :=
  forallb countable_section tree.

(** Every sana of the tree has the key ['lines']. *)
Definition sana_has_lines (x : sana) : bool :=
  match sa_lines x with
  | Some _ => true
  | None => false
  end.

Definition has_lines (tree : list section) : bool :=
  forallb (fun x => children_ok sana_has_lines (s_sanai x)) tree.

(** [enumerate(l, start)] *)
Fixpoint enumerate {B : Type} (l : list B) (start : Z) : list (Z * B) :=
  match l with
  | [] => []
  | x :: l' => (start, x) :: enumerate l' (start + 1)
  end.

(** The entry of a labelled node: the counts of every pattern in its
    slice (in the empty stream when it has none). *)
Definition counts_of {A : Type} (patterns : list (list string))
           (pattern_counter : Stream -> list string -> A)
           (s : option Stream) : dict A :=
  score_data_processing.count_all_patterns
    (match s with Some sc => sc | None => [] end) patterns pattern_counter.

(** A string without ['_']. *)
Fixpoint no_underscore (s : string) : bool :=
  match s with
  | EmptyString => true
  | String c s' => negb (Ascii.eqb c "_"%char) && no_underscore s'
  end.

(** *** The entries the counting makes *)

(** The assignments [d[k] = v] for the pairs of [l], in order. *)
Definition set_all {V : Type} (d : dict V) (l : list (string * V))
  : dict V :=
  fold_left (fun d kv => dict_set d (fst kv) (snd kv)) l d.

Section Entries.

Context {A : Type}.
Variables (patterns : list (list string))
          (pattern_counter : Stream -> list string -> A).

(** One entry per line of a sana labelled [which_sana]: line [k] of it,
    counted from [start]. *)
Definition line_entries (which_sana : string) (lines : list line)
           (start : Z) : list (string * dict A) :=
  map (fun kx =>
         (score_data_processing.which_line which_sana (fst kx),
          counts_of patterns pattern_counter (l_score (snd kx))))
      (enumerate lines start).

Definition lines_of (x : sana) : list line :=
  match sa_lines x with
  | Some lines => lines
  | None => []
  end.

Definition sanai_of (x : section) : list sana :=
  match s_sanai x with
  | Some sanai => sanai
  | None => []
  end.

(** One entry per sana of section [i]: sana [j] of it, counted from
    [start]. *)
Definition sana_entries_of (i : Z) (sanai : list sana) (start : Z)
  : list (string * dict A) :=
  map (fun jx =>
         (score_data_processing.which_sana i (fst jx),
          counts_of patterns pattern_counter (sa_score (snd jx))))
      (enumerate sanai start).

Definition line_entries_of (i : Z) (sanai : list sana) (start : Z)
  : list (string * dict A) :=
  flat_map (fun jx =>
              line_entries (score_data_processing.which_sana i (fst jx))
                           (lines_of (snd jx)) 1)
           (enumerate sanai start).

(** The entries of a tree whose sections are counted from [start];
    sections without sanai are counted too. *)
Definition sana_entries (tree : list section) (start : Z)
  : list (string * dict A) :=
  flat_map (fun ix => sana_entries_of (fst ix) (sanai_of (snd ix)) 1)
           (enumerate tree start).

Definition line_entries_in (tree : list section) (start : Z)
  : list (string * dict A) :=
  flat_map (fun ix => line_entries_of (fst ix) (sanai_of (snd ix)) 1)
           (enumerate tree start).

(** The entry of a piece: one count table per sana and one per line, in
    the order of the tree. *)
Definition piece_entry (tree : list section)
  : score_data_processing.centos_counts :=
  {| score_data_processing.cc_sanai := sana_entries tree 1;
     score_data_processing.cc_lines := line_entries_in tree 1 |}.

End Entries.

(** The number of sanai and of lines of a tree. *)
Definition count_sanai_of (tree : list section) : Z :=
  fold_right (fun x acc => len (sanai_of x) + acc) 0 tree.

Definition count_lines_of (tree : list section) : Z :=
  fold_right
    (fun x acc =>
       fold_right (fun y acc' => len (lines_of y) + acc') 0 (sanai_of x)
       + acc)
    0 tree.

(** The sanai of a corpus, in the order of the pieces and of their
    trees. *)
Definition all_sanai_of (scores_data : dict score_info) : list sana :=
  flat_map (fun item => flat_map sanai_of (annotations (snd item)))
           scores_data.

(** *** Trees whose sections can be counted *)

(** Every sana has ['lines'] and every line has ['sections']. *)
Definition line_has_sections (x : line) : bool :=
  match l_sections x with
  | Some _ => true
  | None => false
  end.

Definition sana_sections_countable (x : sana) : bool :=
  match sa_lines x with
  | Some lines => forallb line_has_sections lines
  | None => false
  end.

Definition sections_countable (tree : list section) : bool :=
  forallb (fun x => children_ok sana_sections_countable (s_sanai x)) tree.

(** The number of sections of a tree that have sanai, and of a corpus. *)
Definition has_sanai (x : section) : bool :=
  match s_sanai x with
  | Some _ => true
  | None => false
  end.

Definition sections_with_sanai (tree : list section) : Z :=
  len (filter has_sanai tree).

Definition sections_with_sanai_in (scores_data : dict score_info) : Z :=
  fold_right
    (fun item acc => sections_with_sanai (annotations (snd item)) + acc)
    0 scores_data.

(** The shape of the counts while they are built: under every key other
    than the one that holds the count there is a dictionary. *)
Definition sana_counts_ok (d : dict count_value) : Prop :=
  forall k v, dict_get d k = Some v ->
              k = "line_count" \/ exists d', v = CDict d'.

Definition sanai_counts_ok (d : dict count_value) : Prop :=
  forall k v, dict_get d k = Some v ->
              k = "sana_count"
              \/ exists d', v = CDict d' /\ sana_counts_ok d'.

Definition counts_ok (d : dict count_value) : Prop :=
  forall k v, dict_get d k = Some v ->
              k = "sanai_count"
              \/ exists d', v = CDict d' /\ sanai_counts_ok d'.

(** The occurrences of a pattern in the slices of all the sanai of a
    tree (a sana without a slice has none). *)
Definition occurrences_in_sanai (tree : list section)
           (pattern : list string) : Z :=
  fold_right
    (fun x acc =>
       Occurrence.total_occurrences
         (note_names (match sa_score x with Some sc => sc | None => [] end))
         pattern
       + acc)
    0 (flat_map sanai_of tree).

(** *** Tables by title *)

(** The value assigned last under [t] in a row of assignments. *)
Definition assigned_last {V : Type} (l : list (string * V)) (t : string)
  : option V :=
  option_map snd (find (fun kv => String.eqb (fst kv) t) (rev l)).

Section Titles.

Context {A : Type}.
Variables (tab : string) (scores_mizan_dict : dict (list string))
          (centos_positions_counter : dict (dict A) -> pandas.DataFrame)
          (centos_list_names : list string).

(** The title of the table of a piece, for the list at index [i] and the
    level [level] ([": sanai of "] or [": lines of "]). *)
Definition title_of (level : string) (i : nat) (mbid : string) : string :=
  (nth i centos_list_names "" ++ level
   ++ score_data_processing.tab_mizan_name
        tab (match dict_get scores_mizan_dict mbid with
             | Some mizans => mizans
             | None => []
             end))%string.

(** The tables of the pieces of the list at index [i] with their titles,
    in the order of the list. *)
Definition titled_tables_of
           (level : string)
           (pick : @score_data_processing.centos_counts A -> dict (dict A))
           (i : nat)
           (centos_list : dict (@score_data_processing.centos_counts A))
  : list (string * pandas.DataFrame) :=
  map (fun item =>
         (title_of level i (fst item),
          centos_positions_counter (pick (snd item))))
      centos_list.

(** The same for the lists from index [i] on. *)
Fixpoint titled_tables
         (level : string)
         (pick : @score_data_processing.centos_counts A -> dict (dict A))
         (i : nat)
         (centos_counts
            : list (dict (@score_data_processing.centos_counts A)))
  : list (string * pandas.DataFrame) :=
  match centos_counts with
  | [] => []
  | centos_list :: rest =>
      titled_tables_of level pick i centos_list
      ++ titled_tables level pick (S i) rest
  end.

(** Every piece of the lists from index [i] on has its mizans, and every
    list that has a piece has its name. *)
Definition piece_titled (i : nat)
           (item : string * @score_data_processing.centos_counts A) : bool :=
  match dict_get scores_mizan_dict (fst item),
        nth_error centos_list_names i with
  | Some _, Some _ => true
  | _, _ => false
  end.

Fixpoint all_titled
         (i : nat)
         (centos_counts
            : list (dict (@score_data_processing.centos_counts A)))
  : bool :=
  match centos_counts with
  | [] => true
  | centos_list :: rest =>
      forallb (piece_titled i) centos_list && all_titled (S i) rest
  end.

End Titles.

End Outcome.

(* ================================================================= *)
(** ** Sample inputs *)

Module Samples.
Import Py music21.

(** A stream of quarter notes with the given pitch names, one per beat. *)
Fixpoint notes_from (o : Z) (names : list string) : Stream :=
  match names with
  | [] => []
  | n :: names' => (inject_Z o, Note n 4 1) :: notes_from (o + 1) names'
  end.

Definition melody (names : list string) : Stream := notes_from 0 names.

Definition CDEFG : list string := ["C"; "D"; "E"; "F"; "G"].

(** [[C,D,E,F,G]*4]: twenty pitched notes. *)
Definition twenty_notes : Stream :=
  melody (CDEFG ++ CDEFG ++ CDEFG ++ CDEFG).

(** Fifteen pitched notes, the only [D] at index 13. *)
Definition fifteen_notes : Stream :=
  melody (repeat "C" 13 ++ ["D"; "C"]).

Definition four_notes : Stream := melody ["C"; "D"; "E"; "F"].

(** A corpus of two pieces.  The only section of piece [a] has no
    ['end']; piece [b] is well formed. *)
Import extract_score_data.

Definition section_without_end : section :=
  {| s_start := Some 0%Q; s_end := None; s_score := None;
     s_sanai := None |}.

Definition section_0_2 : section :=
  {| s_start := Some 0%Q; s_end := Some 2%Q; s_score := None;
     s_sanai := None |}.

Definition piece_a : score_info :=
  {| score := {| parts := [four_notes] |};
     annotations := [section_without_end] |}.

Definition piece_b : score_info :=
  {| score := {| parts := [four_notes] |};
     annotations := [section_0_2] |}.

Definition corpus_a_b : dict score_info :=
  [("a", piece_a); ("b", piece_b)].

(** An annotation set with two records for piece [a], and a parser that
    reads [scores/a.xml] and fails on every other file. *)
Definition record_a : annotation :=
  {| a_mbid := Some "a"; a_sections := Some [section_0_2] |}.

Definition record_a_again : annotation :=
  {| a_mbid := Some "a"; a_sections := Some [section_without_end] |}.

Definition record_c : annotation :=
  {| a_mbid := Some "c"; a_sections := Some [] |}.

Definition annotation_set : list annotation :=
  [record_c; record_a; record_a_again].

(** Two tables of one pattern source and a table of another. *)
Definition sanai_of_X : pandas.DataFrame :=
  [("CD", [1; 2; 3]); ("AB", [0; 0; 0]); ("EF", [1; 0; 1])].

Definition sanai_of_Y : pandas.DataFrame :=
  [("CD", [1; 1; 1]); ("GA", [4; 0; 0])].


Definition tables_by_title : dict pandas.DataFrame :=
  [("TF IDF centos : sanai of X", sanai_of_X);
   ("SIA centos : sanai of X", sanai_of_X);
   ("TF IDF centos : sanai of Y", sanai_of_Y)].

Definition parse_only_a (file_path : string) : exn + Score :=
  if String.eqb file_path "scores/a.xml"
  then inr {| parts := [four_notes] |}
  else inl (ParseError "not a score").

(** A piece whose score has no part. *)
Definition piece_without_parts : score_info :=
  {| score := {| parts := [] |}; annotations := [section_0_2] |}.

(** A piece with a sana of two lines, and one whose sana has no
    ['lines']. *)
Definition line_0_1 : line :=
  {| l_start := Some 0%Q; l_end := Some 1%Q; l_score := None;
     l_sections := None |}.

Definition line_1_2 : line :=
  {| l_start := Some 1%Q; l_end := Some 2%Q; l_score := None;
     l_sections := Some [] |}.

Definition sana_with_lines : sana :=
  {| sa_start := Some 0%Q; sa_end := Some 2%Q; sa_score := None;
     sa_lines := Some [line_0_1; line_1_2] |}.

Definition sana_without_lines : sana :=
  {| sa_start := Some 2%Q; sa_end := Some 4%Q; sa_score := None;
     sa_lines := None |}.

Definition piece_with_lines : score_info :=
  {| score := {| parts := [four_notes] |};
     annotations :=
       [section_0_2;
        {| s_start := Some 0%Q; s_end := Some 4%Q; s_score := None;
           s_sanai := Some [sana_with_lines] |}] |}.

Definition piece_without_lines : score_info :=
  {| score := {| parts := [four_notes] |};
     annotations :=
       [{| s_start := Some 0%Q; s_end := Some 4%Q; s_score := None;
           s_sanai := Some [sana_with_lines; sana_without_lines] |}] |}.

(** A corpus of two pieces whose lines all have ['sections']; the first
    has two sections with sanai, the second one. *)
Definition sana_of_one_line : sana :=
  {| sa_start := Some 0%Q; sa_end := Some 2%Q; sa_score := None;
     sa_lines := Some [line_1_2] |}.

Definition section_with_sana : section :=
  {| s_start := Some 0%Q; s_end := Some 4%Q; s_score := None;
     s_sanai := Some [sana_of_one_line] |}.

Definition piece_r : score_info :=
  {| score := {| parts := [four_notes] |};
     annotations := [section_with_sana; section_0_2; section_with_sana] |}.

Definition piece_s : score_info :=
  {| score := {| parts := [four_notes] |};
     annotations := [section_with_sana] |}.

(** The counts of two pieces with the same mizan, for one pattern list. *)
Definition counts_of_two_pieces
  : list (dict (@score_data_processing.centos_counts (Z * Z * Z))) :=
  [[("u", {| score_data_processing.cc_sanai :=
               [("section_1_sana_1", [("CD", (1, 2, 3))])];
             score_data_processing.cc_lines := [] |});
    ("v", {| score_data_processing.cc_sanai :=
               [("section_1_sana_1", [("CD", (0, 1, 0))])];
             score_data_processing.cc_lines := [] |})]].

Definition mizans_of_two_pieces : dict (list string) :=
  [("u", ["none"; "quddam"]); ("v", ["quddam"])].

End Samples.

(* ================================================================= *)
(** * Properties *)

Import Py music21.

(* ----------------------------------------------------------------- *)
(** ** binary64: multiplying a list length by [0.25] is exact *)

(** The literals are the doubles nearest to the decimals they are written
    as: each is the correctly rounded quotient of its digits. *)
Lemma float_literals :
  f0_25 = float_div (float_of_int 1) (float_of_int 4)
  /\ map (fun k => float_div (float_of_int k) (float_of_int 10))
         [1; 2; 3; 4; 5; 6; 7; 8; 9]
     = [f0_1; f0_2; f0_3; f0_4; f0_5; f0_6; f0_7; f0_8; f0_9].
Proof. split; vm_compute; reflexivity. Qed.

Lemma digits2_pos_size (p : positive) : digits2_pos p = Pos.size p.
Proof. induction p; simpl; congruence. Qed.

Lemma digits2_pos_iter_xO (p k : positive) :
  Zpos (digits2_pos (Pos.iter xO p k)) = Zpos (digits2_pos p) + Zpos k.
Proof.
  induction k using Pos.peano_ind.
  - simpl. lia.
  - rewrite Pos.iter_succ. simpl. lia.
Qed.

Lemma Zpos_iter_xO (p k : positive) :
  Zpos (Pos.iter xO p k) = Zpos p * 2 ^ Zpos k.
Proof.
  induction k using Pos.peano_ind.
  - simpl. lia.
  - rewrite Pos.iter_succ, Pos2Z.inj_succ, Z.pow_succ_r by lia.
    rewrite Pos2Z.inj_xO, IHk. ring.
Qed.

Lemma digits2_pos_bound (p : positive) :
  Zpos p < 2 ^ 53 -> Zpos (digits2_pos p) <= 53.
Proof.
  intros H. rewrite digits2_pos_size.
  pose proof (Pos.size_le p) as Hs.
  assert (2 ^ Zpos (Pos.size p) <= 2 * Zpos p).
  { change (2 * Zpos p) with (Zpos p~0). rewrite <- Pos2Z.inj_pow.
    apply Pos2Z.pos_le_pos. exact Hs. }
  destruct (Z_le_gt_dec (Zpos (Pos.size p)) 53); auto.
  assert (2 ^ 54 <= 2 ^ Zpos (Pos.size p)) by (apply Z.pow_le_mono_r; lia).
  lia.
Qed.

(** A 53-bit mantissa at an exponent in range is its own rounding. *)
Lemma binary_round_aux_canonical (m : positive) (e : Z) :
  digits2_pos m = 53%positive -> -1074 <= e <= 971 ->
  binary_round_aux prec emax false (Zpos m) e loc_Exact = S754_finite false m e.
Proof.
  intros Hd He.
  unfold binary_round_aux, shr_fexp. cbn [shr_record_of_loc Zdigits2].
  rewrite Hd.
  replace (fexp prec emax (53 + e) - e) with 0
    by (unfold fexp, emin, prec, emax; lia).
  cbn [shr shr_m loc_of_shr_record shr_r shr_s round_nearest_even Zdigits2].
  rewrite Hd.
  replace (fexp prec emax (53 + e) - e) with 0
    by (unfold fexp, emin, prec, emax; lia).
  cbn [shr shr_m].
  replace (e <=? emax - prec) with true; auto.
  symmetry. apply Z.leb_le. unfold emax, prec. lia.
Qed.

(** Multiplying a normal number by [0.25] only lowers its exponent by 2. *)
Lemma float_mul_quarter (m : positive) (e : Z) :
  digits2_pos m = 53%positive -> -1072 <= e <= 971 ->
  float_mul (S754_finite false m e) f0_25 = S754_finite false m (e - 2).
Proof.
  intros Hd He.
  unfold float_mul, f0_25, SFmul. cbn [xorb].
  rewrite Pos.mul_comm. cbn [Pos.mul].
  unfold binary_round_aux at 1, shr_fexp at 1.
  cbn [shr_record_of_loc Zdigits2 digits2_pos]. rewrite Hd.
  cbn [Pos.succ].
  replace (fexp prec emax (105 + (e + -54)) - (e + -54)) with 52
    by (unfold fexp, emin, prec, emax; lia).
  cbn [shr iter_pos shr_1 orb shr_m shr_r shr_s loc_of_shr_record
       round_nearest_even].
  replace (e + -54 + 52) with (e - 2) by lia.
  unfold shr_fexp at 1. cbn [shr_record_of_loc Zdigits2]. rewrite Hd.
  replace (fexp prec emax (53 + (e - 2)) - (e - 2)) with 0
    by (unfold fexp, emin, prec, emax; lia).
  cbn [shr shr_m].
  replace (e - 2 <=? emax - prec) with true; auto.
  symmetry. apply Z.leb_le. unfold emax, prec. lia.
Qed.

(** [float(n)] for a positive [n] below [2^53]: [n] itself, normalised. *)
Lemma float_of_int_exact (p : positive) :
  Zpos p < 2 ^ 53 ->
  exists m e, float_of_int (Zpos p) = S754_finite false m e
              /\ digits2_pos m = 53%positive /\ -52 <= e <= 0
              /\ Zpos m = Zpos p * 2 ^ (- e).
Proof.
  intros Hp. pose proof (digits2_pos_bound p Hp) as Hd.
  unfold float_of_int, binary_normalize, binary_round.
  set (d := digits2_pos p) in *.
  assert (Hfexp : fexp prec emax (Zpos d + 0) = Zpos d - 53)
    by (unfold fexp, emin, prec, emax; lia).
  rewrite Hfexp. unfold shl_align.
  destruct (Z.eq_dec (Zpos d) 53) as [E | E].
  - rewrite E. cbn [Z.sub Z.add Z.opp Z.pos_sub].
    change (53 - 53 - 0) with 0. cbv beta iota.
    exists p, 0. split; [| split; [| split]].
    + apply binary_round_aux_canonical; [unfold d in *; congruence | lia].
    + unfold d in *. congruence.
    + lia.
    + simpl. lia.
  - assert (Hk : exists k, Zpos d - 53 - 0 = Zneg k /\ Zpos k = 53 - Zpos d).
    { destruct (Zpos d - 53 - 0) eqn:Ek; try lia. exists p0. split; auto. lia. }
    destruct Hk as [k [Hk1 Hk2]]. rewrite Hk1.
    exists (Pos.iter xO p k), (Zpos d - 53).
    assert (Hdig : digits2_pos (Pos.iter xO p k) = 53%positive).
    { apply Pos2Z.inj. rewrite digits2_pos_iter_xO. fold d. lia. }
    split; [| split; [| split]]; auto.
    + apply binary_round_aux_canonical; auto. lia.
    + lia.
    + rewrite Zpos_iter_xO. f_equal. f_equal. lia.
Qed.

(** [int(n * 0.25)] is [n // 4] for every [n] a binary64 holds exactly. *)
Lemma int_mul_quarter (n : Z) :
  0 <= n < 2 ^ 53 -> int_mul n f0_25 = n / 4.
Proof.
  intros [H0 Hn]. destruct n as [| p | p]; try lia.
  - reflexivity.
  - destruct (float_of_int_exact p Hn) as [m [e [Hf [Hd [He Hm]]]]].
    unfold int_mul. rewrite Hf, float_mul_quarter by (auto; lia).
    unfold int_of_float.
    destruct (e - 2) as [| q | q] eqn:Eq; try lia.
    rewrite Z.shiftr_div_pow2 by lia. rewrite Hm.
    replace (Zpos q) with (- e + 2) by lia.
    rewrite Z.pow_add_r by lia. change (2 ^ 2) with 4.
    rewrite <- Z.div_div by lia.
    rewrite Z.div_mul; auto. apply Z.pow_nonzero; lia.
Qed.

(** The bound is needed: [2^53 + 3] is not a double, [float] rounds it to
    [2^53 + 4], and the quarter comes out one too large.  No list is that
    long. *)
Lemma int_mul_quarter_beyond :
  int_mul (2 ^ 53 + 3) f0_25 = (2 ^ 53 + 3) / 4 + 1.
Proof. vm_compute. reflexivity. Qed.

(* ----------------------------------------------------------------- *)
(** ** Counting occurrences *)

Import Occurrence.

Lemma list_eqb_eq (a b : list string) : list_eqb a b = true <-> a = b.
Proof.
  revert b. induction a as [| x a IH]; intros [| y b]; simpl.
  - tauto.
  - split; discriminate.
  - split; discriminate.
  - rewrite andb_true_iff, String.eqb_eq, IH. split.
    + intros [E1 E2]. congruence.
    + intros E. injection E. auto.
Qed.

Lemma count_nil (p : Z -> bool) : count p [] = 0.
Proof. reflexivity. Qed.

Lemma count_cons (p : Z -> bool) (i : Z) (l : list Z) :
  count p (i :: l) = (if p i then 1 else 0) + count p l.
Proof.
  unfold count, len. simpl. destruct (p i); simpl List.length; lia.
Qed.

Lemma count_nonneg (p : Z -> bool) (l : list Z) : 0 <= count p l.
Proof. unfold count, len. lia. Qed.

Lemma count_ext (p q : Z -> bool) (l : list Z) :
  (forall i, p i = q i) -> count p l = count q l.
Proof.
  intros E. induction l as [| i l IH]; auto.
  rewrite !count_cons, IH, E. reflexivity.
Qed.

Lemma count_filter (f p : Z -> bool) (l : list Z) :
  count p (filter f l) = count (fun i => f i && p i) l.
Proof.
  induction l as [| i l IH]; auto. simpl filter.
  rewrite count_cons. destruct (f i); cbn [andb]; [rewrite count_cons |]; lia.
Qed.

Lemma count_true (l : list Z) : count (fun _ => true) l = len l.
Proof.
  induction l as [| i l IH]; auto.
  rewrite count_cons, IH. unfold len. simpl List.length. lia.
Qed.

(** Three conditions that exclude each other and cover every index split a
    count in three. *)
Lemma count_split3 (f a b : Z -> bool) (l : list Z) :
  count f l =
  count (fun i => f i && a i) l
  + count (fun i => f i && (negb (a i) && negb (b i))) l
  + count (fun i => f i && (negb (a i) && b i)) l.
Proof.
  induction l as [| i l IH]; auto.
  rewrite !count_cons, IH.
  destruct (f i), (a i), (b i); cbn [andb negb]; lia.
Qed.

Lemma range_nonpos (n : Z) : n <= 0 -> range n = [].
Proof.
  intros H. unfold range. replace (Z.to_nat n) with 0%nat by lia. reflexivity.
Qed.

Lemma in_range (n i : Z) : In i (range n) <-> 0 <= i < n.
Proof.
  unfold range. rewrite in_map_iff. split.
  - intros [k [<- Hk]]. apply in_seq in Hk. lia.
  - intros H. exists (Z.to_nat i). split; [lia |]. apply in_seq. lia.
Qed.

Lemma len_range (n : Z) : 0 <= n -> len (range n) = n.
Proof.
  intros H. unfold len, range. rewrite length_map, length_seq. lia.
Qed.

Lemma len_nonneg {A : Type} (l : list A) : 0 <= len l.
Proof. unfold len. lia. Qed.

(** *** The loop of the quartile counter *)

Section QuartileLoop.
Import score_data_processing.

Variables (names pattern : list string) (N : Z).

Lemma quartile_fold (l : list Z) (c : counters) :
  let q := int_mul N f0_25 in
  let c' := fold_left (count_step names pattern N) l c in
  pattern_count c' = pattern_count c + count (is_occurrence names pattern) l
  /\ first_quarter_count c' =
       first_quarter_count c
       + count (fun i => is_occurrence names pattern i && (i <? q)) l
  /\ last_quarter_count c' =
       last_quarter_count c
       + count (fun i => is_occurrence names pattern i
                         && (negb (i <? q) && (i >=? N - q))) l.
Proof.
  intros q. revert c. induction l as [| i l IH]; intros c; simpl.
  - rewrite !count_nil. lia.
  - specialize (IH (count_step names pattern N c i)).
    simpl in IH. destruct IH as [IH1 [IH2 IH3]].
    rewrite IH1, IH2, IH3, !count_cons.
    unfold count_step.
    change (list_eqb (slice names i (i + len pattern)) pattern)
      with (is_occurrence names pattern i).
    fold q.
    destruct (is_occurrence names pattern i), (i <? q), (i >=? N - q);
      cbn [andb negb pattern_count first_quarter_count last_quarter_count];
      lia.
Qed.

End QuartileLoop.

(** The three counts returned, as counts over the occurrences. *)
Lemma quartile_counts (score : Stream) (pattern : list string) :
  let names := note_names score in
  let N := len names in
  let q := int_mul N f0_25 in
  let occ := occurrences names pattern in
  score_data_processing.count_pattern_in_score score pattern =
  (count (fun i => i <? q) occ,
   count (fun i => negb (i <? q) && negb (i >=? N - q)) occ,
   count (fun i => negb (i <? q) && (i >=? N - q)) occ).
Proof.
  intros names N q occ. subst occ q N.
  unfold score_data_processing.count_pattern_in_score, occurrences.
  fold names. cbv zeta.
  destruct (quartile_fold names pattern (len names)
              (range (len names - len pattern + 1))
              {| score_data_processing.pattern_count := 0;
                 score_data_processing.first_quarter_count := 0;
                 score_data_processing.last_quarter_count := 0 |})
    as [H1 [H2 H3]].
  cbv zeta in H1, H2, H3. rewrite H1, H2, H3.
  cbn [score_data_processing.pattern_count
       score_data_processing.first_quarter_count
       score_data_processing.last_quarter_count].
  rewrite !count_filter.
  pose proof (count_split3
                (is_occurrence names pattern)
                (fun i => i <? int_mul (len names) f0_25)
                (fun i => i >=? len names - int_mul (len names) f0_25)
                (range (len names - len pattern + 1))) as HS.
  cbv beta in HS.
  apply pair_equal_spec; split; [apply pair_equal_spec; split |]; lia.
Qed.

Lemma count_partition3 (a b : Z -> bool) (l : list Z) :
  len l =
  count a l
  + count (fun i => negb (a i) && negb (b i)) l
  + count (fun i => negb (a i) && b i) l.
Proof.
  rewrite <- count_true.
  induction l as [| i l IH]; auto.
  rewrite !count_cons, IH.
  destruct (a i), (b i); cbn [andb negb]; ring.
Qed.

(** C5.  For every sub-timeline and every pattern, the three counts the
    quartile counter returns add up to the number of occurrences of the
    pattern in the pitch-name list of the sub-timeline:
    [Start + Middle + End == total_occurrences]. *)
Theorem quartile_counts_sum (score : Stream) (pattern : list string) :
  let '(start, middle, end_) :=
    score_data_processing.count_pattern_in_score score pattern in
  start + middle + end_ = total_occurrences (note_names score) pattern.
Proof.
  rewrite quartile_counts. cbv zeta. unfold total_occurrences.
  rewrite (count_partition3
             (fun i => i <? int_mul (len (note_names score)) f0_25)
             (fun i => i >=? len (note_names score)
                             - int_mul (len (note_names score)) f0_25)).
  reflexivity.
Qed.

(** The first and the last quarter never overlap. *)
Lemma quartile_disjoint (N i : Z) :
  0 <= N -> in_start N i = true -> in_end N i = false.
Proof.
  unfold in_start, in_end. intros HN H.
  apply Z.ltb_lt in H. apply Z.leb_gt.
  assert (4 * (N / 4) <= N) by (apply Z.mul_div_le; lia).
  assert (0 <= N / 4) by (apply Z.div_pos; lia).
  lia.
Qed.

(** The bucket function says what the specification says. *)
Lemma quartile_bucket_spec (N i : Z) :
  0 <= N ->
  (quartile_bucket N i = Start_25 <-> i < N / 4)
  /\ (quartile_bucket N i = End_25 <-> i >= N - N / 4)
  /\ (quartile_bucket N i = Middle_50 <-> ~ i < N / 4 /\ ~ i >= N - N / 4).
Proof.
  intros HN. unfold quartile_bucket, in_start, in_end.
  assert (4 * (N / 4) <= N) by (apply Z.mul_div_le; lia).
  assert (0 <= N / 4) by (apply Z.div_pos; lia).
  destruct (Z.ltb_spec i (N / 4)), (Z.leb_spec (N - N / 4) i);
    repeat split; intros; try discriminate; try lia; try tauto.
Qed.

(** C4.  In the quartile counter an occurrence at index [i] of a
    sub-timeline with [N] pitched events is counted as Start iff
    [i < floor(0.25*N)], as End iff [i >= N - floor(0.25*N)], and as Middle
    otherwise; for the twenty notes [[C,D,E,F,G]*4] and the pattern [[C,D]]
    the occurrences are at 0, 5, 10 and 15, classified Start, Middle, Middle
    and End.  ([N] below [2^53]: the lengths a binary64 holds exactly.) *)
Theorem quartile_classification (score : Stream) (pattern : list string) :
  let names := note_names score in
  let N := len names in
  N < 2 ^ 53 ->
  let occ := occurrences names pattern in
  (forall i, (i <? int_mul N f0_25) = in_start N i
             /\ (i >=? N - int_mul N f0_25) = in_end N i)
  /\ score_data_processing.count_pattern_in_score score pattern =
     (count (in_start N) occ, count (in_middle N) occ, count (in_end N) occ)
  /\ (forall i,
        (quartile_bucket N i = Start_25 <-> i < N / 4)
        /\ (quartile_bucket N i = End_25 <-> i >= N - N / 4)
        /\ (quartile_bucket N i = Middle_50
            <-> ~ i < N / 4 /\ ~ i >= N - N / 4))
  /\ (occurrences (note_names Samples.twenty_notes) ["C"; "D"]
      = [0; 5; 10; 15]
      /\ map (quartile_bucket 20) [0; 5; 10; 15]
         = [Start_25; Middle_50; Middle_50; End_25]
      /\ score_data_processing.count_pattern_in_score
           Samples.twenty_notes ["C"; "D"] = (1, 2, 1)).
Proof.
  intros names N HN occ.
  assert (H0 : 0 <= N) by apply len_nonneg.
  assert (Hq : int_mul N f0_25 = N / 4) by (apply int_mul_quarter; lia).
  split; [| split; [| split]].
  - intros i. rewrite Hq. unfold in_start, in_end. split; auto.
    rewrite Z.geb_leb. reflexivity.
  - rewrite quartile_counts. cbv zeta. fold names. fold N. fold occ.
    rewrite Hq.
    apply pair_equal_spec; split; [apply pair_equal_spec; split |].
    + reflexivity.
    + apply count_ext. intros i. unfold in_middle, in_start, in_end.
      rewrite Z.geb_leb. reflexivity.
    + apply count_ext. intros i.
      pose proof (quartile_disjoint N i H0) as D.
      unfold in_start, in_end in *. rewrite Z.geb_leb.
      destruct (i <? N / 4); cbn [negb andb]; auto.
      symmetry. apply D. reflexivity.
  - intros i. apply quartile_bucket_spec. exact H0.
  - repeat split; vm_compute; reflexivity.
Qed.

Lemma quartile_classification_witness :
  len (note_names Samples.twenty_notes) < 2 ^ 53
  /\ score_data_processing.count_pattern_in_score
       Samples.twenty_notes ["C"; "D"]
     = (count (in_start 20)
              (occurrences (note_names Samples.twenty_notes) ["C"; "D"]),
        count (in_middle 20)
              (occurrences (note_names Samples.twenty_notes) ["C"; "D"]),
        count (in_end 20)
              (occurrences (note_names Samples.twenty_notes) ["C"; "D"])).
Proof.
  split; [reflexivity |].
  apply (quartile_classification Samples.twenty_notes ["C"; "D"]).
  reflexivity.
Defined.

(** An index is an occurrence exactly when the pattern sits there in the
    list of names. *)
Lemma occurrences_spec (names pattern : list string) (i : Z) :
  In i (occurrences names pattern) <->
  exists pre post, names = pre ++ pattern ++ post /\ len pre = i.
Proof.
  unfold occurrences, is_occurrence.
  rewrite filter_In, in_range, list_eqb_eq.
  unfold slice, len.
  replace (Z.to_nat (i + Z.of_nat (List.length pattern) - i))
    with (List.length pattern) by lia.
  split.
  - intros [Hi E].
    exists (firstn (Z.to_nat i) names),
      (skipn (List.length pattern) (skipn (Z.to_nat i) names)).
    split.
    + rewrite <- E at 1. rewrite firstn_skipn, firstn_skipn. reflexivity.
    + rewrite length_firstn. lia.
  - intros [pre [post [E Hi]]]. subst names i.
    rewrite !length_app. split; [lia |].
    rewrite Nat2Z.id, skipn_app, skipn_all, Nat.sub_diag. simpl.
    rewrite firstn_app, firstn_all, Nat.sub_diag. simpl.
    apply app_nil_r.
Qed.

(** *** The loop of the decile counter *)

Section DecileLoop.
Import seg2_score_data_processing.

Lemma sum_values_incr (d : pct_counts) (k : pct) :
  sum (values (incr d k)) = sum (values d) + 1.
Proof.
  destruct k; unfold values, incr, all_pct, sum; cbn [map fold_right pct_eqb];
    ring.
Qed.

Variables (names pattern : list string) (N : Z).

(** Every occurrence is counted in at most one bucket: the ten counts add
    up to the number of occurrences for which a branch is taken. *)
Lemma decile_fold (l : list Z) (d : pct_counts) :
  sum (values (fold_left (count_step names pattern N) l d)) =
  sum (values d)
  + count (fun i => is_occurrence names pattern i && counted N i) l.
Proof.
  revert d. induction l as [| i l IH]; intros d; cbn [fold_left].
  - rewrite count_nil. ring.
  - rewrite IH, count_cons. unfold count_step, counted.
    change (list_eqb (slice names i (i + len pattern)) pattern)
      with (is_occurrence names pattern i).
    destruct (is_occurrence names pattern i); cbn [andb]; [| ring].
    destruct (branch N i); [rewrite sum_values_incr |]; ring.
Qed.

End DecileLoop.

(** C1.  The decile counter on fifteen pitched notes whose only [D] is at
    index 13, counting the pattern [[D]]: the one occurrence takes no branch
    of the chain ([int(15*0.9) = 13 <= 13 < 14 = 15 - int(15*0.1)]), all ten
    buckets stay at zero, and their sum is not the number of occurrences. *)
Theorem decile_drops_occurrence :
  len (note_names Samples.fifteen_notes) = 15
  /\ occurrences (note_names Samples.fifteen_notes) ["D"] = [13]
  /\ int_mul 15 f0_9 = 13
  /\ 15 - int_mul 15 f0_1 = 14
  /\ seg2_score_data_processing.branch 15 13 = None
  /\ seg2_score_data_processing.values
       (seg2_score_data_processing.count_pattern_in_score
          Samples.fifteen_notes ["D"])
     = [0; 0; 0; 0; 0; 0; 0; 0; 0; 0]
  /\ sum (seg2_score_data_processing.values
            (seg2_score_data_processing.count_pattern_in_score
               Samples.fifteen_notes ["D"]))
     <> total_occurrences (note_names Samples.fifteen_notes) ["D"].
Proof.
  repeat split; try (vm_compute; reflexivity).
  vm_compute. discriminate.
Qed.

(** Up to a hundred names: when the length is a multiple of 10 every index
    is counted; otherwise exactly one index is not, [int(0.9*N)]. *)
Lemma decile_gap_up_to_100 :
  forallb
    (fun N =>
       list_eqb_Z (seg2_score_data_processing.dropped_indices N)
                  (if N mod 10 =? 0 then [] else [int_mul N f0_9]))
    (range 101)
  = true.
Proof. vm_compute. reflexivity. Qed.

(** The ten buckets never count an occurrence twice: their sum is the
    number of occurrences that take a branch, at most the total. *)
Lemma decile_sum_le_total (score : Stream) (pattern : list string) :
  sum (seg2_score_data_processing.values
         (seg2_score_data_processing.count_pattern_in_score score pattern))
  = count (seg2_score_data_processing.counted (len (note_names score)))
          (occurrences (note_names score) pattern)
  /\ count (seg2_score_data_processing.counted (len (note_names score)))
           (occurrences (note_names score) pattern)
     <= total_occurrences (note_names score) pattern.
Proof.
  split.
  - unfold seg2_score_data_processing.count_pattern_in_score.
    rewrite decile_fold. unfold occurrences. rewrite count_filter.
    reflexivity.
  - unfold total_occurrences, count, len.
    apply inj_le. apply filter_length_le.
Qed.

(** *** Degenerate patterns *)

(** What the specification says of a pattern of length 0 does not hold:
    in a sub-timeline of four pitched notes both counters find it at every
    index [0..4], and the buckets are not all zero. *)
Lemma empty_pattern_counts_nonzero :
  len (@nil string) = 0
  /\ score_data_processing.count_pattern_in_score Samples.four_notes []
     = (1, 2, 2)
  /\ score_data_processing.count_pattern_in_score Samples.four_notes []
     <> (0, 0, 0)
  /\ seg2_score_data_processing.values
       (seg2_score_data_processing.count_pattern_in_score
          Samples.four_notes [])
     <> [0; 0; 0; 0; 0; 0; 0; 0; 0; 0].
Proof.
  repeat split; try (vm_compute; reflexivity); vm_compute; discriminate.
Qed.

(** The empty pattern occurs at every index from [0] to [len(names)]. *)
Lemma occurrences_empty_pattern (names : list string) :
  occurrences names [] = range (len names + 1).
Proof.
  unfold occurrences.
  replace (len names - len (@nil string) + 1) with (len names + 1)
    by (unfold len; simpl; lia).
  apply forallb_filter_id. apply forallb_forall. intros i _.
  unfold is_occurrence, slice. replace (Z.to_nat (i + len (@nil string) - i)) with 0%nat
    by (unfold len; simpl; lia).
  reflexivity.
Qed.

(** C2, as the code has it.  For every sub-timeline, counting a pattern longer than
    the number of pitched events returns all bucket counts equal to 0, in the
    quartile and in the decile counter, both of which are total; a pattern
    of length 0 is found at every index [0..N], so the quartile counts add up
    to [N + 1]. *)
Theorem long_pattern_counts_zero (score : Stream) (pattern : list string) :
  len pattern > len (note_names score) ->
  score_data_processing.count_pattern_in_score score pattern = (0, 0, 0)
  /\ seg2_score_data_processing.values
       (seg2_score_data_processing.count_pattern_in_score score pattern)
     = [0; 0; 0; 0; 0; 0; 0; 0; 0; 0]
  /\ (let '(start, middle, end_) :=
        score_data_processing.count_pattern_in_score score [] in
      start + middle + end_ = len (note_names score) + 1).
Proof.
  intros H. split; [| split].
  - unfold score_data_processing.count_pattern_in_score.
    rewrite range_nonpos by lia. reflexivity.
  - unfold seg2_score_data_processing.count_pattern_in_score.
    rewrite range_nonpos by lia. reflexivity.
  - rewrite quartile_counts. cbv zeta.
    rewrite <- (count_partition3
                  (fun i => i <? int_mul (len (note_names score)) f0_25)
                  (fun i => i >=? len (note_names score)
                                  - int_mul (len (note_names score)) f0_25)).
    rewrite occurrences_empty_pattern. apply len_range.
    pose proof (len_nonneg (note_names score)). lia.
Qed.

Lemma long_pattern_counts_zero_witness :
  len ["C"; "D"; "E"; "F"; "G"] > len (note_names Samples.four_notes)
  /\ score_data_processing.count_pattern_in_score
       Samples.four_notes ["C"; "D"; "E"; "F"; "G"] = (0, 0, 0).
Proof.
  split; [reflexivity |].
  apply (long_pattern_counts_zero Samples.four_notes
                                  ["C"; "D"; "E"; "F"; "G"]).
  reflexivity.
Defined.

(* ----------------------------------------------------------------- *)
(** ** Slicing a timeline *)

Import extract_score_data.




(** The slice of beats [1, 3) of four quarter notes on beats 0 to 3. *)
Example extract_measures_four_notes :
  elements (extract_measures Samples.four_notes 1 3)
  = [Note "D" 4 1; Note "E" 4 1].
Proof. reflexivity. Qed.


(* ----------------------------------------------------------------- *)
(** ** Section extraction and malformed annotation trees *)

Lemma has_span_true (a b : option Q) :
  has_span a b = true -> exists x y, a = Some x /\ b = Some y.
Proof. destruct a, b; simpl; try discriminate; eauto. Qed.

Lemma has_span_false (a b : option Q) :
  has_span a b = false -> a = None \/ (exists x, a = Some x /\ b = None).
Proof. destruct a, b; simpl; try discriminate; eauto. Qed.

Ltac span_error k := exists k; split; [reflexivity | auto].

(** On well-formed nodes a level of the extraction ends normally and leaves
    a slice on every node; on the first node without its span it raises. *)
Lemma extract_line_sections_ok (sc : Stream) (l : list line_section) :
  forallb line_section_ok l = true ->
  exists l', extract_line_sections sc l = (l', None)
             /\ forallb line_section_done l' = true.
Proof.
  induction l as [| x l IH]; simpl; intros H.
  - eauto.
  - apply andb_true_iff in H. destruct H as [Hx Hl].
    destruct (has_span_true _ _ Hx) as [a [b [Ea Eb]]]. rewrite Ea, Eb.
    destruct (IH Hl) as [l' [E D]]. rewrite E.
    eexists. split; [reflexivity |]. simpl. exact D.
Qed.

Lemma extract_line_sections_bad (sc : Stream) (l : list line_section) :
  forallb line_section_ok l = false ->
  span_key_error (snd (extract_line_sections sc l)).
Proof.
  induction l as [| x l IH]; simpl; intros H; [discriminate |].
  apply andb_false_iff in H. destruct H as [Hx | Hl].
  - destruct (has_span_false _ _ Hx) as [Ea | [a [Ea Eb]]].
    + rewrite Ea. span_error "start".
    + rewrite Ea, Eb. span_error "end".
  - destruct (ls_start x); [| span_error "start"].
    destruct (ls_end x); [| span_error "end"].
    specialize (IH Hl). destruct (extract_line_sections sc l). exact IH.
Qed.

Lemma extract_lines_ok (sc : Stream) (l : list line) :
  forallb line_ok l = true ->
  exists l', extract_lines sc l = (l', None) /\ forallb line_done l' = true.
Proof.
  induction l as [| x l IH]; simpl; intros H.
  - eauto.
  - apply andb_true_iff in H. destruct H as [Hx Hl].
    apply andb_true_iff in Hx. destruct Hx as [Hs Hc].
    destruct (has_span_true _ _ Hs) as [a [b [Ea Eb]]]. rewrite Ea, Eb.
    destruct (IH Hl) as [l' [E D]]. rewrite E.
    destruct (l_sections x) as [c |]; simpl in Hc.
    + destruct (extract_line_sections_ok sc c Hc) as [c' [Ec Dc]].
      rewrite Ec. eexists. split; [reflexivity |].
      simpl. unfold line_done at 1. simpl. rewrite Dc, D. reflexivity.
    + eexists. split; [reflexivity |]. simpl. exact D.
Qed.

Lemma extract_lines_bad (sc : Stream) (l : list line) :
  forallb line_ok l = false -> span_key_error (snd (extract_lines sc l)).
Proof.
  induction l as [| x l IH]; simpl; intros H; [discriminate |].
  destruct (l_start x) eqn:Ea; [| span_error "start"].
  destruct (l_end x) eqn:Eb; [| span_error "end"].
  unfold line_ok at 1 in H. rewrite Ea, Eb in H. simpl in H.
  destruct (l_sections x) as [c |]; simpl in H.
  - destruct (forallb line_section_ok c) eqn:Hc; simpl in H.
    + destruct (extract_line_sections_ok sc c Hc) as [c' [Ec _]].
      rewrite Ec. specialize (IH H). destruct (extract_lines sc l). exact IH.
    + pose proof (extract_line_sections_bad sc c Hc) as B.
      destruct (extract_line_sections sc c) as [c' e1].
      destruct B as [k [B1 B2]]. simpl in B1. subst e1. simpl.
      exists k. auto.
  - specialize (IH H). destruct (extract_lines sc l). exact IH.
Qed.

Lemma extract_sanai_ok (sc : Stream) (l : list sana) :
  forallb sana_ok l = true ->
  exists l', extract_sanai sc l = (l', None) /\ forallb sana_done l' = true.
Proof.
  induction l as [| x l IH]; simpl; intros H.
  - eauto.
  - apply andb_true_iff in H. destruct H as [Hx Hl].
    apply andb_true_iff in Hx. destruct Hx as [Hs Hc].
    destruct (has_span_true _ _ Hs) as [a [b [Ea Eb]]]. rewrite Ea, Eb.
    destruct (IH Hl) as [l' [E D]]. rewrite E.
    destruct (sa_lines x) as [c |]; simpl in Hc.
    + destruct (extract_lines_ok sc c Hc) as [c' [Ec Dc]].
      rewrite Ec. eexists. split; [reflexivity |].
      simpl. unfold sana_done at 1. simpl. rewrite Dc, D. reflexivity.
    + eexists. split; [reflexivity |]. simpl. exact D.
Qed.

Lemma extract_sanai_bad (sc : Stream) (l : list sana) :
  forallb sana_ok l = false -> span_key_error (snd (extract_sanai sc l)).
Proof.
  induction l as [| x l IH]; simpl; intros H; [discriminate |].
  destruct (sa_start x) eqn:Ea; [| span_error "start"].
  destruct (sa_end x) eqn:Eb; [| span_error "end"].
  unfold sana_ok at 1 in H. rewrite Ea, Eb in H. simpl in H.
  destruct (sa_lines x) as [c |]; simpl in H.
  - destruct (forallb line_ok c) eqn:Hc; simpl in H.
    + destruct (extract_lines_ok sc c Hc) as [c' [Ec _]].
      rewrite Ec. specialize (IH H). destruct (extract_sanai sc l). exact IH.
    + pose proof (extract_lines_bad sc c Hc) as B.
      destruct (extract_lines sc c) as [c' e1].
      destruct B as [k [B1 B2]]. simpl in B1. subst e1. simpl.
      exists k. auto.
  - specialize (IH H). destruct (extract_sanai sc l). exact IH.
Qed.

Lemma extract_sections_ok (sc : Stream) (l : list section) :
  well_formed l = true ->
  exists l', extract_sections sc l = (l', None)
             /\ forallb section_done l' = true.
Proof.
  unfold well_formed.
  induction l as [| x l IH]; simpl; intros H.
  - eauto.
  - apply andb_true_iff in H. destruct H as [Hx Hl].
    apply andb_true_iff in Hx. destruct Hx as [Hs Hc].
    destruct (has_span_true _ _ Hs) as [a [b [Ea Eb]]]. rewrite Ea, Eb.
    destruct (IH Hl) as [l' [E D]]. rewrite E.
    destruct (s_sanai x) as [c |]; simpl in Hc.
    + destruct (extract_sanai_ok sc c Hc) as [c' [Ec Dc]].
      rewrite Ec. eexists. split; [reflexivity |].
      simpl. unfold section_done at 1. simpl. rewrite Dc, D. reflexivity.
    + eexists. split; [reflexivity |]. simpl. exact D.
Qed.

Lemma extract_sections_bad (sc : Stream) (l : list section) :
  well_formed l = false -> span_key_error (snd (extract_sections sc l)).
Proof.
  unfold well_formed.
  induction l as [| x l IH]; simpl; intros H; [discriminate |].
  destruct (s_start x) eqn:Ea; [| span_error "start"].
  destruct (s_end x) eqn:Eb; [| span_error "end"].
  unfold section_ok at 1 in H. rewrite Ea, Eb in H. simpl in H.
  destruct (s_sanai x) as [c |]; simpl in H.
  - destruct (forallb sana_ok c) eqn:Hc; simpl in H.
    + destruct (extract_sanai_ok sc c Hc) as [c' [Ec _]].
      rewrite Ec. specialize (IH H). destruct (extract_sections sc l).
      exact IH.
    + pose proof (extract_sanai_bad sc c Hc) as B.
      destruct (extract_sanai sc c) as [c' e1].
      destruct B as [k [B1 B2]]. simpl in B1. subst e1. simpl.
      exists k. auto.
  - specialize (IH H). destruct (extract_sections sc l). exact IH.
Qed.

Lemma extract_sections_done (sc : Stream) (l l' : list section) :
  extract_sections sc l = (l', None) -> forallb section_done l' = true.
Proof.
  intros E. destruct (well_formed l) eqn:W.
  - destruct (extract_sections_ok sc l W) as [l2 [E2 D]]. congruence.
  - pose proof (extract_sections_bad sc l W) as [k [B _]].
    rewrite E in B. discriminate.
Qed.

Lemma add_streams_processed (scores_data done : dict score_info) :
  add_streams_to_score_data scores_data = (done, None) ->
  Forall (fun kv => processed (snd kv) = true) done.
Proof.
  revert done. induction scores_data as [| [mbid info] rest IH];
    simpl; intros done E.
  - injection E as <-. constructor.
  - destruct (parts (score info)) as [| part0 ps]; [discriminate |].
    destruct (extract_sections (notesAndRests part0) (annotations info))
      as [tree e1] eqn:Ex.
    destruct e1 as [e |]; [discriminate |].
    destruct (add_streams_to_score_data rest) as [rest' e2].
    injection E as <- ->. constructor.
    + unfold processed. simpl. exact (extract_sections_done _ _ _ Ex).
    + apply IH. reflexivity.
Qed.

(** Pieces that come after normally processed ones are reached. *)
Lemma add_streams_app (pre post pre' : dict score_info) :
  add_streams_to_score_data pre = (pre', None) ->
  add_streams_to_score_data (pre ++ post) =
  (pre' ++ fst (add_streams_to_score_data post),
   snd (add_streams_to_score_data post)).
Proof.
  revert pre'. induction pre as [| [mbid info] pre IH]; simpl; intros pre' E.
  - injection E as <-. simpl. destruct (add_streams_to_score_data post).
    reflexivity.
  - destruct (parts (score info)) as [| part0 ps]; [discriminate |].
    destruct (extract_sections (notesAndRests part0) (annotations info))
      as [tree e1].
    destruct e1 as [e |]; [discriminate |].
    destruct (add_streams_to_score_data pre) as [pre2 e2].
    injection E as <- ->. rewrite (IH pre2 eq_refl). reflexivity.
Qed.

(** What the specification says of a malformed tree does not hold: in the
    corpus [a, b], the tree of [a] lacks an ['end']; the run halts with the
    [KeyError] and [b], well formed, is left as it was, without its
    slices. *)
Lemma malformed_piece_stops_corpus :
  well_formed (annotations Samples.piece_a) = false
  /\ well_formed (annotations Samples.piece_b) = true
  /\ snd (add_streams_to_score_data Samples.corpus_a_b)
     = Some (KeyError "end")
  /\ dict_get (fst (add_streams_to_score_data Samples.corpus_a_b)) "b"
     = Some Samples.piece_b
  /\ processed Samples.piece_b = false.
Proof. repeat split. Qed.

(** C3, as the code has it.  If a declared node in a piece's annotation tree lacks
    ['start'] or ['end'], [extract_sections] raises the [KeyError] and
    [add_streams_to_score_data] lets it through: the pieces before it in the
    corpus have their slices, the run halts at that piece, and the pieces
    after it are left as they were. *)
Theorem malformed_tree_halts_run
        (pre post pre' : dict score_info) (mbid : string) (info : score_info) :
  add_streams_to_score_data pre = (pre', None) ->
  parts (score info) <> [] ->
  well_formed (annotations info) = false ->
  exists tree e,
    add_streams_to_score_data (pre ++ (mbid, info) :: post)
    = (pre' ++ (mbid, {| score := score info; annotations := tree |}) :: post,
       e)
    /\ span_key_error e
    /\ Forall (fun kv => processed (snd kv) = true) pre'.
Proof.
  intros Hpre Hparts Hbad.
  rewrite (add_streams_app _ _ _ Hpre). simpl.
  destruct (parts (score info)) as [| part0 ps]; [congruence |].
  pose proof (extract_sections_bad (notesAndRests part0) _ Hbad) as B.
  destruct (extract_sections (notesAndRests part0) (annotations info))
    as [tree e1].
  destruct B as [k [B1 B2]]. simpl in B1. subst e1. simpl.
  exists tree, (Some (KeyError k)). split; [reflexivity |]. split.
  - exists k. auto.
  - exact (add_streams_processed _ _ Hpre).
Qed.

Lemma malformed_tree_halts_run_witness :
  add_streams_to_score_data [("b", Samples.piece_b)]
  = (fst (add_streams_to_score_data [("b", Samples.piece_b)]), None)
  /\ parts (score Samples.piece_a) <> []
  /\ well_formed (annotations Samples.piece_a) = false
  /\ exists tree e,
       add_streams_to_score_data
         ([("b", Samples.piece_b)] ++ ("a", Samples.piece_a)
            :: [("c", Samples.piece_b)])
       = (fst (add_streams_to_score_data [("b", Samples.piece_b)])
            ++ ("a", {| score := score Samples.piece_a; annotations := tree |})
            :: [("c", Samples.piece_b)], e)
       /\ span_key_error e
       /\ Forall (fun kv => processed (snd kv) = true)
                 (fst (add_streams_to_score_data [("b", Samples.piece_b)])).
Proof.
  split; [reflexivity |]. split; [discriminate |]. split; [reflexivity |].
  apply (malformed_tree_halts_run [("b", Samples.piece_b)]
           [("c", Samples.piece_b)] _ "a" Samples.piece_a).
  - reflexivity.
  - discriminate.
  - reflexivity.
Defined.

(* ----------------------------------------------------------------- *)
(** ** Building the corpus *)

(** The string helpers on the file names and titles of a run. *)
Example split_head_examples :
  split_head ".xml" "a.xml" = "a"
  /\ split_head ".xml" "a.xml.xml" = "a"
  /\ split_head ".xml" "abc" = "abc"
  /\ split_head ".xml" ".xml" = ""
  /\ os_path_join "scores" "a.xml" = "scores/a.xml"
  /\ os_path_join "scores/" "a.xml" = "scores/a.xml"
  /\ os_path_join "" "a.xml" = "a.xml"
  /\ os_path_join "scores" "/abs.xml" = "/abs.xml"
  /\ score_data_processing.prefix_of " TF IDF centos : sanai of X"
     = "TF IDF centos"
  /\ error_line "scores/c.xml" (KeyError "mbid")
     = "Error parsing file 'scores/c.xml': 'mbid'".
Proof. repeat split. Qed.

Section CorpusBuild.

Variable converter_parse : string -> exn + Score.

Lemma try_body_unmatched (anns : list annotation) (mbid path : string)
      (w : world) :
  Forall (unmatched mbid) anns ->
  try_body converter_parse anns mbid path w = (w, None).
Proof.
  induction 1 as [| r anns [m [Em Hm]] _ IH]; simpl; auto.
  rewrite Em. apply String.eqb_neq in Hm. rewrite Hm. exact IH.
Qed.

(** The loop stops at the first record it does not pass: what follows that
    record plays no part. *)
Lemma try_body_skip (pre rest : list annotation) (mbid path : string)
      (w : world) :
  Forall (unmatched mbid) pre ->
  try_body converter_parse (pre ++ rest) mbid path w
  = try_body converter_parse rest mbid path w.
Proof.
  induction 1 as [| r pre [m [Em Hm]] _ IH]; simpl; auto.
  rewrite Em. apply String.eqb_neq in Hm. rewrite Hm. exact IH.
Qed.

(** The records passed, and the record the loop stops at, if any. *)
Lemma annotations_split (mbid : string) (anns : list annotation) :
  Forall (unmatched mbid) anns
  \/ exists pre x post,
       anns = pre ++ x :: post /\ Forall (unmatched mbid) pre
       /\ (a_mbid x = None \/ a_mbid x = Some mbid).
Proof.
  induction anns as [| r anns IH].
  - left. constructor.
  - destruct (a_mbid r) as [m |] eqn:Em.
    + destruct (String.eqb_spec m mbid) as [-> | Hne].
      * right. exists [], r, anns. repeat split; auto.
      * assert (Hr : unmatched mbid r) by (exists m; auto).
        destruct IH as [IH | [pre [x [post [E [Hpre Hx]]]]]].
        -- left. constructor; auto.
        -- right. exists (r :: pre), x, post. subst anns.
           repeat split; auto.
    + right. exists [], r, anns. repeat split; auto.
Qed.

(** C10.  For a score file, [get_score_data] looks for the first record of
    the annotation list whose ['mbid'] is the file name before ['.xml']:
    only when there is one is the file parsed, and the sections attached to
    the piece are those of that record, whatever records follow it. *)
Theorem first_matching_annotation_is_used
        (anns : list annotation) (folder_path file_name : string) (w : world) :
  let mbid := split_head ".xml" file_name in
  let file_path := os_path_join folder_path file_name in
  let w' := process_file converter_parse folder_path anns w file_name in
  (Forall (unmatched mbid) anns /\ w' = w)
  \/ (exists pre x post,
        anns = pre ++ x :: post /\ Forall (unmatched mbid) pre
        /\ a_mbid x = None
        /\ w' = {| scores := scores w;
                   stdout := stdout w
                             ++ [error_line file_path (KeyError "mbid")];
                   parsed := parsed w |})
  \/ (exists pre a post,
        anns = pre ++ a :: post /\ Forall (unmatched mbid) pre
        /\ a_mbid a = Some mbid
        /\ parsed w' = parsed w ++ [file_path]
        /\ match converter_parse file_path, a_sections a with
           | inr sc, Some secs =>
               scores w' = dict_set (scores w) mbid
                                    {| score := sc; annotations := secs |}
               /\ stdout w' = stdout w
           | inr _, None =>
               scores w' = scores w
               /\ stdout w' =
                  stdout w ++ [error_line file_path (KeyError "sections")]
           | inl e, _ =>
               scores w' = scores w
               /\ stdout w' = stdout w ++ [error_line file_path e]
           end).
Proof.
  intros mbid file_path w'. subst w'. unfold process_file.
  fold mbid. fold file_path.
  destruct (annotations_split mbid anns)
    as [Hall | [pre [x [post [E [Hpre [Hx | Hx]]]]]]].
  - left. rewrite try_body_unmatched by assumption. auto.
  - right. left. exists pre, x, post. subst anns.
    rewrite try_body_skip by assumption. simpl. rewrite Hx.
    repeat split; auto.
  - right. right. exists pre, x, post. subst anns.
    rewrite try_body_skip by assumption. simpl.
    rewrite Hx, String.eqb_refl.
    destruct (converter_parse file_path) as [e | sc]; simpl.
    + repeat split; auto.
    + destruct (a_sections x); simpl; repeat split; auto.
Qed.

(** A record for piece [a] after the first one is not used. *)
Example second_record_ignored :
  scores (get_score_data Samples.parse_only_a ["a.xml"] "scores"
                         Samples.annotation_set)
  = [("a", {| score := {| parts := [Samples.four_notes] |};
              annotations := [Samples.section_0_2] |})].
Proof. reflexivity. Qed.

(** *** Failures while building *)

(** What a turn of the loop does to the corpus depends on the corpus only,
    not on what has been printed or parsed before. *)
Lemma try_body_scores (anns : list annotation) (mbid path : string)
      (w1 w2 : world) :
  scores w1 = scores w2 ->
  scores (fst (try_body converter_parse anns mbid path w1))
  = scores (fst (try_body converter_parse anns mbid path w2))
  /\ snd (try_body converter_parse anns mbid path w1)
     = snd (try_body converter_parse anns mbid path w2).
Proof.
  intros E. induction anns as [| r anns IH]; simpl; auto.
  destruct (a_mbid r) as [m |]; simpl; auto.
  destruct (String.eqb m mbid); auto.
  destruct (converter_parse path); simpl; auto.
  destruct (a_sections r); simpl; auto.
  rewrite E. auto.
Qed.

Lemma process_file_scores (folder_path : string) (anns : list annotation)
      (w1 w2 : world) (file_name : string) :
  scores w1 = scores w2 ->
  scores (process_file converter_parse folder_path anns w1 file_name)
  = scores (process_file converter_parse folder_path anns w2 file_name).
Proof.
  intros E. unfold process_file.
  destruct (try_body_scores anns (split_head ".xml" file_name)
              (os_path_join folder_path file_name) w1 w2 E) as [H1 H2].
  destruct (try_body converter_parse anns _ _ w1) as [w1' e1].
  destruct (try_body converter_parse anns _ _ w2) as [w2' e2].
  simpl in H1, H2. subst e2. destruct e1; simpl; auto.
Qed.

Lemma get_score_data_from_scores (files : list string) (folder_path : string)
      (anns : list annotation) (w1 w2 : world) :
  scores w1 = scores w2 ->
  scores (get_score_data_from converter_parse w1 files folder_path anns)
  = scores (get_score_data_from converter_parse w2 files folder_path anns).
Proof.
  unfold get_score_data_from. revert w1 w2.
  induction files as [| f files IH]; simpl; intros w1 w2 E; auto.
  apply IH. apply process_file_scores. exact E.
Qed.

Lemma get_score_data_app (pre post : list string) (folder_path : string)
      (anns : list annotation) :
  get_score_data converter_parse (pre ++ post) folder_path anns
  = get_score_data_from converter_parse
      (get_score_data converter_parse pre folder_path anns)
      post folder_path anns.
Proof.
  unfold get_score_data, get_score_data_from. apply fold_left_app.
Qed.

(** C6, as the code has it.  While the corpus is built, a piece whose score file
    fails to parse is left out of the corpus, one line with the file path and
    the cause is printed, and the remaining files are processed; a piece that
    matches no annotation record is left out as well and the remaining files
    are processed, but nothing is printed for it. *)
Theorem failed_piece_is_skipped
        (anns : list annotation) (folder_path : string)
        (pre post : list string) (file_name : string) :
  let mbid := split_head ".xml" file_name in
  let file_path := os_path_join folder_path file_name in
  let w := get_score_data converter_parse pre folder_path anns in
  let run := get_score_data converter_parse (pre ++ file_name :: post)
                            folder_path anns in
  (forall pre_a a post_a e,
      anns = pre_a ++ a :: post_a -> Forall (unmatched mbid) pre_a ->
      a_mbid a = Some mbid -> converter_parse file_path = inl e ->
      run = get_score_data_from converter_parse
              {| scores := scores w;
                 stdout := stdout w ++ [error_line file_path e];
                 parsed := parsed w ++ [file_path] |}
              post folder_path anns
      /\ scores run
         = scores (get_score_data converter_parse (pre ++ post)
                                  folder_path anns))
  /\ (Forall (unmatched mbid) anns ->
      run = get_score_data_from converter_parse w post folder_path anns
      /\ run = get_score_data converter_parse (pre ++ post) folder_path anns).
Proof.
  intros mbid file_path w run. split.
  - intros pre_a a post_a e E Hpre Ha He.
    assert (Hstep : process_file converter_parse folder_path anns w file_name
                    = {| scores := scores w;
                         stdout := stdout w ++ [error_line file_path e];
                         parsed := parsed w ++ [file_path] |}).
    { unfold process_file. fold mbid. fold file_path. subst anns.
      rewrite try_body_skip by assumption. simpl.
      rewrite Ha, String.eqb_refl, He. reflexivity. }
    assert (Hrun : run = get_score_data_from converter_parse
                           {| scores := scores w;
                              stdout := stdout w ++ [error_line file_path e];
                              parsed := parsed w ++ [file_path] |}
                           post folder_path anns).
    { unfold run. rewrite get_score_data_app. fold w.
      unfold get_score_data_from at 1. simpl. rewrite Hstep. reflexivity. }
    split; [exact Hrun |].
    rewrite Hrun, get_score_data_app. fold w.
    apply get_score_data_from_scores. reflexivity.
  - intros Hall.
    assert (Hrun : run = get_score_data_from converter_parse w post
                                             folder_path anns).
    { unfold run. rewrite get_score_data_app. fold w.
      unfold get_score_data_from at 1. simpl.
      unfold process_file. fold mbid. fold file_path.
      rewrite try_body_unmatched by assumption. reflexivity. }
    split; [exact Hrun |].
    rewrite Hrun, get_score_data_app. reflexivity.
Qed.

End CorpusBuild.

(** What the specification says of a file that matches no record does not
    hold: the piece is left out, but nothing is printed. *)
Lemma unmatched_piece_is_not_logged :
  let w := get_score_data Samples.parse_only_a ["zz.xml"] "scores"
                          Samples.annotation_set in
  Forall (unmatched (split_head ".xml" "zz.xml")) Samples.annotation_set
  /\ dict_get (scores w) "zz" = None
  /\ stdout w = []
  /\ ~ (exists line, In line (stdout w)).
Proof.
  cbv zeta. split; [| split; [| split]].
  - repeat constructor; eexists; (split; [reflexivity | discriminate]).
  - reflexivity.
  - reflexivity.
  - intros [line H]. exact H.
Qed.

Lemma failed_piece_is_skipped_witness :
  (Samples.annotation_set
   = [] ++ Samples.record_c :: [Samples.record_a; Samples.record_a_again]
   /\ Forall (unmatched (split_head ".xml" "c.xml")) []
   /\ a_mbid Samples.record_c = Some (split_head ".xml" "c.xml")
   /\ Samples.parse_only_a (os_path_join "scores" "c.xml")
      = inl (ParseError "not a score")
   /\ scores (get_score_data Samples.parse_only_a ([] ++ "c.xml" :: ["a.xml"])
                             "scores" Samples.annotation_set)
      = scores (get_score_data Samples.parse_only_a ([] ++ ["a.xml"])
                               "scores" Samples.annotation_set))
  /\ (Forall (unmatched (split_head ".xml" "zz.xml")) Samples.annotation_set
      /\ get_score_data Samples.parse_only_a ([] ++ "zz.xml" :: ["a.xml"])
                        "scores" Samples.annotation_set
         = get_score_data Samples.parse_only_a ([] ++ ["a.xml"])
                          "scores" Samples.annotation_set).
Proof.
  assert (Hzz : Forall (unmatched (split_head ".xml" "zz.xml"))
                       Samples.annotation_set).
  { repeat constructor; eexists; (split; [reflexivity | discriminate]). }
  split.
  - split; [reflexivity |]. split; [constructor |].
    split; [reflexivity |]. split; [reflexivity |].
    apply (proj1 (failed_piece_is_skipped Samples.parse_only_a
                    Samples.annotation_set "scores" [] ["a.xml"] "c.xml")
                 [] Samples.record_c
                 [Samples.record_a; Samples.record_a_again]
                 (ParseError "not a score")).
    + reflexivity.
    + constructor.
    + reflexivity.
    + reflexivity.
  - split; [exact Hzz |].
    apply (proj2 (failed_piece_is_skipped Samples.parse_only_a
                    Samples.annotation_set "scores" [] ["a.xml"] "zz.xml")).
    exact Hzz.
Defined.

(* ----------------------------------------------------------------- *)
(** ** Merging the tables of a group *)

Import pandas Aggregation.

(** *** The order on patterns *)

Lemma ascii_compare_refl (a : ascii) : Ascii.compare a a = Eq.
Proof. unfold Ascii.compare. apply N.compare_refl. Qed.

Lemma string_compare_refl (s : string) : String.compare s s = Eq.
Proof.
  induction s as [| a s IH]; simpl; auto.
  rewrite ascii_compare_refl. exact IH.
Qed.

Lemma string_compare_eq (s t : string) : String.compare s t = Eq <-> s = t.
Proof.
  split; [apply String.compare_eq_iff |].
  intros ->. apply string_compare_refl.
Qed.

Lemma string_compare_lt_trans (s t u : string) :
  String.compare s t = Lt -> String.compare t u = Lt ->
  String.compare s u = Lt.
Proof.
  revert t u. induction s as [| a s IH]; intros [| b t] [| c u]; simpl;
    try discriminate; auto.
  destruct (Ascii.compare a b) eqn:Eab; try discriminate.
  - apply Ascii.compare_eq_iff in Eab. subst b.
    destruct (Ascii.compare a c); try discriminate; auto.
    apply IH.
  - intros _. destruct (Ascii.compare b c) eqn:Ebc; try discriminate.
    + apply Ascii.compare_eq_iff in Ebc. subst c. rewrite Eab. auto.
    + unfold Ascii.compare in *.
      rewrite N.compare_lt_iff in *.
      assert (L : (N_of_ascii a < N_of_ascii c)%N) by lia.
      apply N.compare_lt_iff in L. rewrite L. auto.
Qed.

Lemma string_compare_gt_lt (s t : string) :
  String.compare s t = Gt -> String.compare t s = Lt.
Proof.
  intros H. rewrite String.compare_antisym, H. reflexivity.
Qed.

(** *** Dictionaries *)

Lemma dict_get_set {V : Type} (d : dict V) (k k' : string) (v : V) :
  dict_get (dict_set d k v) k'
  = if String.eqb k k' then Some v else dict_get d k'.
Proof.
  induction d as [| [k0 v0] d IH]; simpl.
  - reflexivity.
  - destruct (String.eqb_spec k0 k) as [-> | Hne]; simpl.
    + destruct (String.eqb k k'); reflexivity.
    + rewrite IH. destruct (String.eqb_spec k0 k') as [-> | Hne'].
      * destruct (String.eqb_spec k k'); [congruence | reflexivity].
      * reflexivity.
Qed.

Lemma keys_set {V : Type} (d : dict V) (k : string) (v : V) :
  keys (dict_set d k v) = keys d
  \/ (~ In k (keys d) /\ keys (dict_set d k v) = keys d ++ [k]).
Proof.
  induction d as [| [k0 v0] d IH]; simpl.
  - right. auto.
  - destruct (String.eqb_spec k0 k) as [-> | Hne]; simpl.
    + left. reflexivity.
    + destruct IH as [IH | [Hn IH]]; unfold keys in *; rewrite IH.
      * left. reflexivity.
      * right. split; [| reflexivity]. intros [E | E]; auto.
Qed.

Lemma keys_set_NoDup {V : Type} (d : dict V) (k : string) (v : V) :
  NoDup (keys d) -> NoDup (keys (dict_set d k v)).
Proof.
  intros H. destruct (keys_set d k v) as [E | [Hn E]]; rewrite E; auto.
  apply NoDup_app; auto.
  - repeat constructor. intros [].
  - intros x Hx [Hk | []]. subst x. auto.
Qed.



(** *** The first loop: concatenation by prefix *)

Import score_data_processing.





(** *** The second loop: one row per pattern *)

Lemma cell_add_buckets (c : nat) (a b : list Z) :
  nth c (add_buckets a b) 0 = nth c a 0 + nth c b 0.
Proof.
  revert a b. induction c as [| c IH]; intros [| x a] [| y b];
    cbn [add_buckets nth]; try ring.
  apply IH.
Qed.

Lemma table_sum_app (c : nat) (p : string) (a b : DataFrame) :
  table_sum c p (a ++ b) = table_sum c p a + table_sum c p b.
Proof.
  unfold table_sum. induction a as [| r a IH]; simpl; [reflexivity |].
  rewrite IH. ring.
Qed.

(** No row of [df] has pattern [p]. *)
Lemma table_sum_absent (c : nat) (p : string) (df : DataFrame) :
  ~ In p (map Pattern df) -> table_sum c p df = 0.
Proof.
  unfold table_sum. induction df as [| r df IH]; simpl; intros H; auto.
  destruct (String.eqb_spec (Pattern r) p) as [E | _]; [tauto |].
  rewrite IH by tauto. reflexivity.
Qed.

Lemma group_add_patterns (acc : DataFrame) (r : row) (p : string) :
  In p (map Pattern (group_add acc r))
  <-> p = Pattern r \/ In p (map Pattern acc).
Proof.
  induction acc as [| r' acc IH]; simpl.
  - intuition.
  - destruct (String.compare (Pattern r) (Pattern r')) eqn:E; simpl.
    + apply String.compare_eq_iff in E. rewrite E. unfold Pattern at 1.
      simpl. intuition.
    + intuition.
    + rewrite IH. intuition.
Qed.

Lemma group_add_sorted (acc : DataFrame) (r : row) :
  sorted_rows acc -> sorted_rows (group_add acc r).
Proof.
  unfold sorted_rows. induction 1 as [| r' acc Hs IH Hall]; simpl.
  - repeat constructor.
  - destruct (String.compare (Pattern r) (Pattern r')) eqn:E.
    + constructor; auto.
    + constructor; [constructor; auto |]. constructor; auto.
      eapply Forall_impl; [| exact Hall]. intros x Hx.
      eapply string_compare_lt_trans; eauto.
    + constructor; auto.
      apply Forall_forall. intros x Hx.
      assert (Hp : In (Pattern x) (map Pattern (group_add acc r)))
        by (apply in_map; exact Hx).
      apply group_add_patterns in Hp. destruct Hp as [Hp | Hp].
      * rewrite Hp. apply string_compare_gt_lt. exact E.
      * apply in_map_iff in Hp. destruct Hp as [y [Ey Hy]].
        rewrite <- Ey. rewrite Forall_forall in Hall. auto.
Qed.

Lemma sorted_rows_NoDup (df : DataFrame) :
  sorted_rows df -> NoDup (map Pattern df).
Proof.
  unfold sorted_rows. induction 1 as [| r df Hs IH Hall]; simpl.
  - constructor.
  - constructor; auto. intros Hin.
    apply in_map_iff in Hin. destruct Hin as [y [Ey Hy]].
    rewrite Forall_forall in Hall. specialize (Hall y Hy).
    rewrite Ey, string_compare_refl in Hall. discriminate.
Qed.

Lemma table_sum_cons (c : nat) (p : string) (r : row) (df : DataFrame) :
  table_sum c p (r :: df)
  = (if String.eqb (Pattern r) p then cell c r else 0) + table_sum c p df.
Proof. reflexivity. Qed.

Lemma group_add_sum (c : nat) (p : string) (acc : DataFrame) (r : row) :
  table_sum c p (group_add acc r)
  = table_sum c p acc + (if String.eqb (Pattern r) p then cell c r else 0).
Proof.
  induction acc as [| r' acc IH]; cbn [group_add].
  - rewrite table_sum_cons. unfold table_sum. simpl. ring.
  - destruct (String.compare (Pattern r) (Pattern r')) eqn:E;
      rewrite !table_sum_cons.
    + apply String.compare_eq_iff in E. rewrite E.
      change (Pattern (Pattern r', add_buckets (buckets r') (buckets r)))
        with (Pattern r').
      change (cell c (Pattern r', add_buckets (buckets r') (buckets r)))
        with (nth c (add_buckets (buckets r') (buckets r)) 0).
      rewrite cell_add_buckets. fold (cell c r') (cell c r).
      destruct (String.eqb (Pattern r') p); ring.
    + ring.
    + rewrite IH. ring.
Qed.

Lemma group_add_length (acc : DataFrame) (r : row) :
  (List.length (group_add acc r) <= S (List.length acc))%nat.
Proof.
  induction acc as [| r' acc IH]; simpl; auto.
  destruct (String.compare (Pattern r) (Pattern r')); simpl; lia.
Qed.

(** [groupby('Pattern').sum()], generalised over the rows already
    grouped. *)
Lemma groupby_fold (df acc : DataFrame) :
  sorted_rows acc ->
  let out := fold_left group_add df acc in
  sorted_rows out
  /\ (forall p, In p (map Pattern out)
                <-> In p (map Pattern acc) \/ In p (map Pattern df))
  /\ (forall c p, table_sum c p out = table_sum c p acc + table_sum c p df)
  /\ (List.length out <= List.length acc + List.length df)%nat.
Proof.
  revert acc. induction df as [| r df IH]; intros acc Hs;
    cbn [fold_left]; cbv zeta.
  - split; [exact Hs |]. split; [| split].
    + intros p. simpl. tauto.
    + intros c p. unfold table_sum at 3. simpl. ring.
    + simpl. lia.
  - destruct (IH (group_add acc r) (group_add_sorted acc r Hs))
      as [H1 [H2 [H3 H4]]].
    split; [exact H1 |]. split; [| split].
    + intros p. rewrite H2, group_add_patterns. simpl. intuition.
    + intros c p. rewrite H3, group_add_sum, table_sum_cons. ring.
    + pose proof (group_add_length acc r). simpl. lia.
Qed.

(** In a table without repeated patterns the sum for a pattern is the
    bucket of its row. *)
Lemma table_sum_row (c : nat) (df : DataFrame) (p : string) (v : list Z) :
  NoDup (map Pattern df) -> In (p, v) df -> table_sum c p df = nth c v 0.
Proof.
  induction df as [| r df IH]; cbn [In map]; intros Hnd Hin; [tauto |].
  inversion Hnd as [| x l Hx Hnd']; subst.
  rewrite table_sum_cons.
  destruct Hin as [-> | Hin].
  - change (Pattern (p, v)) with p in *. rewrite String.eqb_refl.
    rewrite table_sum_absent by exact Hx.
    change (cell c (p, v)) with (nth c v 0). ring.
  - destruct (String.eqb_spec (Pattern r) p) as [E | _].
    + exfalso. apply Hx. rewrite E.
      change p with (Pattern (p, v)). apply in_map. exact Hin.
    + rewrite IH by assumption. ring.
Qed.

(** *** The groups of the input *)







(** The tables titled ["TF IDF centos : sanai of X"] and
    ["TF IDF centos : sanai of Y"] are merged under ["TF IDF centos"]. *)
Example merged_TF_IDF :
  count_distribution_over_dataset Samples.tables_by_title
  = [("TF IDF centos",
      [("AB", [0; 0; 0]); ("CD", [2; 3; 4]); ("EF", [1; 0; 1]);
       ("GA", [4; 0; 0])]);
     ("SIA centos",
      [("AB", [0; 0; 0]); ("CD", [1; 2; 3]); ("EF", [1; 0; 1])])].
Proof. reflexivity. Qed.


(* ----------------------------------------------------------------- *)
(** ** Normalised totals *)

(** What [truediv] does at a zero divisor is what binary64 does: [0/0] is
    NaN, a positive count over zero is [+inf], a negative one [-inf]. *)
Lemma division_by_zero_binary64 :
  (float_div (float_of_int 0) (float_of_int 0) = S754_nan
   /\ truediv 0 0 = NaN)
  /\ (float_div (float_of_int 1) (float_of_int 0) = S754_infinity false
      /\ truediv 1 0 = PInf)
  /\ (float_div (float_of_int (-1)) (float_of_int 0) = S754_infinity true
      /\ truediv (-1) 0 = NInf).
Proof. repeat split. Qed.



















(* ================================================================= *)
(** * Further properties of the code *)

Import Outcome.

(* ----------------------------------------------------------------- *)
(** ** [extract_sections]: what a run leaves *)

Lemma extract_line_sections_attach (sc : Stream) (l : list line_section) :
  forallb line_section_ok l = true ->
  extract_line_sections sc l = (map (attach_line_section sc) l, None).
Proof.
  induction l as [| x l IH]; simpl; intros H; auto.
  apply andb_true_iff in H. destruct H as [Hx Hl].
  destruct (has_span_true _ _ Hx) as [a [b [Ea Eb]]].
  unfold attach_line_section at 1. rewrite Ea, Eb, (IH Hl). reflexivity.
Qed.

Lemma extract_lines_attach (sc : Stream) (l : list line) :
  forallb line_ok l = true ->
  extract_lines sc l = (map (attach_line sc) l, None).
Proof.
  induction l as [| x l IH]; simpl; intros H; auto.
  apply andb_true_iff in H. destruct H as [Hx Hl].
  apply andb_true_iff in Hx. destruct Hx as [Hs Hc].
  destruct (has_span_true _ _ Hs) as [a [b [Ea Eb]]].
  unfold attach_line at 1. rewrite Ea, Eb, (IH Hl).
  destruct (l_sections x) as [c |]; simpl in *.
  - rewrite (extract_line_sections_attach sc c Hc). reflexivity.
  - reflexivity.
Qed.

Lemma extract_sanai_attach (sc : Stream) (l : list sana) :
  forallb sana_ok l = true ->
  extract_sanai sc l = (map (attach_sana sc) l, None).
Proof.
  induction l as [| x l IH]; simpl; intros H; auto.
  apply andb_true_iff in H. destruct H as [Hx Hl].
  apply andb_true_iff in Hx. destruct Hx as [Hs Hc].
  destruct (has_span_true _ _ Hs) as [a [b [Ea Eb]]].
  unfold attach_sana at 1. rewrite Ea, Eb, (IH Hl).
  destruct (sa_lines x) as [c |]; simpl in *.
  - rewrite (extract_lines_attach sc c Hc). reflexivity.
  - reflexivity.
Qed.

Lemma extract_sections_attach (sc : Stream) (l : list section) :
  well_formed l = true ->
  extract_sections sc l = (map (attach_section sc) l, None).
Proof.
  unfold well_formed.
  induction l as [| x l IH]; simpl; intros H; auto.
  apply andb_true_iff in H. destruct H as [Hx Hl].
  apply andb_true_iff in Hx. destruct Hx as [Hs Hc].
  destruct (has_span_true _ _ Hs) as [a [b [Ea Eb]]].
  unfold attach_section at 1. rewrite Ea, Eb, (IH Hl).
  destruct (s_sanai x) as [c |]; simpl in *.
  - rewrite (extract_sanai_attach sc c Hc). reflexivity.
  - reflexivity.
Qed.

(** X1.  On a tree whose declared nodes all have ['start'] and ['end'],
    [extract_sections] raises nothing and returns the same tree with, on
    every node of every level, the slice of the score over the node's own
    span; every node then carries a slice. *)
Theorem extract_sections_on_well_formed (sc : Stream) (tree : list section) :
  well_formed tree = true ->
  extract_sections sc tree = (map (attach_section sc) tree, None)
  /\ forallb section_done (map (attach_section sc) tree) = true.
Proof.
  intros H. pose proof (extract_sections_attach sc tree H) as E.
  split; [exact E |].
  apply (extract_sections_done sc tree). exact E.
Qed.

Lemma extract_sections_on_well_formed_witness :
  well_formed [Samples.section_0_2] = true
  /\ extract_sections Samples.four_notes [Samples.section_0_2]
     = (map (attach_section Samples.four_notes) [Samples.section_0_2], None).
Proof.
  split; [reflexivity |].
  apply (extract_sections_on_well_formed Samples.four_notes
                                         [Samples.section_0_2]).
  reflexivity.
Defined.

(** X2.  [extract_sections] raises exactly when some declared node of the
    tree lacks ['start'] or ['end'], and what it raises is the [KeyError] for
    one of these two keys. *)
Theorem extract_sections_raises_iff (sc : Stream) (tree : list section) :
  (snd (extract_sections sc tree) = None <-> well_formed tree = true)
  /\ (forall e, snd (extract_sections sc tree) = Some e ->
                e = KeyError "start" \/ e = KeyError "end").
Proof.
  destruct (well_formed tree) eqn:W.
  - rewrite (extract_sections_attach sc tree W). simpl.
    split; [tauto | discriminate].
  - destruct (extract_sections_bad sc tree W) as [k [E Hk]].
    rewrite E. split.
    + split; discriminate.
    + intros e He. injection He as <-. destruct Hk as [-> | ->]; auto.
Qed.

(** *** The shape of the tree is kept, and a second run changes nothing *)

Lemma erase_extract_line_sections (sc : Stream) (l : list line_section) :
  map erase_line_section (fst (extract_line_sections sc l))
  = map erase_line_section l.
Proof.
  induction l as [| x l IH]; simpl; auto.
  destruct (ls_start x) eqn:Ea; [| reflexivity].
  destruct (ls_end x) eqn:Eb; [| reflexivity].
  destruct (extract_line_sections sc l) as [l' e].
  cbn [fst map] in *. rewrite IH. f_equal.
  unfold erase_line_section. simpl. rewrite Ea, Eb. reflexivity.
Qed.

Lemma erase_extract_lines (sc : Stream) (l : list line) :
  map erase_line (fst (extract_lines sc l)) = map erase_line l.
Proof.
  induction l as [| x l IH]; simpl; auto.
  destruct (l_start x) eqn:Ea; [| reflexivity].
  destruct (l_end x) eqn:Eb; [| reflexivity].
  destruct (extract_lines sc l) as [l' e]. cbn [fst] in IH.
  destruct (l_sections x) as [c |] eqn:Ec.
  - pose proof (erase_extract_line_sections sc c) as Hc.
    destruct (extract_line_sections sc c) as [c' e1]. cbn [fst] in Hc.
    assert (Hd : forall sl,
               erase_line {| l_start := Some q; l_end := Some q0;
                             l_score := sl; l_sections := Some c' |}
               = erase_line x).
    { intros sl. unfold erase_line. simpl. rewrite Ea, Eb, Ec. simpl.
      rewrite Hc. reflexivity. }
    destruct e1; cbn [fst map]; rewrite Hd; [| rewrite IH]; reflexivity.
  - cbn [fst map]. rewrite IH. f_equal.
    unfold erase_line. simpl. rewrite Ea, Eb, Ec. reflexivity.
Qed.

Lemma erase_extract_sanai (sc : Stream) (l : list sana) :
  map erase_sana (fst (extract_sanai sc l)) = map erase_sana l.
Proof.
  induction l as [| x l IH]; simpl; auto.
  destruct (sa_start x) eqn:Ea; [| reflexivity].
  destruct (sa_end x) eqn:Eb; [| reflexivity].
  destruct (extract_sanai sc l) as [l' e]. cbn [fst] in IH.
  destruct (sa_lines x) as [c |] eqn:Ec.
  - pose proof (erase_extract_lines sc c) as Hc.
    destruct (extract_lines sc c) as [c' e1]. cbn [fst] in Hc.
    assert (Hd : forall sl,
               erase_sana {| sa_start := Some q; sa_end := Some q0;
                             sa_score := sl; sa_lines := Some c' |}
               = erase_sana x).
    { intros sl. unfold erase_sana. simpl. rewrite Ea, Eb, Ec. simpl.
      rewrite Hc. reflexivity. }
    destruct e1; cbn [fst map]; rewrite Hd; [| rewrite IH]; reflexivity.
  - cbn [fst map]. rewrite IH. f_equal.
    unfold erase_sana. simpl. rewrite Ea, Eb, Ec. reflexivity.
Qed.

(** X3.  Whether it raises or not, [extract_sections] only adds slices:
    the tree it leaves has the nodes of the tree it was given, in the same
    order and with the same ['start'] and ['end'] at every level. *)
Theorem extract_sections_keeps_shape (sc : Stream) (tree : list section) :
  map erase_section (fst (extract_sections sc tree))
  = map erase_section tree.
Proof.
  induction tree as [| x l IH]; simpl; auto.
  destruct (s_start x) eqn:Ea; [| reflexivity].
  destruct (s_end x) eqn:Eb; [| reflexivity].
  destruct (extract_sections sc l) as [l' e]. cbn [fst] in IH.
  destruct (s_sanai x) as [c |] eqn:Ec.
  - pose proof (erase_extract_sanai sc c) as Hc.
    destruct (extract_sanai sc c) as [c' e1]. cbn [fst] in Hc.
    assert (Hd : forall sl,
               erase_section {| s_start := Some q; s_end := Some q0;
                                s_score := sl; s_sanai := Some c' |}
               = erase_section x).
    { intros sl. unfold erase_section. simpl. rewrite Ea, Eb, Ec. simpl.
      rewrite Hc. reflexivity. }
    destruct e1; cbn [fst map]; rewrite Hd; [| rewrite IH]; reflexivity.
  - cbn [fst map]. rewrite IH. f_equal.
    unfold erase_section. simpl. rewrite Ea, Eb, Ec. reflexivity.
Qed.

Lemma extract_line_sections_again (sc : Stream) (l : list line_section) :
  extract_line_sections sc (fst (extract_line_sections sc l))
  = extract_line_sections sc l.
Proof.
  induction l as [| x l IH]; simpl; auto.
  destruct (ls_start x) eqn:Ea; [| simpl; rewrite Ea; reflexivity].
  destruct (ls_end x) eqn:Eb; [| simpl; rewrite Ea, Eb; reflexivity].
  destruct (extract_line_sections sc l) as [l' e]. simpl in *.
  rewrite IH. reflexivity.
Qed.

Lemma extract_lines_again (sc : Stream) (l : list line) :
  extract_lines sc (fst (extract_lines sc l)) = extract_lines sc l.
Proof.
  induction l as [| x l IH]; simpl; auto.
  destruct (l_start x) eqn:Ea; [| simpl; rewrite Ea; reflexivity].
  destruct (l_end x) eqn:Eb; [| simpl; rewrite Ea, Eb; reflexivity].
  destruct (extract_lines sc l) as [l' e]. simpl in IH.
  destruct (l_sections x) as [c |] eqn:Ec.
  - pose proof (extract_line_sections_again sc c) as Hc.
    destruct (extract_line_sections sc c) as [c' e1]. simpl in Hc.
    destruct e1; simpl; rewrite Hc; [| rewrite IH]; reflexivity.
  - simpl. rewrite IH. reflexivity.
Qed.

Lemma extract_sanai_again (sc : Stream) (l : list sana) :
  extract_sanai sc (fst (extract_sanai sc l)) = extract_sanai sc l.
Proof.
  induction l as [| x l IH]; simpl; auto.
  destruct (sa_start x) eqn:Ea; [| simpl; rewrite Ea; reflexivity].
  destruct (sa_end x) eqn:Eb; [| simpl; rewrite Ea, Eb; reflexivity].
  destruct (extract_sanai sc l) as [l' e]. simpl in IH.
  destruct (sa_lines x) as [c |] eqn:Ec.
  - pose proof (extract_lines_again sc c) as Hc.
    destruct (extract_lines sc c) as [c' e1]. simpl in Hc.
    destruct e1; simpl; rewrite Hc; [| rewrite IH]; reflexivity.
  - simpl. rewrite IH. reflexivity.
Qed.

(** X4.  Running [extract_sections] again on the tree it has left, with
    the same score, gives the same tree and the same outcome: slices are
    overwritten by equal slices, and a run that raised raises again at the
    same node. *)
Theorem extract_sections_again (sc : Stream) (tree : list section) :
  extract_sections sc (fst (extract_sections sc tree))
  = extract_sections sc tree.
Proof.
  induction tree as [| x l IH]; simpl; auto.
  destruct (s_start x) eqn:Ea; [| simpl; rewrite Ea; reflexivity].
  destruct (s_end x) eqn:Eb; [| simpl; rewrite Ea, Eb; reflexivity].
  destruct (extract_sections sc l) as [l' e]. simpl in IH.
  destruct (s_sanai x) as [c |] eqn:Ec.
  - pose proof (extract_sanai_again sc c) as Hc.
    destruct (extract_sanai sc c) as [c' e1]. simpl in Hc.
    destruct e1; simpl; rewrite Hc; [| rewrite IH]; reflexivity.
  - simpl. rewrite IH. reflexivity.
Qed.

(* ----------------------------------------------------------------- *)
(** ** [extract_measures]: slices side by side *)








(* ----------------------------------------------------------------- *)
(** ** [add_streams_to_score_data]: whole corpora *)

(** X6.  On a corpus in which every score has a part and every tree has
    all its spans, [add_streams_to_score_data] raises nothing: it returns the
    pieces under the same keys and in the same order, each with its score
    unchanged and with the slices of the first part ([parts[0]], notes and
    rests only) on every node of its tree. *)
Theorem add_streams_on_extractable (scores_data : dict score_info) :
  forallb extractable scores_data = true ->
  add_streams_to_score_data scores_data = (map attach_piece scores_data, None)
  /\ keys (map attach_piece scores_data) = keys scores_data
  /\ Forall (fun kv => processed (snd kv) = true)
            (map attach_piece scores_data).
Proof.
  intros H.
  assert (E : add_streams_to_score_data scores_data
              = (map attach_piece scores_data, None)).
  { induction scores_data as [| [mbid info] rest IH]; simpl in *; auto.
    apply andb_true_iff in H. destruct H as [Hx Hrest].
    unfold extractable in Hx. simpl in Hx.
    unfold attach_piece at 1. simpl.
    destruct (parts (score info)) as [| part0 ps]; [discriminate |].
    rewrite (extract_sections_attach _ _ Hx), (IH Hrest). reflexivity. }
  split; [exact E |]. split.
  - unfold keys. rewrite map_map. reflexivity.
  - exact (add_streams_processed _ _ E).
Qed.

Lemma add_streams_on_extractable_witness :
  forallb extractable [("b", Samples.piece_b)] = true
  /\ add_streams_to_score_data [("b", Samples.piece_b)]
     = (map attach_piece [("b", Samples.piece_b)], None).
Proof.
  split; [reflexivity |].
  apply (add_streams_on_extractable [("b", Samples.piece_b)]).
  reflexivity.
Defined.

(** X7.  A score without parts stops the run as a missing span does:
    [score.parts[0]] raises [IndexError], the pieces before it have their
    slices, and that piece and the ones after it are left as they were. *)
Theorem add_streams_without_parts
        (pre post : dict score_info) (mbid : string) (info : score_info) :
  forallb extractable pre = true ->
  parts (score info) = [] ->
  add_streams_to_score_data (pre ++ (mbid, info) :: post)
  = (map attach_piece pre ++ (mbid, info) :: post, Some IndexError).
Proof.
  intros Hpre Hparts.
  assert (E : add_streams_to_score_data pre = (map attach_piece pre, None)).
  { clear Hparts. induction pre as [| [k i] rest IH]; simpl in *; auto.
    apply andb_true_iff in Hpre. destruct Hpre as [Hx Hrest].
    unfold extractable in Hx. simpl in Hx.
    unfold attach_piece at 1. simpl.
    destruct (parts (score i)) as [| part0 ps]; [discriminate |].
    rewrite (extract_sections_attach _ _ Hx), (IH Hrest). reflexivity. }
  rewrite (add_streams_app _ _ _ E). simpl. rewrite Hparts. reflexivity.
Qed.

Lemma add_streams_without_parts_witness :
  forallb extractable [("b", Samples.piece_b)] = true
  /\ parts (score Samples.piece_without_parts) = []
  /\ add_streams_to_score_data
       ([("b", Samples.piece_b)] ++ ("e", Samples.piece_without_parts)
          :: [("c", Samples.piece_b)])
     = (map attach_piece [("b", Samples.piece_b)]
          ++ ("e", Samples.piece_without_parts) :: [("c", Samples.piece_b)],
        Some IndexError).
Proof.
  split; [reflexivity |]. split; [reflexivity |].
  apply (add_streams_without_parts [("b", Samples.piece_b)]
           [("c", Samples.piece_b)] "e" Samples.piece_without_parts);
    reflexivity.
Defined.

(* ----------------------------------------------------------------- *)
(** ** [get_score_data]: what is in the corpus, what is parsed *)

Section CorpusFacts.

Variable converter_parse : string -> exn + Score.

(** One turn of the loop over the files either leaves the corpus as it is
    or stores, under the name of the file before ['.xml'], the parsed score
    with the sections of a record that has this name as its ['mbid']. *)
Lemma process_file_scores_cases (folder_path : string)
      (anns : list annotation) (w : world) (file_name : string) :
  let mbid := split_head ".xml" file_name in
  let w' := process_file converter_parse folder_path anns w file_name in
  scores w' = scores w
  \/ exists a sc secs,
       In a anns /\ a_mbid a = Some mbid
       /\ converter_parse (os_path_join folder_path file_name) = inr sc
       /\ a_sections a = Some secs
       /\ scores w' = dict_set (scores w) mbid
                               {| score := sc; annotations := secs |}.
Proof.
  intros mbid w'. subst w'. unfold process_file. fold mbid.
  destruct (annotations_split mbid anns)
    as [Hall | [pre [x [post [E [Hpre [Hx | Hx]]]]]]].
  - left. rewrite try_body_unmatched by assumption. reflexivity.
  - left. subst anns. rewrite try_body_skip by assumption. simpl.
    rewrite Hx. reflexivity.
  - subst anns. rewrite try_body_skip by assumption. simpl.
    rewrite Hx, String.eqb_refl.
    destruct (converter_parse (os_path_join folder_path file_name))
      as [e | sc] eqn:Ep; simpl; [left; reflexivity |].
    destruct (a_sections x) as [secs |] eqn:Es; simpl; [| left; reflexivity].
    right. exists x, sc, secs. repeat split; auto.
    apply in_or_app. right. left. reflexivity.
Qed.

Lemma corpus_entries_from (files : list string) (folder_path : string)
      (anns : list annotation) (w : world) (k : string) (info : score_info) :
  dict_get (scores (get_score_data_from converter_parse w files
                                        folder_path anns)) k = Some info ->
  dict_get (scores w) k = Some info
  \/ exists file_name a,
       In file_name files /\ split_head ".xml" file_name = k
       /\ converter_parse (os_path_join folder_path file_name)
          = inr (score info)
       /\ In a anns /\ a_mbid a = Some k
       /\ a_sections a = Some (annotations info).
Proof.
  unfold get_score_data_from. revert w.
  induction files as [| f files IH]; simpl; intros w H; [left; exact H |].
  destruct (IH _ H) as [H1 | [g [a [Hg Hrest]]]].
  - destruct (process_file_scores_cases folder_path anns w f)
      as [E | [a [sc [secs [Ha [Hm [Hp [Hs E]]]]]]]].
    + left. rewrite <- E. exact H1.
    + rewrite E, dict_get_set in H1.
      destruct (String.eqb_spec (split_head ".xml" f) k) as [Ek | Hne].
      * injection H1 as <-. right. exists f, a. simpl.
        rewrite <- Ek. repeat split; auto.
      * left. exact H1.
  - right. exists g, a. split; [right; exact Hg | exact Hrest].
Qed.

(** X8.  Every entry of the corpus [get_score_data] returns comes from a
    file of the folder: its key is the file's name before ['.xml'], its score
    is what [converter.parse] returned for that file, and its sections are
    those of an annotation record whose ['mbid'] is the key. *)
Theorem corpus_entries_come_from_files
        (files : list string) (folder_path : string)
        (anns : list annotation) (k : string) (info : score_info) :
  dict_get (scores (get_score_data converter_parse files folder_path anns)) k
  = Some info ->
  exists file_name a,
    In file_name files /\ split_head ".xml" file_name = k
    /\ converter_parse (os_path_join folder_path file_name)
       = inr (score info)
    /\ In a anns /\ a_mbid a = Some k
    /\ a_sections a = Some (annotations info).
Proof.
  intros H. unfold get_score_data in H.
  destruct (corpus_entries_from _ _ _ _ _ _ H) as [H0 | H1]; [| exact H1].
  simpl in H0. discriminate.
Qed.

Lemma try_body_parsed (anns : list annotation) (mbid path : string)
      (w : world) :
  parsed (fst (try_body converter_parse anns mbid path w))
  = parsed w ++ (if reaches_match anns mbid then [path] else []).
Proof.
  induction anns as [| r anns IH]; simpl.
  - symmetry. apply app_nil_r.
  - destruct (a_mbid r) as [m |]; simpl; [| symmetry; apply app_nil_r].
    destruct (String.eqb m mbid); [| exact IH].
    destruct (converter_parse path); simpl; auto.
    destruct (a_sections r); reflexivity.
Qed.

Lemma process_file_parsed (folder_path : string) (anns : list annotation)
      (w : world) (file_name : string) :
  parsed (process_file converter_parse folder_path anns w file_name)
  = parsed w
    ++ (if reaches_match anns (split_head ".xml" file_name)
        then [os_path_join folder_path file_name] else []).
Proof.
  unfold process_file.
  pose proof (try_body_parsed anns (split_head ".xml" file_name)
                (os_path_join folder_path file_name) w) as H.
  destruct (try_body converter_parse anns _ _ w) as [w' e].
  simpl in H. destruct e; simpl; exact H.
Qed.

(** X9.  [get_score_data] hands to [converter.parse] exactly the files
    for which the loop over the records reaches a record with their name,
    each once and in the order of the folder; a file without such a record is
    never parsed. *)
Theorem parsed_files_are_the_matched_ones
        (files : list string) (folder_path : string)
        (anns : list annotation) :
  parsed (get_score_data converter_parse files folder_path anns)
  = map (os_path_join folder_path)
        (filter (fun f => reaches_match anns (split_head ".xml" f)) files).
Proof.
  unfold get_score_data, get_score_data_from.
  assert (G : forall w,
             parsed (fold_left (process_file converter_parse folder_path anns)
                               files w)
             = parsed w
               ++ map (os_path_join folder_path)
                    (filter (fun f => reaches_match anns
                                        (split_head ".xml" f)) files)).
  { induction files as [| f files IH]; intros w; simpl.
    - symmetry. apply app_nil_r.
    - rewrite IH, process_file_parsed, <- app_assoc.
      destruct (reaches_match anns (split_head ".xml" f)); reflexivity. }
  rewrite G. reflexivity.
Qed.

Lemma process_file_other_key (folder_path : string) (anns : list annotation)
      (w : world) (file_name k : string) :
  split_head ".xml" file_name <> k ->
  dict_get (scores (process_file converter_parse folder_path anns w
                                 file_name)) k
  = dict_get (scores w) k.
Proof.
  intros Hne.
  destruct (process_file_scores_cases folder_path anns w file_name)
    as [E | [a [sc [secs [_ [_ [_ [_ E]]]]]]]]; rewrite E; auto.
  rewrite dict_get_set. apply String.eqb_neq in Hne. rewrite Hne.
  reflexivity.
Qed.

(** X10.  A file that parses, and whose name the loop over the records
    reaches, puts its piece in the corpus: if no later file of the folder has
    the same name before ['.xml'], the corpus returned holds, under that
    name, the score parsed from the file and the sections of the first record
    with that ['mbid']. *)
Theorem parsed_piece_is_in_corpus
        (pre post : list string) (file_name folder_path : string)
        (pre_a post_a : list annotation) (a : annotation)
        (sc : Score) (secs : list section) :
  let mbid := split_head ".xml" file_name in
  Forall (unmatched mbid) pre_a ->
  a_mbid a = Some mbid ->
  a_sections a = Some secs ->
  converter_parse (os_path_join folder_path file_name) = inr sc ->
  Forall (fun g => split_head ".xml" g <> mbid) post ->
  dict_get (scores (get_score_data converter_parse
                      (pre ++ file_name :: post) folder_path
                      (pre_a ++ a :: post_a))) mbid
  = Some {| score := sc; annotations := secs |}.
Proof.
  intros mbid Hpre Ha Hs Hp Hpost.
  rewrite get_score_data_app.
  set (w := get_score_data converter_parse pre folder_path
                           (pre_a ++ a :: post_a)).
  unfold get_score_data_from. simpl.
  assert (E : dict_get
                (scores (process_file converter_parse folder_path
                           (pre_a ++ a :: post_a) w file_name)) mbid
              = Some {| score := sc; annotations := secs |}).
  { unfold process_file. fold mbid.
    rewrite try_body_skip by assumption. simpl.
    rewrite Ha, String.eqb_refl, Hp, Hs. simpl.
    rewrite dict_get_set, String.eqb_refl. reflexivity. }
  revert E.
  generalize (process_file converter_parse folder_path
                (pre_a ++ a :: post_a) w file_name).
  clear w. induction Hpost as [| g post Hg _ IH]; intros w E; simpl; auto.
  apply IH. rewrite process_file_other_key by exact Hg. exact E.
Qed.

End CorpusFacts.

Lemma corpus_entries_come_from_files_witness :
  dict_get (scores (get_score_data Samples.parse_only_a ["c.xml"; "a.xml"]
                                   "scores" Samples.annotation_set)) "a"
  = Some {| score := {| parts := [Samples.four_notes] |};
            annotations := [Samples.section_0_2] |}
  /\ exists file_name a,
       In file_name ["c.xml"; "a.xml"]
       /\ split_head ".xml" file_name = "a"
       /\ Samples.parse_only_a (os_path_join "scores" file_name)
          = inr {| parts := [Samples.four_notes] |}
       /\ In a Samples.annotation_set /\ a_mbid a = Some "a"
       /\ a_sections a = Some [Samples.section_0_2].
Proof.
  split; [reflexivity |].
  apply (corpus_entries_come_from_files Samples.parse_only_a
           ["c.xml"; "a.xml"] "scores" Samples.annotation_set "a"
           {| score := {| parts := [Samples.four_notes] |};
              annotations := [Samples.section_0_2] |}).
  reflexivity.
Defined.

Lemma parsed_piece_is_in_corpus_witness :
  Forall (unmatched (split_head ".xml" "a.xml")) [Samples.record_c]
  /\ a_mbid Samples.record_a = Some (split_head ".xml" "a.xml")
  /\ a_sections Samples.record_a = Some [Samples.section_0_2]
  /\ Samples.parse_only_a (os_path_join "scores" "a.xml")
     = inr {| parts := [Samples.four_notes] |}
  /\ Forall (fun g => split_head ".xml" g <> split_head ".xml" "a.xml")
            ["zz.xml"]
  /\ dict_get (scores (get_score_data Samples.parse_only_a
                         (["c.xml"] ++ "a.xml" :: ["zz.xml"]) "scores"
                         ([Samples.record_c] ++ Samples.record_a
                            :: [Samples.record_a_again])))
              (split_head ".xml" "a.xml")
     = Some {| score := {| parts := [Samples.four_notes] |};
               annotations := [Samples.section_0_2] |}.
Proof.
  assert (H1 : Forall (unmatched (split_head ".xml" "a.xml"))
                      [Samples.record_c]).
  { repeat constructor. eexists. split; [reflexivity | discriminate]. }
  assert (H5 : Forall (fun g => split_head ".xml" g
                                <> split_head ".xml" "a.xml") ["zz.xml"]).
  { repeat constructor. discriminate. }
  split; [exact H1 |]. split; [reflexivity |]. split; [reflexivity |].
  split; [reflexivity |]. split; [exact H5 |].
  apply (parsed_piece_is_in_corpus Samples.parse_only_a ["c.xml"] ["zz.xml"]
           "a.xml" "scores" [Samples.record_c] [Samples.record_a_again]
           Samples.record_a {| parts := [Samples.four_notes] |}
           [Samples.section_0_2]); auto.
Defined.

(* ----------------------------------------------------------------- *)
(** ** [count_pattern_in_score]: what the counters see and how much *)

Lemma note_names_notes_only (s : Stream) :
  note_names (notes_only s) = note_names s.
Proof.
  induction s as [| [o e] s IH]; simpl; auto.
  destruct e; simpl; rewrite ?IH; reflexivity.
Qed.

(** X11.  Both counters look at the pitched notes alone: taking the rests
    and chords out of a sub-timeline changes no count, so an occurrence may
    run across a rest. *)
Theorem counters_see_notes_only (score : Stream) (pattern : list string) :
  score_data_processing.count_pattern_in_score (notes_only score) pattern
  = score_data_processing.count_pattern_in_score score pattern
  /\ seg2_score_data_processing.count_pattern_in_score
       (notes_only score) pattern
     = seg2_score_data_processing.count_pattern_in_score score pattern.
Proof.
  unfold score_data_processing.count_pattern_in_score,
         seg2_score_data_processing.count_pattern_in_score.
  rewrite note_names_notes_only. split; reflexivity.
Qed.

Lemma occurrences_length (names pattern : list string) :
  total_occurrences names pattern
  <= Z.max 0 (len names - len pattern + 1).
Proof.
  unfold total_occurrences, occurrences.
  transitivity (len (range (len names - len pattern + 1))).
  - unfold len. apply inj_le. apply filter_length_le.
  - destruct (Z_le_gt_dec 0 (len names - len pattern + 1)) as [H | H].
    + rewrite len_range by exact H. lia.
    + rewrite range_nonpos by lia. unfold len. simpl. lia.
Qed.

(** X12.  None of the three counts of the quartile counter is negative,
    the middle count included although it is obtained by subtraction, and
    together they are at most the number of start indices the loop visits,
    [max(0, N - len(pattern) + 1)]. *)
Theorem quartile_counts_bounds (score : Stream) (pattern : list string) :
  let '(start, middle, end_) :=
    score_data_processing.count_pattern_in_score score pattern in
  0 <= start /\ 0 <= middle /\ 0 <= end_
  /\ start + middle + end_
     <= Z.max 0 (len (note_names score) - len pattern + 1).
Proof.
  rewrite quartile_counts. cbv zeta.
  repeat split; try apply count_nonneg.
  rewrite <- (count_partition3
                (fun i => i <? int_mul (len (note_names score)) f0_25)
                (fun i => i >=? len (note_names score)
                                - int_mul (len (note_names score)) f0_25)).
  apply occurrences_length.
Qed.

(** X13.  The quartile counter returns three zeros exactly when the
    pattern is nowhere in the list of pitch names as a run of consecutive
    names. *)
Theorem quartile_zero_iff_absent (score : Stream) (pattern : list string) :
  score_data_processing.count_pattern_in_score score pattern = (0, 0, 0)
  <-> (forall pre post, note_names score <> pre ++ pattern ++ post).
Proof.
  rewrite quartile_counts. cbv zeta.
  set (names := note_names score).
  set (a := fun i => i <? int_mul (len names) f0_25).
  set (b := fun i => i >=? len names - int_mul (len names) f0_25).
  pose proof (count_partition3 a b (occurrences names pattern)) as HP.
  pose proof (count_nonneg a (occurrences names pattern)) as H1.
  pose proof (count_nonneg (fun i => negb (a i) && negb (b i))
                           (occurrences names pattern)) as H2.
  pose proof (count_nonneg (fun i => negb (a i) && b i)
                           (occurrences names pattern)) as H3.
  split.
  - intros E pre post Hn.
    assert (Hin : In (len pre) (occurrences names pattern)).
    { apply occurrences_spec. exists pre, post. auto. }
    injection E as E1 E2 E3. subst a b. cbv beta in HP.
    rewrite E1, E2, E3 in HP.
    destruct (occurrences names pattern); [destruct Hin |].
    unfold len in HP. simpl in HP. lia.
  - intros Hno.
    assert (E : occurrences names pattern = []).
    { destruct (occurrences names pattern) as [| i l] eqn:Eo; auto.
      assert (Hin : In i (occurrences names pattern))
        by (rewrite Eo; left; reflexivity).
      apply occurrences_spec in Hin.
      destruct Hin as [pre [post [Hn _]]]. destruct (Hno pre post Hn). }
    rewrite E. reflexivity.
Qed.

Section DecileBuckets.
Import seg2_score_data_processing.

Variables (names pattern : list string) (N : Z).

Lemma decile_bucket_fold (l : list Z) (d : pct_counts) (k : pct) :
  fold_left (count_step names pattern N) l d k
  = d k + count (fun i => is_occurrence names pattern i
                          && counted_as N i k) l.
Proof.
  revert d. induction l as [| i l IH]; intros d; cbn [fold_left].
  - rewrite count_nil. ring.
  - rewrite IH, count_cons. unfold count_step, counted_as.
    change (list_eqb (slice names i (i + len pattern)) pattern)
      with (is_occurrence names pattern i).
    destruct (is_occurrence names pattern i); cbn [andb]; [| ring].
    destruct (branch N i) as [k' |]; [| ring].
    unfold incr. destruct (pct_eqb k' k); ring.
Qed.

End DecileBuckets.

(** X14.  Each of the ten counts of the decile counter is the number of
    occurrences whose start index takes the branch of its key; it is never
    negative and never more than the number of occurrences. *)
Theorem decile_bucket_counts (score : Stream) (pattern : list string)
        (k : seg2_score_data_processing.pct) :
  let names := note_names score in
  let n := seg2_score_data_processing.count_pattern_in_score
             score pattern k in
  n = count (fun i => counted_as (len names) i k)
            (occurrences names pattern)
  /\ 0 <= n <= total_occurrences names pattern.
Proof.
  intros names n. subst n.
  unfold seg2_score_data_processing.count_pattern_in_score. fold names.
  rewrite decile_bucket_fold. unfold occurrences at 1.
  rewrite count_filter.
  unfold seg2_score_data_processing.zero_counts. rewrite Z.add_0_l.
  split; [reflexivity |]. split; [apply count_nonneg |].
  rewrite <- count_filter. unfold total_occurrences, count, len.
  apply inj_le. apply filter_length_le.
Qed.

(* ----------------------------------------------------------------- *)
(** ** [count_all_patterns]: one entry per key *)

Section CountAll.
Import score_data_processing.

Context {A : Type}.
Variables (score : Stream) (pattern_counter : Stream -> list string -> A).

Lemma find_last {B : Type} (f : B -> bool) (l : list B) (x : B) :
  find f (l ++ [x])
  = match find f l with
    | Some y => Some y
    | None => if f x then Some x else None
    end.
Proof.
  induction l as [| y l IH]; simpl; auto.
  destruct (f y); auto.
Qed.

Lemma count_all_fold_get (patterns : list (list string)) (d : dict A)
      (k : string) :
  dict_get (fold_left
              (fun pattern_counts pattern =>
                 dict_set pattern_counts (join pattern)
                          (pattern_counter score pattern))
              patterns d) k
  = match last_with_key patterns k with
    | Some p => Some (pattern_counter score p)
    | None => dict_get d k
    end.
Proof.
  unfold last_with_key. revert d.
  induction patterns as [| p patterns IH]; intros d; simpl; auto.
  rewrite IH, find_last.
  destruct (find (fun p0 => String.eqb (join p0) k) (rev patterns)); auto.
  rewrite dict_get_set.
  destruct (String.eqb (join p) k); reflexivity.
Qed.

Lemma count_all_fold_keys (patterns : list (list string)) (d : dict A) :
  NoDup (keys d) ->
  NoDup (keys (fold_left
              (fun pattern_counts pattern =>
                 dict_set pattern_counts (join pattern)
                          (pattern_counter score pattern))
              patterns d))
  /\ (forall k, In k (keys (fold_left
              (fun pattern_counts pattern =>
                 dict_set pattern_counts (join pattern)
                          (pattern_counter score pattern))
              patterns d))
                <-> In k (keys d) \/ In k (map join patterns)).
Proof.
  revert d. induction patterns as [| p patterns IH]; intros d Hd; simpl.
  - split; [exact Hd | intros k; tauto].
  - destruct (IH (dict_set d (join p) (pattern_counter score p)))
      as [H1 H2].
    { apply keys_set_NoDup. exact Hd. }
    split; [exact H1 |]. intros k. rewrite H2.
    destruct (keys_set d (join p) (pattern_counter score p))
      as [E | [Hn E]]; rewrite E.
    + assert (Hin : In (join p) (keys d)).
      { rewrite <- E. clear. induction d as [| [k0 v0] d IH]; simpl.
        - left. reflexivity.
        - destruct (String.eqb_spec k0 (join p)) as [-> | Hne]; simpl; auto. }
      split; [tauto |]. intros [H | [<- | H]]; auto.
    + rewrite in_app_iff. simpl. tauto.
Qed.

End CountAll.

(** X15.  [count_all_patterns] returns one entry per distinct
    concatenation of a pattern's names: looked up under a key, it gives the
    counter's result for the last pattern of the list that concatenates to
    this key (an earlier pattern with the same concatenation is
    overwritten), and nothing under any other key. *)
Theorem count_all_patterns_lookup {A : Type} (score : Stream)
        (patterns : list (list string))
        (pattern_counter : Stream -> list string -> A) :
  (forall k,
      dict_get (score_data_processing.count_all_patterns
                  score patterns pattern_counter) k
      = option_map (pattern_counter score) (last_with_key patterns k))
  /\ NoDup (keys (score_data_processing.count_all_patterns
                    score patterns pattern_counter))
  /\ (forall k,
         In k (keys (score_data_processing.count_all_patterns
                       score patterns pattern_counter))
         <-> In k (map join patterns)).
Proof.
  unfold score_data_processing.count_all_patterns.
  split; [| split].
  - intros k. rewrite count_all_fold_get.
    destruct (last_with_key patterns k); reflexivity.
  - apply count_all_fold_keys. constructor.
  - intros k.
    destruct (count_all_fold_keys score pattern_counter patterns [])
      as [_ H]; [constructor |].
    rewrite H. simpl. tauto.
Qed.

(* ----------------------------------------------------------------- *)
(** ** [count_all_patterns_wrapper]: labels and entries *)

(** *** Labels *)

Lemma append_assoc (a b c : string) :
  ((a ++ b) ++ c = a ++ (b ++ c))%string.
Proof. induction a as [| x a IH]; simpl; [| rewrite IH]; reflexivity. Qed.

Lemma append_cancel_l (a b c : string) :
  (a ++ b = a ++ c)%string -> b = c.
Proof.
  induction a as [| x a IH]; simpl; intros E; auto.
  injection E as E. auto.
Qed.

Lemma no_underscore_app (a t : string) :
  no_underscore (a ++ String "_" t) = false.
Proof.
  induction a as [| c a IH]; simpl; auto.
  rewrite IH. apply andb_false_r.
Qed.

(** The text after the last ['_'] of a string and the text before it. *)
Lemma split_at_last_underscore (a a' t t' : string) :
  no_underscore t = true -> no_underscore t' = true ->
  (a ++ String "_" t = a' ++ String "_" t')%string ->
  a = a' /\ t = t'.
Proof.
  intros Ht Ht'. revert a'.
  induction a as [| c a IH]; intros [| c' a']; simpl; intros E.
  - injection E as ->. auto.
  - injection E as <- ->. rewrite no_underscore_app in Ht. discriminate.
  - injection E as -> <-. rewrite no_underscore_app in Ht'. discriminate.
  - injection E as -> E. destruct (IH _ E) as [-> ->]. auto.
Qed.

Lemma no_underscore_uint (d : Decimal.uint) :
  no_underscore (NilEmpty.string_of_uint d) = true.
Proof. induction d; simpl; auto. Qed.

Lemma no_underscore_str (n : Z) : no_underscore (str n) = true.
Proof.
  unfold str.
  destruct (Z.to_int n) as [d | d]; simpl;
    destruct d; simpl; auto using no_underscore_uint.
Qed.

Lemma str_inj (n n' : Z) : str n = str n' -> n = n'.
Proof.
  unfold str. intros E. apply DecimalZ.to_int_inj.
  assert (H : forall m, Z.to_int m <> Decimal.Pos Decimal.Nil
                        /\ Z.to_int m <> Decimal.Neg Decimal.Nil).
  { intros [| p | p]; simpl; split; try discriminate;
      intros H; injection H as H;
      exact (DecimalPos.Unsigned.to_uint_nonnil _ H). }
  pose proof (NilZero.isi (Z.to_int n) (proj1 (H n)) (proj2 (H n))) as E1.
  pose proof (NilZero.isi (Z.to_int n') (proj1 (H n')) (proj2 (H n'))) as E2.
  rewrite E in E1. congruence.
Qed.

Lemma which_line_inj (ws ws' : string) (k k' : Z) :
  score_data_processing.which_line ws k
  = score_data_processing.which_line ws' k' ->
  ws = ws' /\ k = k'.
Proof.
  unfold score_data_processing.which_line. intros E.
  change ("_line_" ++ str k)%string
    with ("_line" ++ String "_" (str k))%string in E.
  change ("_line_" ++ str k')%string
    with ("_line" ++ String "_" (str k'))%string in E.
  rewrite <- !append_assoc in E.
  apply split_at_last_underscore in E; try apply no_underscore_str.
  destruct E as [E1 E2]. split; [| exact (str_inj _ _ E2)].
  change (ws ++ "_line")%string with (ws ++ String "_" "line")%string in E1.
  change (ws' ++ "_line")%string with (ws' ++ String "_" "line")%string in E1.
  apply split_at_last_underscore in E1; try reflexivity.
  tauto.
Qed.

Lemma which_sana_inj (i i' j j' : Z) :
  score_data_processing.which_sana i j
  = score_data_processing.which_sana i' j' ->
  i = i' /\ j = j'.
Proof.
  unfold score_data_processing.which_sana. intros E.
  apply append_cancel_l in E.
  change ("_sana_" ++ str j)%string
    with ("_sana" ++ String "_" (str j))%string in E.
  change ("_sana_" ++ str j')%string
    with ("_sana" ++ String "_" (str j'))%string in E.
  rewrite <- !append_assoc in E.
  apply split_at_last_underscore in E; try apply no_underscore_str.
  destruct E as [E1 E2]. split; [| exact (str_inj _ _ E2)].
  change (str i ++ "_sana")%string
    with (str i ++ String "_" "sana")%string in E1.
  change (str i' ++ "_sana")%string
    with (str i' ++ String "_" "sana")%string in E1.
  apply split_at_last_underscore in E1; try reflexivity.
  exact (str_inj _ _ (proj1 E1)).
Qed.

(** *** Assignments in a row *)

Lemma dict_set_fresh {V : Type} (d : dict V) (k : string) (v : V) :
  ~ In k (keys d) -> dict_set d k v = d ++ [(k, v)].
Proof.
  induction d as [| [k0 v0] d IH]; simpl; intros H; auto.
  destruct (String.eqb_spec k0 k) as [-> | Hne].
  - destruct H. left. reflexivity.
  - rewrite IH; auto.
Qed.

Lemma set_all_fresh {V : Type} (l d : dict V) :
  NoDup (keys d ++ keys l) -> set_all d l = d ++ l.
Proof.
  unfold set_all. revert d.
  induction l as [| [k v] l IH]; intros d H; simpl.
  - symmetry. apply app_nil_r.
  - simpl in H. pose proof (NoDup_remove_2 _ _ _ H) as Hk.
    rewrite dict_set_fresh.
    + rewrite IH.
      * rewrite <- app_assoc. reflexivity.
      * unfold keys in *. rewrite map_app, <- app_assoc. exact H.
    + intros Hin. apply Hk. apply in_or_app. left. exact Hin.
Qed.

Lemma set_all_nil {V : Type} (l : dict V) :
  NoDup (keys l) -> set_all [] l = l.
Proof. intros H. rewrite set_all_fresh; auto. Qed.

Lemma set_all_value {V : Type} (l d : dict V) (k : string) (v : V) :
  dict_get (set_all d l) k = Some v ->
  dict_get d k = Some v \/ In (k, v) l.
Proof.
  unfold set_all. revert d.
  induction l as [| [k0 v0] l IH]; intros d H; simpl in *; auto.
  destruct (IH _ H) as [H1 | H1]; [| auto].
  rewrite dict_get_set in H1.
  destruct (String.eqb_spec k0 k) as [-> | Hne]; auto.
  injection H1 as ->. auto.
Qed.

Lemma enumerate_from {B : Type} (l : list B) (s i : Z) (x : B) :
  In (i, x) (enumerate l s) -> s <= i.
Proof.
  revert s. induction l as [| y l IH]; simpl; intros s H; [destruct H |].
  destruct H as [H | H].
  - injection H as <- _. lia.
  - apply IH in H. lia.
Qed.

Lemma enumerate_length {B : Type} (l : list B) (s : Z) :
  len (enumerate l s) = len l.
Proof.
  unfold len. f_equal. revert s.
  induction l as [| y l IH]; simpl; intros s; auto.
Qed.

Lemma keys_app {V : Type} (a b : dict V) : keys (a ++ b) = keys a ++ keys b.
Proof. apply map_app. Qed.

Lemma len_app {B : Type} (a b : list B) : len (a ++ b) = len a + len b.
Proof. unfold len. rewrite length_app. lia. Qed.

(** *** The entries have distinct labels *)

Section EntryLabels.
Import score_data_processing.

Context {A : Type}.
Variables (patterns : list (list string))
          (pattern_counter : Stream -> list string -> A).

Lemma line_entries_keys (ws : string) (lines : list line) (s : Z) :
  NoDup (keys (line_entries patterns pattern_counter ws lines s))
  /\ forall k,
       In k (keys (line_entries patterns pattern_counter ws lines s)) ->
       exists n, s <= n /\ k = which_line ws n.
Proof.
  unfold line_entries. revert s.
  induction lines as [| x lines IH]; intros s; simpl.
  - split; [constructor | intros k []].
  - destruct (IH (s + 1)) as [H1 H2]. split.
    + constructor; [| exact H1]. intros Hin.
      destruct (H2 _ Hin) as [n [Hn E]].
      apply which_line_inj in E. lia.
    + intros k [<- | Hin].
      * exists s. split; [lia | reflexivity].
      * destruct (H2 _ Hin) as [n [Hn E]]. exists n. split; [lia | exact E].
Qed.

Lemma sana_entries_of_keys (i : Z) (sanai : list sana) (s : Z) :
  NoDup (keys (sana_entries_of patterns pattern_counter i sanai s))
  /\ forall k,
       In k (keys (sana_entries_of patterns pattern_counter i sanai s)) ->
       exists j, s <= j /\ k = which_sana i j.
Proof.
  unfold sana_entries_of. revert s.
  induction sanai as [| x sanai IH]; intros s; simpl.
  - split; [constructor | intros k []].
  - destruct (IH (s + 1)) as [H1 H2]. split.
    + constructor; [| exact H1]. intros Hin.
      destruct (H2 _ Hin) as [j [Hj E]].
      apply which_sana_inj in E. lia.
    + intros k [<- | Hin].
      * exists s. split; [lia | reflexivity].
      * destruct (H2 _ Hin) as [j [Hj E]]. exists j. split; [lia | exact E].
Qed.

Lemma line_entries_of_keys (i : Z) (sanai : list sana) (s : Z) :
  NoDup (keys (line_entries_of patterns pattern_counter i sanai s))
  /\ forall k,
       In k (keys (line_entries_of patterns pattern_counter i sanai s)) ->
       exists j n, s <= j /\ k = which_line (which_sana i j) n.
Proof.
  unfold line_entries_of. revert s.
  induction sanai as [| x sanai IH]; intros s; simpl.
  - split; [constructor | intros k []].
  - destruct (IH (s + 1)) as [H1 H2].
    destruct (line_entries_keys (which_sana i s) (lines_of x) 1) as [L1 L2].
    rewrite keys_app. split.
    + apply NoDup_app; auto.
      intros k Hk Hin.
      destruct (L2 _ Hk) as [n [_ E]].
      destruct (H2 _ Hin) as [j [n' [Hj E']]].
      rewrite E in E'. apply which_line_inj in E'.
      destruct E' as [E' _]. apply which_sana_inj in E'. lia.
    + intros k Hin. apply in_app_or in Hin. destruct Hin as [Hin | Hin].
      * destruct (L2 _ Hin) as [n [_ E]]. exists s, n. split; [lia | exact E].
      * destruct (H2 _ Hin) as [j [n [Hj E]]]. exists j, n.
        split; [lia | exact E].
Qed.

Lemma sana_entries_keys (tree : list section) (s : Z) :
  NoDup (keys (sana_entries patterns pattern_counter tree s))
  /\ forall k,
       In k (keys (sana_entries patterns pattern_counter tree s)) ->
       exists i j, s <= i /\ k = which_sana i j.
Proof.
  unfold sana_entries. revert s.
  induction tree as [| x tree IH]; intros s; simpl.
  - split; [constructor | intros k []].
  - destruct (IH (s + 1)) as [H1 H2].
    destruct (sana_entries_of_keys s (sanai_of x) 1) as [L1 L2].
    rewrite keys_app. split.
    + apply NoDup_app; auto.
      intros k Hk Hin.
      destruct (L2 _ Hk) as [j [_ E]].
      destruct (H2 _ Hin) as [i [j' [Hi E']]].
      rewrite E in E'. apply which_sana_inj in E'. lia.
    + intros k Hin. apply in_app_or in Hin. destruct Hin as [Hin | Hin].
      * destruct (L2 _ Hin) as [j [_ E]]. exists s, j. split; [lia | exact E].
      * destruct (H2 _ Hin) as [i [j [Hi E]]]. exists i, j.
        split; [lia | exact E].
Qed.

Lemma line_entries_in_keys (tree : list section) (s : Z) :
  NoDup (keys (line_entries_in patterns pattern_counter tree s))
  /\ forall k,
       In k (keys (line_entries_in patterns pattern_counter tree s)) ->
       exists i j n, s <= i /\ k = which_line (which_sana i j) n.
Proof.
  unfold line_entries_in. revert s.
  induction tree as [| x tree IH]; intros s; simpl.
  - split; [constructor | intros k []].
  - destruct (IH (s + 1)) as [H1 H2].
    destruct (line_entries_of_keys s (sanai_of x) 1) as [L1 L2].
    rewrite keys_app. split.
    + apply NoDup_app; auto.
      intros k Hk Hin.
      destruct (L2 _ Hk) as [j [n [_ E]]].
      destruct (H2 _ Hin) as [i [j' [n' [Hi E']]]].
      rewrite E in E'. apply which_line_inj in E'.
      destruct E' as [E' _]. apply which_sana_inj in E'. lia.
    + intros k Hin. apply in_app_or in Hin. destruct Hin as [Hin | Hin].
      * destruct (L2 _ Hin) as [j [n [_ E]]]. exists s, j, n.
        split; [lia | exact E].
      * destruct (H2 _ Hin) as [i [j [n [Hi E]]]]. exists i, j, n.
        split; [lia | exact E].
Qed.

Lemma sana_entries_length (tree : list section) (s : Z) :
  len (sana_entries patterns pattern_counter tree s) = count_sanai_of tree.
Proof.
  unfold sana_entries. revert s.
  induction tree as [| x tree IH]; intros s; simpl; auto.
  rewrite len_app, IH. f_equal.
  unfold sana_entries_of, len. rewrite length_map.
  apply (enumerate_length (sanai_of x) 1).
Qed.

Lemma line_entries_of_length (i : Z) (sanai : list sana) (s : Z) :
  len (line_entries_of patterns pattern_counter i sanai s)
  = fold_right (fun y acc => len (lines_of y) + acc) 0 sanai.
Proof.
  unfold line_entries_of. revert s.
  induction sanai as [| x sanai IH]; intros s; simpl; auto.
  rewrite len_app, IH. f_equal.
  unfold line_entries, len. rewrite length_map.
  apply (enumerate_length (lines_of x) 1).
Qed.

Lemma line_entries_in_length (tree : list section) (s : Z) :
  len (line_entries_in patterns pattern_counter tree s)
  = count_lines_of tree.
Proof.
  unfold line_entries_in. revert s.
  induction tree as [| x tree IH]; intros s; simpl; auto.
  rewrite len_app, IH, line_entries_of_length. reflexivity.
Qed.

End EntryLabels.

(** *** The loops *)

Section WrapperLoops.
Import score_data_processing.

Context {A : Type}.
Variables (patterns : list (list string))
          (pattern_counter : Stream -> list string -> A).

Lemma count_lines_countable (ws : string) (lines : list line) (n : Z)
      (c : centos_counts) :
  forallb countable_line lines = true ->
  count_lines patterns pattern_counter ws lines n c
  = inr {| cc_sanai := cc_sanai c;
           cc_lines := set_all (cc_lines c)
                         (line_entries patterns pattern_counter ws lines
                                       (n + 1)) |}.
Proof.
  revert n c. induction lines as [| x lines IH]; intros n c H; simpl.
  - destruct c. reflexivity.
  - simpl in H. apply andb_true_iff in H. destruct H as [Hx Hl].
    unfold countable_line in Hx.
    destruct (l_score x) as [sc |] eqn:Es; [| discriminate].
    rewrite (IH _ _ Hl). unfold line_entries, set_all. simpl.
    reflexivity.
Qed.

Lemma count_lines_uncountable (ws : string) (lines : list line) (n : Z)
      (c : centos_counts) :
  forallb countable_line lines = false ->
  count_lines patterns pattern_counter ws lines n c
  = inl (KeyError "score").
Proof.
  revert n c. induction lines as [| x lines IH]; intros n c H; simpl.
  - discriminate.
  - simpl in H. unfold countable_line in H at 1.
    destruct (l_score x) as [sc |]; [| reflexivity].
    apply IH. exact H.
Qed.

Lemma count_sanai_countable (i : Z) (sanai : list sana) (n : Z)
      (c : centos_counts) :
  forallb countable_sana sanai = true ->
  count_sanai patterns pattern_counter i sanai n c
  = inr {| cc_sanai := set_all (cc_sanai c)
                         (sana_entries_of patterns pattern_counter i sanai
                                          (n + 1));
           cc_lines := set_all (cc_lines c)
                         (line_entries_of patterns pattern_counter i sanai
                                          (n + 1)) |}.
Proof.
  revert n c. induction sanai as [| x sanai IH]; intros n c H; simpl.
  - destruct c. reflexivity.
  - simpl in H. apply andb_true_iff in H. destruct H as [Hx Hl].
    unfold countable_sana in Hx.
    apply andb_true_iff in Hx. destruct Hx as [Hs Hlines].
    destruct (sa_score x) as [sc |] eqn:Es; [| discriminate].
    destruct (sa_lines x) as [lines |] eqn:El; [| discriminate].
    rewrite (count_lines_countable _ _ _ _ Hlines), (IH _ _ Hl).
    unfold sana_entries_of, line_entries_of, set_all, lines_of.
    simpl. rewrite ?Es, ?El, fold_left_app. reflexivity.
Qed.

Lemma count_sanai_uncountable (i : Z) (sanai : list sana) (n : Z)
      (c : centos_counts) :
  forallb countable_sana sanai = false ->
  exists e, count_sanai patterns pattern_counter i sanai n c = inl e
            /\ (e = KeyError "score" \/ e = KeyError "lines").
Proof.
  revert n c. induction sanai as [| x sanai IH]; intros n c H; simpl.
  - discriminate.
  - simpl in H. unfold countable_sana in H at 1.
    destruct (sa_score x) as [sc |]; [| eauto].
    destruct (sa_lines x) as [lines |]; [| eauto].
    simpl in H.
    destruct (forallb countable_line lines) eqn:Hl.
    + rewrite (count_lines_countable _ _ _ _ Hl). apply IH. exact H.
    + rewrite (count_lines_uncountable _ _ _ _ Hl). eauto.
Qed.

Lemma count_sections_countable (tree : list section) (n : Z)
      (c : centos_counts) :
  countable tree = true ->
  count_sections patterns pattern_counter tree n c
  = inr {| cc_sanai := set_all (cc_sanai c)
                         (sana_entries patterns pattern_counter tree
                                       (n + 1));
           cc_lines := set_all (cc_lines c)
                         (line_entries_in patterns pattern_counter tree
                                          (n + 1)) |}.
Proof.
  unfold countable.
  revert n c. induction tree as [| x tree IH]; intros n c H; simpl.
  - destruct c. reflexivity.
  - simpl in H. apply andb_true_iff in H. destruct H as [Hx Hl].
    unfold countable_section in Hx.
    unfold sana_entries, line_entries_in, sanai_of. simpl.
    destruct (s_sanai x) as [sanai |]; simpl in Hx.
    + rewrite (count_sanai_countable _ _ _ _ Hx), (IH _ _ Hl).
      unfold set_all. rewrite !fold_left_app. reflexivity.
    + rewrite (IH _ _ Hl). reflexivity.
Qed.

Lemma count_sections_uncountable (tree : list section) (n : Z)
      (c : centos_counts) :
  countable tree = false ->
  exists e, count_sections patterns pattern_counter tree n c = inl e
            /\ (e = KeyError "score" \/ e = KeyError "lines").
Proof.
  unfold countable.
  revert n c. induction tree as [| x tree IH]; intros n c H; simpl.
  - discriminate.
  - simpl in H. unfold countable_section in H at 1.
    destruct (s_sanai x) as [sanai |]; simpl in H; [| apply IH; exact H].
    destruct (forallb countable_sana sanai) eqn:Hs.
    + rewrite (count_sanai_countable _ _ _ _ Hs). apply IH. exact H.
    + destruct (count_sanai_uncountable (n + 1) sanai 0 c Hs)
        as [e [E He]].
      rewrite E. eauto.
Qed.

Lemma count_pieces_countable (scores : dict score_info)
      (all : dict centos_counts) :
  forallb (fun item => countable (annotations (snd item))) scores = true ->
  count_pieces patterns pattern_counter scores all
  = inr (set_all all
           (map (fun item =>
                   (fst item,
                    piece_entry patterns pattern_counter
                                (annotations (snd item))))
                scores)).
Proof.
  revert all. induction scores as [| [mbid info] scores IH];
    intros all H; simpl.
  - reflexivity.
  - simpl in H. apply andb_true_iff in H. destruct H as [Hx Hl].
    rewrite (count_sections_countable _ _ _ Hx). simpl.
    rewrite !set_all_nil.
    + rewrite (IH _ Hl). reflexivity.
    + apply line_entries_in_keys.
    + apply sana_entries_keys.
Qed.

Lemma count_pieces_uncountable (scores : dict score_info)
      (all : dict centos_counts) :
  forallb (fun item => countable (annotations (snd item))) scores = false ->
  exists e, count_pieces patterns pattern_counter scores all = inl e
            /\ (e = KeyError "score" \/ e = KeyError "lines").
Proof.
  revert all. induction scores as [| [mbid info] scores IH];
    intros all H; simpl.
  - discriminate.
  - simpl in H.
    destruct (countable (annotations info)) eqn:Hx; simpl in H.
    + rewrite (count_sections_countable _ _ _ Hx). apply IH. exact H.
    + destruct (count_sections_uncountable (annotations info) 0
                  {| cc_sanai := []; cc_lines := [] |} Hx) as [e [E He]].
      rewrite E. eauto.
Qed.

(** On trees the extraction has gone through, the lines have their
    slices, so the only key that can be missing is ['lines']. *)
Lemma done_lines_countable (lines : list line) :
  forallb line_done lines = true -> forallb countable_line lines = true.
Proof.
  induction lines as [| x lines IH]; simpl; intros H; auto.
  apply andb_true_iff in H. destruct H as [Hx Hl].
  unfold line_done in Hx. apply andb_true_iff in Hx.
  unfold countable_line. rewrite (proj1 Hx). simpl. auto.
Qed.

Lemma done_sanai_countable (sanai : list sana) :
  forallb sana_done sanai = true ->
  forallb countable_sana sanai = forallb sana_has_lines sanai.
Proof.
  induction sanai as [| x sanai IH]; simpl; intros H; auto.
  apply andb_true_iff in H. destruct H as [Hx Hl].
  rewrite (IH Hl). f_equal.
  unfold sana_done in Hx. apply andb_true_iff in Hx. destruct Hx as [Hs Hc].
  unfold countable_sana, sana_has_lines. rewrite Hs. simpl.
  destruct (sa_lines x) as [lines |]; simpl in *; auto.
  apply done_lines_countable. exact Hc.
Qed.

Lemma done_countable (tree : list section) :
  forallb section_done tree = true -> countable tree = has_lines tree.
Proof.
  unfold countable, has_lines.
  induction tree as [| x tree IH]; simpl; intros H; auto.
  apply andb_true_iff in H. destruct H as [Hx Hl].
  rewrite (IH Hl). f_equal.
  unfold section_done in Hx. apply andb_true_iff in Hx. destruct Hx as [_ Hc].
  unfold countable_section.
  destruct (s_sanai x) as [sanai |]; simpl in *; auto.
  apply done_sanai_countable. exact Hc.
Qed.

Lemma count_sanai_done (i : Z) (sanai : list sana) (n : Z)
      (c : centos_counts) :
  forallb sana_done sanai = true ->
  forallb sana_has_lines sanai = false ->
  count_sanai patterns pattern_counter i sanai n c = inl (KeyError "lines").
Proof.
  revert n c. induction sanai as [| x sanai IH]; intros n c Hd H; simpl.
  - discriminate.
  - simpl in Hd, H. apply andb_true_iff in Hd. destruct Hd as [Hx Hl].
    unfold sana_done in Hx. apply andb_true_iff in Hx.
    destruct Hx as [Hs Hc].
    destruct (sa_score x) as [sc |]; [| discriminate].
    unfold sana_has_lines in H at 1.
    destruct (sa_lines x) as [lines |]; [| reflexivity].
    simpl in Hc, H.
    rewrite (count_lines_countable _ _ _ _ (done_lines_countable _ Hc)).
    apply IH; assumption.
Qed.

Lemma count_sections_done (tree : list section) (n : Z)
      (c : centos_counts) :
  forallb section_done tree = true ->
  has_lines tree = false ->
  count_sections patterns pattern_counter tree n c
  = inl (KeyError "lines").
Proof.
  unfold has_lines.
  revert n c. induction tree as [| x tree IH]; intros n c Hd H; simpl.
  - discriminate.
  - simpl in Hd, H. apply andb_true_iff in Hd. destruct Hd as [Hx Hl].
    unfold section_done in Hx. apply andb_true_iff in Hx.
    destruct Hx as [_ Hc].
    destruct (s_sanai x) as [sanai |]; simpl in Hc, H;
      [| apply IH; assumption].
    destruct (forallb sana_has_lines sanai) eqn:Hs; simpl in H.
    + rewrite count_sanai_countable
        by (rewrite done_sanai_countable; assumption).
      apply IH; assumption.
    + rewrite (count_sanai_done _ _ _ _ Hc Hs). reflexivity.
Qed.

Lemma count_pieces_done (scores : dict score_info)
      (all : dict centos_counts) :
  Forall (fun kv => processed (snd kv) = true) scores ->
  forallb (fun item => has_lines (annotations (snd item))) scores = false ->
  count_pieces patterns pattern_counter scores all = inl (KeyError "lines").
Proof.
  intros Hd. revert all.
  induction Hd as [| [mbid info] scores Hx _ IH]; intros all H; simpl.
  - discriminate.
  - simpl in H, Hx. unfold processed in Hx.
    destruct (has_lines (annotations info)) eqn:Hl; simpl in H.
    + rewrite count_sections_countable
        by (rewrite done_countable; assumption).
      apply IH. exact H.
    + rewrite (count_sections_done _ _ _ Hx Hl). reflexivity.
Qed.

End WrapperLoops.

Lemma has_lines_attach (sc : Stream) (tree : list section) :
  has_lines (map (attach_section sc) tree) = has_lines tree.
Proof.
  unfold has_lines. induction tree as [| x tree IH]; simpl; auto.
  rewrite IH. f_equal.
  unfold attach_section.
  destruct (s_start x), (s_end x); auto. simpl.
  destruct (s_sanai x) as [sanai |]; simpl; auto.
  induction sanai as [| y sanai IHs]; simpl; auto.
  rewrite IHs. f_equal.
  unfold attach_sana, sana_has_lines.
  destruct (sa_start y), (sa_end y); auto. simpl.
  destruct (sa_lines y); reflexivity.
Qed.

Lemma add_streams_attach (scores_data : dict score_info) :
  forallb extractable scores_data = true ->
  add_streams_to_score_data scores_data
  = (map attach_piece scores_data, None).
Proof.
  induction scores_data as [| [mbid info] rest IH]; simpl; intros H; auto.
  apply andb_true_iff in H. destruct H as [Hx Hrest].
  unfold extractable in Hx. simpl in Hx.
  unfold attach_piece at 1. simpl.
  destruct (parts (score info)) as [| part0 ps]; [discriminate |].
  rewrite (extract_sections_attach _ _ Hx), (IH Hrest). reflexivity.
Qed.

(** X16.  On a corpus in which every sana has its slice and its
    ['lines'] and every line its slice, [count_all_patterns_wrapper] returns
    one entry per piece, in the order of the corpus: under ['sanai'] one
    table per sana, labelled [section_i_sana_j], and under ['lines'] one
    table per line, labelled [section_i_sana_j_line_k], each the counts of
    every pattern in the slice of that node, in the order of the tree.  The
    sections are numbered from 1 whether or not they have sanai. *)
Theorem wrapper_on_countable {A : Type} (patterns : list (list string))
        (pattern_counter : Stream -> list string -> A)
        (scores : dict score_info) :
  forallb (fun item => countable (annotations (snd item))) scores = true ->
  NoDup (keys scores) ->
  score_data_processing.count_all_patterns_wrapper
    patterns pattern_counter scores
  = inr (map (fun item =>
                (fst item,
                 piece_entry patterns pattern_counter
                             (annotations (snd item))))
             scores).
Proof.
  intros H Hk. unfold score_data_processing.count_all_patterns_wrapper.
  rewrite (count_pieces_countable _ _ _ _ H), set_all_nil; auto.
  unfold keys. rewrite map_map. exact Hk.
Qed.

Lemma wrapper_on_countable_witness :
  forallb (fun item => countable (annotations (snd item)))
          (map attach_piece [("p", Samples.piece_with_lines)]) = true
  /\ NoDup (keys (map attach_piece [("p", Samples.piece_with_lines)]))
  /\ score_data_processing.count_all_patterns_wrapper
       [["C"; "D"]] score_data_processing.count_pattern_in_score
       (map attach_piece [("p", Samples.piece_with_lines)])
     = inr (map (fun item =>
                   (fst item,
                    piece_entry
                      [["C"; "D"]]
                      score_data_processing.count_pattern_in_score
                      (annotations (snd item))))
                (map attach_piece [("p", Samples.piece_with_lines)])).
Proof.
  assert (Hk : NoDup (keys (map attach_piece
                                [("p", Samples.piece_with_lines)]))).
  { repeat constructor. intros []. }
  split; [reflexivity |]. split; [exact Hk |].
  apply (wrapper_on_countable
           [["C"; "D"]] score_data_processing.count_pattern_in_score
           (map attach_piece [("p", Samples.piece_with_lines)]));
    [reflexivity | exact Hk].
Defined.

(** X17.  Whatever [count_all_patterns_wrapper] returns for a piece is
    the entry of a piece of the corpus with that key, and in it no label is
    used twice: there are as many tables under ['sanai'] as the tree has
    sanai and as many under ['lines'] as it has lines. *)
Theorem wrapper_one_table_per_node {A : Type}
        (patterns : list (list string))
        (pattern_counter : Stream -> list string -> A)
        (scores : dict score_info) (r : dict _) (mbid : string)
        (c : score_data_processing.centos_counts) :
  score_data_processing.count_all_patterns_wrapper
    patterns pattern_counter scores = inr r ->
  dict_get r mbid = Some c ->
  exists info,
    In (mbid, info) scores
    /\ c = piece_entry patterns pattern_counter (annotations info)
    /\ NoDup (keys (score_data_processing.cc_sanai c))
    /\ NoDup (keys (score_data_processing.cc_lines c))
    /\ len (score_data_processing.cc_sanai c)
       = count_sanai_of (annotations info)
    /\ len (score_data_processing.cc_lines c)
       = count_lines_of (annotations info).
Proof.
  unfold score_data_processing.count_all_patterns_wrapper. intros E Hg.
  destruct (forallb (fun item => countable (annotations (snd item))) scores)
    eqn:Hc.
  - rewrite (count_pieces_countable _ _ _ _ Hc) in E. injection E as <-.
    apply set_all_value in Hg. destruct Hg as [Hg | Hg]; [discriminate |].
    apply in_map_iff in Hg. destruct Hg as [[k info] [Ei Hin]].
    simpl in Ei. injection Ei as -> <-.
    exists info. split; [exact Hin |]. split; [reflexivity |].
    unfold piece_entry. simpl.
    split; [apply sana_entries_keys |].
    split; [apply line_entries_in_keys |].
    split; [apply sana_entries_length | apply line_entries_in_length].
  - destruct (count_pieces_uncountable patterns pattern_counter scores []
                                       Hc) as [e [E' _]].
    rewrite E' in E. discriminate.
Qed.

Lemma wrapper_one_table_per_node_witness :
  exists r c,
    score_data_processing.count_all_patterns_wrapper
      [["C"; "D"]] score_data_processing.count_pattern_in_score
      (map attach_piece [("p", Samples.piece_with_lines)]) = inr r
    /\ dict_get r "p" = Some c
    /\ keys (score_data_processing.cc_sanai c) = ["section_2_sana_1"]
    /\ keys (score_data_processing.cc_lines c)
       = ["section_2_sana_1_line_1"; "section_2_sana_1_line_2"]
    /\ exists info,
         In ("p", info) (map attach_piece [("p", Samples.piece_with_lines)])
         /\ c = piece_entry [["C"; "D"]]
                            score_data_processing.count_pattern_in_score
                            (annotations info)
         /\ NoDup (keys (score_data_processing.cc_sanai c))
         /\ NoDup (keys (score_data_processing.cc_lines c))
         /\ len (score_data_processing.cc_sanai c)
            = count_sanai_of (annotations info)
         /\ len (score_data_processing.cc_lines c)
            = count_lines_of (annotations info).
Proof.
  eexists. eexists.
  split; [reflexivity |]. split; [reflexivity |].
  split; [reflexivity |]. split; [reflexivity |].
  eapply (wrapper_one_table_per_node
            [["C"; "D"]] score_data_processing.count_pattern_in_score
            (map attach_piece [("p", Samples.piece_with_lines)]));
    reflexivity.
Defined.

(** X18.  [count_all_patterns_wrapper] returns exactly on the corpora in
    which every sana has ['score'] and ['lines'] and every line has
    ['score']; on any other corpus it raises a [KeyError] for ['score'] or
    for ['lines'], whatever the counter and the patterns. *)
Theorem wrapper_returns_iff {A : Type} (patterns : list (list string))
        (pattern_counter : Stream -> list string -> A)
        (scores : dict score_info) :
  ((exists r,
       score_data_processing.count_all_patterns_wrapper
         patterns pattern_counter scores = inr r)
   <-> forallb (fun item => countable (annotations (snd item))) scores
       = true)
  /\ (forall e,
         score_data_processing.count_all_patterns_wrapper
           patterns pattern_counter scores = inl e ->
         e = KeyError "score" \/ e = KeyError "lines").
Proof.
  unfold score_data_processing.count_all_patterns_wrapper.
  destruct (forallb (fun item => countable (annotations (snd item))) scores)
    eqn:Hc.
  - rewrite (count_pieces_countable _ _ _ _ Hc). split.
    + split; eauto.
    + intros e E. discriminate.
  - destruct (count_pieces_uncountable patterns pattern_counter scores []
                                       Hc) as [e [E He]].
    rewrite E. split.
    + split; [intros [r Er]; discriminate | discriminate].
    + intros e' E'. injection E' as <-. exact He.
Qed.

(** X19.  After [add_streams_to_score_data] has gone through a corpus,
    the counting goes through it too if every sana of every tree has the key
    ['lines'], and raises [KeyError] for ['lines'] otherwise: the extraction
    takes a sana without ['lines'], the counting does not. *)
Theorem wrapper_after_extraction {A : Type} (patterns : list (list string))
        (pattern_counter : Stream -> list string -> A)
        (scores_data : dict score_info) :
  forallb extractable scores_data = true ->
  NoDup (keys scores_data) ->
  let done := fst (add_streams_to_score_data scores_data) in
  score_data_processing.count_all_patterns_wrapper
    patterns pattern_counter done
  = if forallb (fun item => has_lines (annotations (snd item))) scores_data
    then inr (map (fun item =>
                     (fst item,
                      piece_entry patterns pattern_counter
                                  (annotations (snd item))))
                  done)
    else inl (KeyError "lines").
Proof.
  intros H Hk done. subst done.
  pose proof (add_streams_attach _ H) as E.
  pose proof (add_streams_processed _ _ E) as Hd.
  rewrite E. cbn [fst].
  assert (Hl : forallb (fun item => has_lines (annotations (snd item)))
                       (map attach_piece scores_data)
               = forallb (fun item => has_lines (annotations (snd item)))
                         scores_data).
  { clear. induction scores_data as [| [k info] l IH]; simpl; auto.
    rewrite IH, has_lines_attach. reflexivity. }
  assert (Hc : forallb (fun item => countable (annotations (snd item)))
                       (map attach_piece scores_data)
               = forallb (fun item => has_lines (annotations (snd item)))
                         (map attach_piece scores_data)).
  { clear - Hd. induction Hd as [| [k info] l Hx _ IH]; simpl; auto.
    rewrite IH. f_equal. apply done_countable. exact Hx. }
  unfold score_data_processing.count_all_patterns_wrapper.
  destruct (forallb (fun item => has_lines (annotations (snd item)))
                    scores_data) eqn:Hs.
  - rewrite count_pieces_countable by (rewrite Hc, Hl; reflexivity).
    rewrite set_all_nil; auto.
    unfold keys. rewrite !map_map. exact Hk.
  - apply count_pieces_done; [exact Hd | rewrite Hl; reflexivity].
Qed.

Lemma wrapper_after_extraction_witness :
  forallb extractable [("q", Samples.piece_without_lines)] = true
  /\ NoDup (keys [("q", Samples.piece_without_lines)])
  /\ score_data_processing.count_all_patterns_wrapper
       [["C"; "D"]] score_data_processing.count_pattern_in_score
       (fst (add_streams_to_score_data
               [("q", Samples.piece_without_lines)]))
     = inl (KeyError "lines").
Proof.
  assert (Hk : NoDup (keys [("q", Samples.piece_without_lines)])).
  { repeat constructor. intros []. }
  split; [reflexivity |]. split; [exact Hk |].
  apply (wrapper_after_extraction
           [["C"; "D"]] score_data_processing.count_pattern_in_score
           [("q", Samples.piece_without_lines)]);
    [reflexivity | exact Hk].
Defined.

(** X20.  The labels tell the nodes apart: two sana labels are equal only
    for the same section and sana numbers, and two line labels only for the
    same section, sana and line numbers. *)
Theorem labels_tell_nodes_apart (i j k i' j' k' : Z) :
  (score_data_processing.which_sana i j
   = score_data_processing.which_sana i' j'
   <-> i = i' /\ j = j')
  /\ (score_data_processing.which_line
        (score_data_processing.which_sana i j) k
      = score_data_processing.which_line
          (score_data_processing.which_sana i' j') k'
      <-> i = i' /\ j = j' /\ k = k').
Proof.
  split; split.
  - apply which_sana_inj.
  - intros [-> ->]. reflexivity.
  - intros E. apply which_line_inj in E. destruct E as [E ->].
    apply which_sana_inj in E. tauto.
  - intros [-> [-> ->]]. reflexivity.
Qed.

(* ----------------------------------------------------------------- *)
(** ** [process_annotations]: the three lists *)

Lemma lines_scores_countable (lines : list line) :
  forallb countable_line lines = true ->
  exists l, lines_scores lines = inr l /\ map Some l = map l_score lines.
Proof.
  induction lines as [| x lines IH]; simpl; intros H.
  - exists []. auto.
  - apply andb_true_iff in H. destruct H as [Hx Hl].
    unfold countable_line in Hx.
    destruct (l_score x) as [sc |]; [| discriminate].
    destruct (IH Hl) as [l [E Hm]]. rewrite E.
    exists (sc :: l). simpl. rewrite Hm. auto.
Qed.

Lemma lines_scores_uncountable (lines : list line) :
  forallb countable_line lines = false ->
  lines_scores lines = inl (KeyError "score").
Proof.
  induction lines as [| x lines IH]; simpl; intros H; [discriminate |].
  unfold countable_line in H at 1.
  destruct (l_score x) as [sc |]; [| reflexivity].
  rewrite (IH H). reflexivity.
Qed.

Lemma sanai_scores_countable (sanai : list sana) :
  forallb countable_sana sanai = true ->
  exists s ls,
    sanai_scores sanai = inr (s, ls)
    /\ map Some s = map sa_score sanai
    /\ map (map Some) ls = map (fun x => map l_score (lines_of x)) sanai.
Proof.
  induction sanai as [| x sanai IH]; simpl; intros H.
  - exists [], []. auto.
  - apply andb_true_iff in H. destruct H as [Hx Hl].
    unfold countable_sana in Hx. apply andb_true_iff in Hx.
    destruct Hx as [Hs Hlines]. unfold lines_of at 1.
    destruct (sa_score x) as [sc |]; [| discriminate].
    destruct (sa_lines x) as [lines |]; [| discriminate].
    destruct (lines_scores_countable _ Hlines) as [l [E Hm]].
    destruct (IH Hl) as [s [ls [E' [H1 H2]]]]. rewrite E, E'.
    exists (sc :: s), (l :: ls). simpl. rewrite H1, H2, Hm. auto.
Qed.

Lemma sanai_scores_uncountable (sanai : list sana) :
  forallb countable_sana sanai = false ->
  exists e, sanai_scores sanai = inl e
            /\ (e = KeyError "score" \/ e = KeyError "lines").
Proof.
  induction sanai as [| x sanai IH]; simpl; intros H; [discriminate |].
  unfold countable_sana in H at 1.
  destruct (sa_score x) as [sc |]; [| eauto].
  destruct (sa_lines x) as [lines |]; [| eauto].
  simpl in H. destruct (forallb countable_line lines) eqn:Hl.
  - destruct (lines_scores_countable _ Hl) as [l [E _]]. rewrite E.
    destruct (IH H) as [e [E' He]]. rewrite E'. eauto.
  - rewrite (lines_scores_uncountable _ Hl). eauto.
Qed.

Lemma sections_scores_countable (tree : list section) :
  countable tree = true ->
  exists s ls,
    sections_scores tree = inr (flat_map sanai_of tree, s, ls)
    /\ map Some s = map sa_score (flat_map sanai_of tree)
    /\ map (map Some) ls
       = map (fun x => map l_score (lines_of x)) (flat_map sanai_of tree).
Proof.
  unfold countable.
  induction tree as [| x tree IH]; simpl; intros H.
  - exists [], []. auto.
  - apply andb_true_iff in H. destruct H as [Hx Hl].
    destruct (IH Hl) as [s [ls [E [H1 H2]]]].
    unfold countable_section in Hx. unfold sanai_of at 1 3 5.
    destruct (s_sanai x) as [sanai |]; simpl in Hx.
    + destruct (sanai_scores_countable _ Hx) as [s0 [ls0 [E0 [H3 H4]]]].
      rewrite E0, E. exists (s0 ++ s), (ls0 ++ ls).
      rewrite !map_app, H1, H2, H3, H4. auto.
    + rewrite E. exists s, ls. auto.
Qed.

Lemma sections_scores_uncountable (tree : list section) :
  countable tree = false ->
  exists e, sections_scores tree = inl e
            /\ (e = KeyError "score" \/ e = KeyError "lines").
Proof.
  unfold countable.
  induction tree as [| x tree IH]; simpl; intros H; [discriminate |].
  unfold countable_section in H at 1.
  destruct (s_sanai x) as [sanai |]; simpl in H; [| auto].
  destruct (forallb countable_sana sanai) eqn:Hs.
  - destruct (sanai_scores_countable _ Hs) as [s0 [ls0 [E0 _]]].
    rewrite E0. destruct (IH H) as [e [E He]]. rewrite E. eauto.
  - destruct (sanai_scores_uncountable _ Hs) as [e [E He]].
    rewrite E. eauto.
Qed.

Lemma process_annotations_countable (scores_data : dict score_info) :
  forallb (fun item => countable (annotations (snd item))) scores_data
  = true ->
  exists s ls,
    process_annotations scores_data = inr (all_sanai_of scores_data, s, ls)
    /\ map Some s = map sa_score (all_sanai_of scores_data)
    /\ map (map Some) ls
       = map (fun x => map l_score (lines_of x))
             (all_sanai_of scores_data).
Proof.
  unfold all_sanai_of.
  induction scores_data as [| [mbid info] rest IH]; simpl; intros H.
  - exists [], []. auto.
  - apply andb_true_iff in H. destruct H as [Hx Hl].
    destruct (IH Hl) as [s [ls [E [H1 H2]]]].
    destruct (sections_scores_countable _ Hx) as [s0 [ls0 [E0 [H3 H4]]]].
    rewrite E0, E. exists (s0 ++ s), (ls0 ++ ls).
    rewrite !map_app, H1, H2, H3, H4. auto.
Qed.

Lemma process_annotations_uncountable (scores_data : dict score_info) :
  forallb (fun item => countable (annotations (snd item))) scores_data
  = false ->
  exists e, process_annotations scores_data = inl e
            /\ (e = KeyError "score" \/ e = KeyError "lines").
Proof.
  induction scores_data as [| [mbid info] rest IH]; simpl; intros H;
    [discriminate |].
  destruct (countable (annotations info)) eqn:Hx; simpl in H.
  - destruct (sections_scores_countable _ Hx) as [s0 [ls0 [E0 _]]].
    rewrite E0. destruct (IH H) as [e [E He]]. rewrite E. eauto.
  - destruct (sections_scores_uncountable _ Hx) as [e [E He]].
    rewrite E. eauto.
Qed.

(** X21.  When [process_annotations] returns, its first list holds every
    sana of the corpus in the order of the pieces and of their trees, the
    second the slice of each of them, and the third, for each of them, the
    slices of its lines in order; so the three lists have the same
    length. *)
Theorem process_annotations_lists (scores_data : dict score_info)
        (all_sanai : list sana) (all_sanai_scores : list Stream)
        (all_sanai_lines_scores : list (list Stream)) :
  process_annotations scores_data
  = inr (all_sanai, all_sanai_scores, all_sanai_lines_scores) ->
  all_sanai = all_sanai_of scores_data
  /\ map Some all_sanai_scores = map sa_score all_sanai
  /\ map (map Some) all_sanai_lines_scores
     = map (fun x => map l_score (lines_of x)) all_sanai
  /\ len all_sanai_scores = len all_sanai
  /\ len all_sanai_lines_scores = len all_sanai.
Proof.
  intros E.
  destruct (forallb (fun item => countable (annotations (snd item)))
                    scores_data) eqn:Hc.
  - destruct (process_annotations_countable _ Hc) as [s [ls [E' [H1 H2]]]].
    rewrite E' in E. injection E as <- <- <-.
    split; [reflexivity |]. split; [exact H1 |]. split; [exact H2 |].
    unfold len. split; f_equal.
    + rewrite <- (length_map Some s), H1. apply length_map.
    + rewrite <- (length_map (map Some) ls), H2. apply length_map.
  - destruct (process_annotations_uncountable _ Hc) as [e [E' _]].
    rewrite E' in E. discriminate.
Qed.

Lemma process_annotations_lists_witness :
  exists all_sanai all_sanai_scores all_sanai_lines_scores,
    process_annotations (map attach_piece [("p", Samples.piece_with_lines)])
    = inr (all_sanai, all_sanai_scores, all_sanai_lines_scores)
    /\ map note_names all_sanai_scores = [["C"; "D"]]
    /\ map (map note_names) all_sanai_lines_scores = [[["C"]; ["D"]]]
    /\ all_sanai
       = all_sanai_of (map attach_piece [("p", Samples.piece_with_lines)])
    /\ map Some all_sanai_scores = map sa_score all_sanai
    /\ map (map Some) all_sanai_lines_scores
       = map (fun x => map l_score (lines_of x)) all_sanai
    /\ len all_sanai_scores = len all_sanai
    /\ len all_sanai_lines_scores = len all_sanai.
Proof.
  eexists. eexists. eexists.
  split; [reflexivity |]. split; [reflexivity |]. split; [reflexivity |].
  apply (process_annotations_lists
           (map attach_piece [("p", Samples.piece_with_lines)])).
  reflexivity.
Defined.

(** X22.  [process_annotations] returns on the same corpora as
    [count_all_patterns_wrapper]: those in which every sana has ['score']
    and ['lines'] and every line has ['score'].  On any other corpus it
    raises a [KeyError] for ['score'] or for ['lines']. *)
Theorem process_annotations_returns_iff {A : Type}
        (patterns : list (list string))
        (pattern_counter : Stream -> list string -> A)
        (scores_data : dict score_info) :
  ((exists r, process_annotations scores_data = inr r)
   <-> forallb (fun item => countable (annotations (snd item))) scores_data
       = true)
  /\ ((exists r, process_annotations scores_data = inr r)
      <-> exists r', score_data_processing.count_all_patterns_wrapper
                       patterns pattern_counter scores_data = inr r')
  /\ (forall e, process_annotations scores_data = inl e ->
                e = KeyError "score" \/ e = KeyError "lines").
Proof.
  unfold score_data_processing.count_all_patterns_wrapper.
  destruct (forallb (fun item => countable (annotations (snd item)))
                    scores_data) eqn:Hc.
  - destruct (process_annotations_countable _ Hc) as [s [ls [E _]]].
    rewrite E, (count_pieces_countable _ _ _ _ Hc).
    split; [split; eauto |]. split; [split; eauto |].
    intros e E'. discriminate.
  - destruct (process_annotations_uncountable _ Hc) as [e [E He]].
    destruct (count_pieces_uncountable patterns pattern_counter
                scores_data [] Hc) as [e' [E' _]].
    rewrite E, E'.
    split; [split; [intros [r Er]; discriminate | discriminate] |].
    split; [split; intros [r Er]; discriminate |].
    intros e0 E0. injection E0 as <-. exact He.
Qed.

(* ----------------------------------------------------------------- *)
(** ** [calculate_score_section_counts]: counts along the tree *)

Lemma int_of_str (n : Z) :
  NilZero.int_of_string (str n) = Some (Z.to_int n).
Proof.
  unfold str. apply NilZero.isi.
  - destruct n; simpl; try discriminate.
    intros H. injection H as H.
    exact (DecimalPos.Unsigned.to_uint_nonnil _ H).
  - destruct n; simpl; try discriminate.
    intros H. injection H as H.
    exact (DecimalPos.Unsigned.to_uint_nonnil _ H).
Qed.

Lemma str_not_count (n : Z) (prefix : string) :
  (prefix ++ str n)%string <> (prefix ++ "count")%string.
Proof.
  intros E. apply append_cancel_l in E.
  pose proof (int_of_str n) as H. rewrite E in H. discriminate.
Qed.

Lemma dict_set_set {V : Type} (d : dict V) (k : string) (x y : V) :
  dict_set (dict_set d k x) k y = dict_set d k y.
Proof.
  induction d as [| [k0 v0] d IH]; simpl.
  - rewrite String.eqb_refl. reflexivity.
  - destruct (String.eqb k0 k) eqn:E; simpl; rewrite E; [reflexivity |].
    rewrite IH. reflexivity.
Qed.

Lemma dict_set_same {V : Type} (d : dict V) (k : string) (v : V) :
  dict_get d k = Some v -> dict_set d k v = d.
Proof.
  induction d as [| [k0 v0] d IH]; simpl; [discriminate |].
  destruct (String.eqb k0 k); intros H.
  - injection H as ->. reflexivity.
  - rewrite (IH H). reflexivity.
Qed.

Lemma dict_get_set_same {V : Type} (d : dict V) (k : string) (v : V) :
  dict_get (dict_set d k v) k = Some v.
Proof. rewrite dict_get_set, String.eqb_refl. reflexivity. Qed.

(** *** Subscripts on counts of the expected shape *)

Section Paths.

Variables (cd ad sd ld : dict count_value) (a b c : string).
Hypothesis Ha : dict_get cd a = Some (CDict ad).
Hypothesis Hb : dict_get ad b = Some (CDict sd).
Hypothesis Hc : dict_get sd c = Some (CDict ld).

Lemma set_path_1 (k : string) (x : count_value) :
  set_path (CDict cd) [a] k x
  = inr (CDict (dict_set cd a (CDict (dict_set ad k x)))).
Proof. simpl. rewrite Ha. reflexivity. Qed.

Lemma set_path_2 (k : string) (x : count_value) :
  set_path (CDict cd) [a; b] k x
  = inr (CDict (dict_set cd a
                  (CDict (dict_set ad b (CDict (dict_set sd k x)))))).
Proof. simpl. rewrite Ha. simpl. rewrite Hb. reflexivity. Qed.

Lemma set_path_3 (k : string) (x : count_value) :
  set_path (CDict cd) [a; b; c] k x
  = inr (CDict (dict_set cd a
                  (CDict (dict_set ad b
                            (CDict (dict_set sd c
                                      (CDict (dict_set ld k x)))))))).
Proof.
  simpl. rewrite Ha. simpl. rewrite Hb. simpl. rewrite Hc. reflexivity.
Qed.

Lemma in_path_1 (k : string) :
  in_path (CDict cd) [a] k
  = inr (match dict_get ad k with Some _ => true | None => false end).
Proof. unfold in_path. simpl. rewrite Ha. reflexivity. Qed.

Lemma in_path_2 (k : string) :
  in_path (CDict cd) [a; b] k
  = inr (match dict_get sd k with Some _ => true | None => false end).
Proof. unfold in_path. simpl. rewrite Ha, Hb. reflexivity. Qed.

End Paths.

Lemma ensure_0 (cd : dict count_value) (k : string) :
  counts_ok cd -> k <> "sanai_count" ->
  exists cd1 ad1,
    ensure (CDict cd) [] k = inr (CDict cd1)
    /\ dict_get cd1 k = Some (CDict ad1)
    /\ sanai_counts_ok ad1 /\ counts_ok cd1
    /\ (forall k', k' <> k -> dict_get cd1 k' = dict_get cd k').
Proof.
  intros Hok Hk. unfold ensure, in_path. simpl.
  destruct (dict_get cd k) as [v |] eqn:E; simpl.
  - destruct (Hok _ _ E) as [-> | [d' [-> Hd']]]; [tauto |].
    exists cd, d'. auto.
  - exists (dict_set cd k (CDict [])), [].
    split; [reflexivity |]. split; [apply dict_get_set_same |].
    split; [intros k' v' H'; discriminate |]. split.
    + intros k' v'. rewrite dict_get_set.
      destruct (String.eqb_spec k k') as [<- | Hne]; [| apply Hok].
      intros H. injection H as <-. right. exists [].
      split; [reflexivity | intros k' v' H'; discriminate].
    + intros k' Hne. rewrite dict_get_set.
      destruct (String.eqb_spec k k'); [congruence | reflexivity].
Qed.

Lemma ensure_1 (cd ad : dict count_value) (a k : string) :
  dict_get cd a = Some (CDict ad) -> sanai_counts_ok ad ->
  k <> "sana_count" ->
  exists ad1 sd1,
    ensure (CDict cd) [a] k = inr (CDict (dict_set cd a (CDict ad1)))
    /\ dict_get ad1 k = Some (CDict sd1)
    /\ sana_counts_ok sd1 /\ sanai_counts_ok ad1.
Proof.
  intros Ha Hok Hk. unfold ensure. rewrite (in_path_1 _ _ _ Ha).
  unfold bind.
  destruct (dict_get ad k) as [v |] eqn:E.
  - destruct (Hok _ _ E) as [-> | [d' [-> Hd']]]; [tauto |].
    exists ad, d'. rewrite (dict_set_same _ _ _ Ha). auto.
  - rewrite (set_path_1 _ _ _ Ha).
    exists (dict_set ad k (CDict [])), [].
    split; [reflexivity |]. split; [apply dict_get_set_same |].
    split; [intros k' v' H'; discriminate |].
    intros k' v'. rewrite dict_get_set.
    destruct (String.eqb_spec k k') as [<- | Hne]; [| apply Hok].
    intros H. injection H as <-. right. exists [].
    split; [reflexivity | intros k' v' H'; discriminate].
Qed.

Lemma ensure_2 (cd ad sd : dict count_value) (a b k : string) :
  dict_get cd a = Some (CDict ad) -> dict_get ad b = Some (CDict sd) ->
  sana_counts_ok sd -> k <> "line_count" ->
  exists sd1 ld,
    ensure (CDict cd) [a; b] k
    = inr (CDict (dict_set cd a (CDict (dict_set ad b (CDict sd1)))))
    /\ dict_get sd1 k = Some (CDict ld)
    /\ sana_counts_ok sd1.
Proof.
  intros Ha Hb Hok Hk. unfold ensure. rewrite (in_path_2 _ _ _ _ _ Ha Hb).
  unfold bind.
  destruct (dict_get sd k) as [v |] eqn:E.
  - destruct (Hok _ _ E) as [-> | [d' ->]]; [tauto |].
    exists sd, d'.
    rewrite (dict_set_same _ _ _ Hb), (dict_set_same _ _ _ Ha). auto.
  - rewrite (set_path_2 _ _ _ _ _ Ha Hb).
    exists (dict_set sd k (CDict [])), [].
    split; [reflexivity |]. split; [apply dict_get_set_same |].
    intros k' v'. rewrite dict_get_set.
    destruct (String.eqb_spec k k') as [<- | Hne]; [| apply Hok].
    intros H. injection H as <-. right. exists []. reflexivity.
Qed.

Lemma sana_counts_ok_set (sd : dict count_value) (k : string)
      (v : count_value) :
  sana_counts_ok sd ->
  (k = "line_count" \/ exists d, v = CDict d) ->
  sana_counts_ok (dict_set sd k v).
Proof.
  intros Hok Hv k' v'. rewrite dict_get_set.
  destruct (String.eqb_spec k k') as [<- | Hne]; [| apply Hok].
  intros H. injection H as <-. exact Hv.
Qed.

Lemma sanai_counts_ok_set (ad : dict count_value) (k : string)
      (v : count_value) :
  sanai_counts_ok ad ->
  (k = "sana_count" \/ exists d, v = CDict d /\ sana_counts_ok d) ->
  sanai_counts_ok (dict_set ad k v).
Proof.
  intros Hok Hv k' v'. rewrite dict_get_set.
  destruct (String.eqb_spec k k') as [<- | Hne]; [| apply Hok].
  intros H. injection H as <-. exact Hv.
Qed.

Lemma counts_ok_set (cd : dict count_value) (k : string)
      (v : count_value) :
  counts_ok cd ->
  (k = "sanai_count" \/ exists d, v = CDict d /\ sanai_counts_ok d) ->
  counts_ok (dict_set cd k v).
Proof.
  intros Hok Hv k' v'. rewrite dict_get_set.
  destruct (String.eqb_spec k k') as [<- | Hne]; [| apply Hok].
  intros H. injection H as <-. exact Hv.
Qed.

(** *** The loops *)

Lemma lines_loop_spec (a b : string) (lines : list line) (n : Z)
      (cd ad sd : dict count_value) :
  dict_get cd a = Some (CDict ad) -> dict_get ad b = Some (CDict sd) ->
  sana_counts_ok sd ->
  exists sd',
    sana_counts_ok sd'
    /\ lines_loop a b lines n (CDict cd)
       = if forallb line_has_sections lines
         then inr (CDict (dict_set cd a
                            (CDict (dict_set ad b (CDict sd')))),
                   n + len lines)
         else inl (CKeyError "sections").
Proof.
  revert n cd ad sd.
  induction lines as [| x lines IH]; intros n cd ad sd Ha Hb Hok.
  - exists sd. split; [exact Hok |]. simpl.
    rewrite (dict_set_same _ _ _ Hb), (dict_set_same _ _ _ Ha).
    do 2 f_equal. unfold len. simpl. lia.
  - cbn [lines_loop forallb].
    destruct (ensure_2 cd ad sd a b ("line_" ++ str (n + 1)) Ha Hb Hok
                       (str_not_count _ "line_"))
      as [sd1 [ld [E [Hl Hok1]]]].
    rewrite E. cbn [bind]. unfold line_has_sections at 1.
    destruct (l_sections x) as [ls |]; cbn [bind andb];
      [| exists sd; auto].
    rewrite (set_path_3 _ _ _ _ _ _ _
               (dict_get_set_same _ _ _) (dict_get_set_same _ _ _) Hl).
    cbn [bind]. rewrite !dict_set_set.
    destruct (IH (n + 1) _ _ _
                 (dict_get_set_same cd a _)
                 (dict_get_set_same ad b _)
                 (sana_counts_ok_set sd1 ("line_" ++ str (n + 1))
                    (CDict (dict_set ld "section_count"
                              (CInt (count_line_sections ls))))
                    Hok1 (or_intror (ex_intro _ _ eq_refl))))
      as [sd' [Hok' E']].
    exists sd'. split; [exact Hok' |]. rewrite E', !dict_set_set.
    destruct (forallb line_has_sections lines); [| reflexivity].
    do 2 f_equal. unfold len. simpl List.length. lia.
Qed.

Lemma sanai_loop_spec (a : string) (sanai : list sana) (n : Z)
      (cd ad : dict count_value) :
  dict_get cd a = Some (CDict ad) -> sanai_counts_ok ad ->
  exists ad' e,
    sanai_counts_ok ad'
    /\ (e = CKeyError "lines" \/ e = CKeyError "sections")
    /\ sanai_loop a sanai n (CDict cd)
       = if forallb sana_sections_countable sanai
         then inr (CDict (dict_set cd a (CDict ad')), n + len sanai)
         else inl e.
Proof.
  revert n cd ad.
  induction sanai as [| x sanai IH]; intros n cd ad Ha Hok.
  - exists ad, (CKeyError "lines"). split; [exact Hok |]. split; [auto |].
    simpl. rewrite (dict_set_same _ _ _ Ha).
    do 2 f_equal. unfold len. simpl. lia.
  - cbn [sanai_loop forallb].
    destruct (ensure_1 cd ad a ("sana_" ++ str (n + 1)) Ha Hok
                       (str_not_count _ "sana_"))
      as [ad1 [sd1 [E [Hs [Hok1 Hoka]]]]].
    rewrite E. cbn [bind]. unfold sana_sections_countable at 1.
    destruct (sa_lines x) as [lines |]; cbn [bind andb];
      [| exists ad, (CKeyError "lines"); auto].
    destruct (lines_loop_spec a ("sana_" ++ str (n + 1)) lines 0
                _ _ _ (dict_get_set_same cd a _) Hs Hok1)
      as [sd' [Hok' E']].
    rewrite E', !dict_set_set.
    destruct (forallb line_has_sections lines); cbn [bind andb fst snd];
      [| exists ad, (CKeyError "sections"); auto].
    rewrite (set_path_2 _ _ _ _ _
               (dict_get_set_same _ _ _) (dict_get_set_same _ _ _)).
    cbn [bind]. rewrite !dict_set_set.
    destruct (IH (n + 1) _ _
                 (dict_get_set_same cd a _)
                 (sanai_counts_ok_set ad1 ("sana_" ++ str (n + 1))
                    (CDict (dict_set sd' "line_count"
                              (CInt (0 + len lines))))
                    Hoka
                    (or_intror
                       (ex_intro _ _
                          (conj eq_refl
                                (sana_counts_ok_set sd' "line_count" _ Hok'
                                   (or_introl eq_refl)))))))
      as [ad' [e [Hok2 [He E2]]]].
    exists ad', e. split; [exact Hok2 |]. split; [exact He |].
    rewrite E2, !dict_set_set.
    destruct (forallb sana_sections_countable sanai); [| reflexivity].
    do 2 f_equal. unfold len. simpl List.length. lia.
Qed.

Lemma sections_with_sanai_cons (x : section) (tree : list section) :
  sections_with_sanai (x :: tree)
  = (if has_sanai x then 1 else 0) + sections_with_sanai tree.
Proof.
  unfold sections_with_sanai, len. simpl.
  destruct (has_sanai x); simpl List.length; lia.
Qed.

Lemma sections_loop_spec (tree : list section) (n : Z)
      (cd : dict count_value) :
  counts_ok cd ->
  exists cd' e,
    (e = CKeyError "lines" \/ e = CKeyError "sections")
    /\ sections_loop tree n (CDict cd)
       = (if sections_countable tree
          then inr (CDict cd', n + sections_with_sanai tree)
          else inl e)
    /\ (sections_countable tree = true ->
        counts_ok cd'
        /\ (tree = [] -> cd' = cd)
        /\ (tree <> [] ->
            dict_get cd' "sanai_count"
            = Some (CInt (n + sections_with_sanai tree)))).
Proof.
  unfold sections_countable. revert n cd.
  induction tree as [| x tree IH]; intros n cd Hok.
  - exists cd, (CKeyError "lines"). split; [auto |]. split.
    + simpl. do 2 f_equal. unfold sections_with_sanai, len. simpl. lia.
    + intros _. split; [exact Hok |]. split; [reflexivity | congruence].
  - cbn [sections_loop forallb]. rewrite sections_with_sanai_cons.
    unfold has_sanai.
    destruct (s_sanai x) as [sanai |]; cbn [children_ok].
    + destruct (ensure_0 cd ("sanai_" ++ str (n + 1)) Hok
                         (str_not_count _ "sanai_"))
        as [cd1 [ad1 [E [Ha [Hoka [Hok1 _]]]]]].
      rewrite E. cbn [bind].
      destruct (sanai_loop_spec ("sanai_" ++ str (n + 1)) sanai 0
                                cd1 ad1 Ha Hoka)
        as [ad' [e [Hok' [He E']]]].
      rewrite E'.
      destruct (forallb sana_sections_countable sanai);
        cbn [bind andb fst snd];
        [| exists cd, e; split; [exact He |]; split;
           [reflexivity | discriminate]].
      rewrite (set_path_1 _ _ _ (dict_get_set_same _ _ _)).
      cbn [bind fst snd set_path]. rewrite !dict_set_set.
      set (cd2 := dict_set
                    (dict_set cd1 ("sanai_" ++ str (n + 1))
                       (CDict (dict_set ad' "sana_count"
                                 (CInt (0 + len sanai)))))
                    "sanai_count" (CInt (n + 1))).
      assert (Hok2 : counts_ok cd2).
      { apply counts_ok_set; [| left; reflexivity].
        apply counts_ok_set; [exact Hok1 |]. right. eexists.
        split; [reflexivity |].
        apply sanai_counts_ok_set; [exact Hok' | left; reflexivity]. }
      destruct (IH (n + 1) cd2 Hok2) as [cd' [e' [He' [E2 H2]]]].
      exists cd', e'. split; [exact He' |]. rewrite E2. split.
      * destruct (forallb _ tree); [| reflexivity].
        do 2 f_equal. lia.
      * intros Hc. destruct (H2 Hc) as [H3 [H4 H5]].
        split; [exact H3 |]. split; [discriminate |]. intros _.
        destruct tree as [| y tree'].
        -- rewrite (H4 eq_refl). unfold cd2. rewrite dict_get_set_same.
           change (sections_with_sanai []) with 0. do 2 f_equal; lia.
        -- rewrite H5 by discriminate. do 2 f_equal. lia.
    + cbn [bind fst snd set_path].
      set (cd2 := dict_set cd "sanai_count" (CInt n)).
      assert (Hok2 : counts_ok cd2)
        by (apply counts_ok_set; [exact Hok | left; reflexivity]).
      destruct (IH n cd2 Hok2) as [cd' [e' [He' [E2 H2]]]].
      exists cd', e'. split; [exact He' |]. rewrite E2. split.
      * cbn [andb]. destruct (forallb _ tree); [| reflexivity].
        do 2 f_equal.
      * cbn [andb]. intros Hc. destruct (H2 Hc) as [H3 [H4 H5]].
        split; [exact H3 |]. split; [discriminate |]. intros _.
        destruct tree as [| y tree'].
        -- rewrite (H4 eq_refl). unfold cd2. rewrite dict_get_set_same.
           change (sections_with_sanai []) with 0. do 2 f_equal; lia.
        -- rewrite H5 by discriminate. reflexivity.
Qed.

Lemma counts_ok_nil : counts_ok [].
Proof. intros k v H. discriminate. Qed.

Lemma pieces_loop_spec (scores_data : dict score_info) (n : Z)
      (all : dict count_value) :
  exists r e,
    (e = CKeyError "lines" \/ e = CKeyError "sections")
    /\ pieces_loop scores_data n all
       = if forallb (fun item => sections_countable (annotations (snd item)))
                    scores_data
         then inr r else inl e.
Proof.
  revert n all.
  induction scores_data as [| [mbid info] rest IH]; intros n all.
  - exists all, (CKeyError "lines"). auto.
  - cbn [pieces_loop forallb parse_score_info snd].
    destruct (sections_loop_spec (annotations info) n [] counts_ok_nil)
      as [cd' [e [He [E _]]]].
    rewrite E.
    destruct (sections_countable (annotations info)); cbn [bind andb];
      [| exists all, e; auto].
    apply IH.
Qed.

Lemma pieces_loop_other (scores_data : dict score_info) (n : Z)
      (all : dict count_value) (mbid : string) :
  ~ In mbid (keys scores_data) ->
  forallb (fun item => sections_countable (annotations (snd item)))
          scores_data = true ->
  exists r, pieces_loop scores_data n all = inr r
            /\ dict_get r mbid = dict_get all mbid.
Proof.
  revert n all.
  induction scores_data as [| [k info] rest IH]; intros n all Hn Hc.
  - exists all. auto.
  - cbn [pieces_loop forallb parse_score_info snd] in *.
    apply andb_true_iff in Hc. destruct Hc as [Hx Hrest].
    destruct (sections_loop_spec (annotations info) n [] counts_ok_nil)
      as [cd' [e [He [E _]]]].
    rewrite E, Hx. cbn [bind fst snd].
    destruct (IH (n + sections_with_sanai (annotations info))
                 (dict_set all k (CDict cd')) (fun H => Hn (or_intror H))
                 Hrest) as [r [Er Hr]].
    exists r. split; [exact Er |]. rewrite Hr, dict_get_set.
    destruct (String.eqb_spec k mbid) as [-> | Hne]; [| reflexivity].
    destruct Hn. left. reflexivity.
Qed.

Lemma pieces_loop_entry (pre post : dict score_info) (mbid : string)
      (info : score_info) (n : Z) (all : dict count_value) :
  forallb (fun item => sections_countable (annotations (snd item)))
          (pre ++ (mbid, info) :: post) = true ->
  ~ In mbid (keys post) ->
  exists r cd,
    pieces_loop (pre ++ (mbid, info) :: post) n all = inr r
    /\ dict_get r mbid = Some (CDict cd)
    /\ (annotations info = [] -> cd = [])
    /\ (annotations info <> [] ->
        dict_get cd "sanai_count"
        = Some (CInt (n + sections_with_sanai_in pre
                      + sections_with_sanai (annotations info)))).
Proof.
  revert n all.
  induction pre as [| [k i] pre IH]; intros n all Hc Hn.
  - cbn [app pieces_loop forallb parse_score_info snd] in *.
    apply andb_true_iff in Hc. destruct Hc as [Hx Hrest].
    destruct (sections_loop_spec (annotations info) n [] counts_ok_nil)
      as [cd' [e [He [E H]]]].
    rewrite E, Hx. cbn [bind fst snd].
    destruct (H Hx) as [_ [H1 H2]].
    destruct (pieces_loop_other post
                (n + sections_with_sanai (annotations info))
                (dict_set all mbid (CDict cd')) mbid Hn Hrest)
      as [r [Er Hr]].
    exists r, cd'. split; [exact Er |].
    split; [rewrite Hr; apply dict_get_set_same |].
    split; [exact H1 |]. intros Hne. rewrite (H2 Hne).
    do 2 f_equal. unfold sections_with_sanai_in. simpl. lia.
  - cbn [app pieces_loop forallb parse_score_info snd] in *.
    apply andb_true_iff in Hc. destruct Hc as [Hx Hrest].
    destruct (sections_loop_spec (annotations i) n [] counts_ok_nil)
      as [cd' [e [He [E _]]]].
    rewrite E, Hx. cbn [bind fst snd].
    destruct (IH (n + sections_with_sanai (annotations i))
                 (dict_set all k (CDict cd')) Hrest Hn)
      as [r [cd [Er [Hr [H1 H2]]]]].
    exists r, cd. split; [exact Er |]. split; [exact Hr |].
    split; [exact H1 |]. intros Hne. rewrite (H2 Hne).
    do 2 f_equal. unfold sections_with_sanai_in. simpl. lia.
Qed.

(** X23.  [calculate_score_section_counts] returns exactly on the
    corpora in which every sana has ['lines'] and every line has
    ['sections']; on any other corpus it raises a [KeyError] for ['lines']
    or for ['sections'].  The membership tests and chained subscripts never
    fail: no other key is missed and no integer is subscripted. *)
Theorem section_counts_returns_iff (scores_data : dict score_info) :
  ((exists r, calculate_score_section_counts scores_data = inr r)
   <-> forallb (fun item => sections_countable (annotations (snd item)))
               scores_data = true)
  /\ (forall e, calculate_score_section_counts scores_data = inl e ->
                e = CKeyError "lines" \/ e = CKeyError "sections").
Proof.
  unfold calculate_score_section_counts.
  destruct (pieces_loop_spec scores_data 0 []) as [r [e [He E]]].
  rewrite E.
  destruct (forallb (fun item => sections_countable (annotations (snd item)))
                    scores_data).
  - split; [split; eauto |]. intros e' E'. discriminate.
  - split; [split; [intros [r' Er]; discriminate | discriminate] |].
    intros e' E'. injection E' as <-. exact He.
Qed.

(** X24.  The counter of sections with sanai is set to zero once, before
    the loop over the pieces: in the counts of a piece, ['sanai_count'] is
    the number of such sections in all the pieces up to and including this
    one, not in this piece alone.  A piece without sections gets empty
    counts, without ['sanai_count']. *)
Theorem sanai_count_is_cumulative
        (pre post : dict score_info) (mbid : string) (info : score_info)
        (r : dict count_value) :
  calculate_score_section_counts (pre ++ (mbid, info) :: post) = inr r ->
  ~ In mbid (keys post) ->
  exists cd,
    dict_get r mbid = Some (CDict cd)
    /\ (annotations info = [] -> cd = [])
    /\ (annotations info <> [] ->
        dict_get cd "sanai_count"
        = Some (CInt (sections_with_sanai_in pre
                      + sections_with_sanai (annotations info)))).
Proof.
  intros E Hn.
  assert (Hc : forallb (fun item =>
                          sections_countable (annotations (snd item)))
                       (pre ++ (mbid, info) :: post) = true).
  { unfold calculate_score_section_counts in E.
    destruct (pieces_loop_spec (pre ++ (mbid, info) :: post) 0 [])
      as [r' [e [_ E']]].
    rewrite E' in E.
    destruct (forallb _ (pre ++ (mbid, info) :: post));
      [reflexivity | discriminate]. }
  destruct (pieces_loop_entry pre post mbid info 0 [] Hc Hn)
    as [r' [cd [Er [Hr [H1 H2]]]]].
  unfold calculate_score_section_counts in E. rewrite Er in E.
  injection E as <-. exists cd. split; [exact Hr |]. split; [exact H1 |].
  intros Hne. rewrite (H2 Hne). reflexivity.
Qed.

Lemma sanai_count_is_cumulative_witness :
  calculate_score_section_counts
    ([("r", Samples.piece_r)] ++ ("s", Samples.piece_s) :: [])
  = inr [("r", CDict
                 [("sanai_1",
                   CDict [("sana_1",
                           CDict [("line_1",
                                   CDict [("section_count", CInt 0)]);
                                  ("line_count", CInt 1)]);
                          ("sana_count", CInt 1)]);
                  ("sanai_count", CInt 2);
                  ("sanai_2",
                   CDict [("sana_1",
                           CDict [("line_1",
                                   CDict [("section_count", CInt 0)]);
                                  ("line_count", CInt 1)]);
                          ("sana_count", CInt 1)])]);
         ("s", CDict
                 [("sanai_3",
                   CDict [("sana_1",
                           CDict [("line_1",
                                   CDict [("section_count", CInt 0)]);
                                  ("line_count", CInt 1)]);
                          ("sana_count", CInt 1)]);
                  ("sanai_count", CInt 3)])]
  /\ ~ In "s" (keys (@nil (string * score_info)))
  /\ sections_with_sanai_in [("r", Samples.piece_r)]
     + sections_with_sanai (annotations Samples.piece_s) = 3
  /\ exists cd,
       dict_get
         [("r", CDict
                  [("sanai_1",
                    CDict [("sana_1",
                            CDict [("line_1",
                                    CDict [("section_count", CInt 0)]);
                                   ("line_count", CInt 1)]);
                           ("sana_count", CInt 1)]);
                   ("sanai_count", CInt 2);
                   ("sanai_2",
                    CDict [("sana_1",
                            CDict [("line_1",
                                    CDict [("section_count", CInt 0)]);
                                   ("line_count", CInt 1)]);
                           ("sana_count", CInt 1)])]);
          ("s", CDict
                  [("sanai_3",
                    CDict [("sana_1",
                            CDict [("line_1",
                                    CDict [("section_count", CInt 0)]);
                                   ("line_count", CInt 1)]);
                           ("sana_count", CInt 1)]);
                   ("sanai_count", CInt 3)])] "s"
       = Some (CDict cd)
       /\ (annotations Samples.piece_s = [] -> cd = [])
       /\ (annotations Samples.piece_s <> [] ->
           dict_get cd "sanai_count"
           = Some (CInt (sections_with_sanai_in [("r", Samples.piece_r)]
                         + sections_with_sanai
                             (annotations Samples.piece_s)))).
Proof.
  assert (E : calculate_score_section_counts
                ([("r", Samples.piece_r)] ++ ("s", Samples.piece_s) :: [])
              = inr [("r", CDict
                 [("sanai_1",
                   CDict [("sana_1",
                           CDict [("line_1",
                                   CDict [("section_count", CInt 0)]);
                                  ("line_count", CInt 1)]);
                          ("sana_count", CInt 1)]);
                  ("sanai_count", CInt 2);
                  ("sanai_2",
                   CDict [("sana_1",
                           CDict [("line_1",
                                   CDict [("section_count", CInt 0)]);
                                  ("line_count", CInt 1)]);
                          ("sana_count", CInt 1)])]);
         ("s", CDict
                 [("sanai_3",
                   CDict [("sana_1",
                           CDict [("line_1",
                                   CDict [("section_count", CInt 0)]);
                                  ("line_count", CInt 1)]);
                          ("sana_count", CInt 1)]);
                  ("sanai_count", CInt 3)])])
    by (vm_compute; reflexivity).
  split; [exact E |]. split; [intros [] |].
  split; [vm_compute; reflexivity |].
  apply (sanai_count_is_cumulative
           [("r", Samples.piece_r)] [] "s" Samples.piece_s);
    [exact E | intros []].
Defined.

(* ----------------------------------------------------------------- *)
(** ** [count_centos_positions]: one row per pattern *)

Lemma position_rows_patterns {A : Type} (f : A -> list Z)
      (d : dict (dict A)) (p : string) :
  In p (map Pattern (score_data_processing.position_rows f d))
  <-> exists label table, In (label, table) d /\ In p (keys table).
Proof.
  unfold score_data_processing.position_rows. rewrite in_map_iff. split.
  - intros [r [Er Hr]]. apply in_flat_map in Hr.
    destruct Hr as [[label table] [Hd Hin]].
    apply in_map_iff in Hin. destruct Hin as [pc [Epc Hpc]].
    exists label, table. split; [exact Hd |].
    subst r p. simpl. apply in_map. exact Hpc.
  - intros [label [table [Hd Hin]]].
    apply in_map_iff in Hin. destruct Hin as [pc [Epc Hpc]].
    exists (fst pc, f (snd pc)). split; [exact Epc |].
    apply in_flat_map. exists (label, table). split; [exact Hd |].
    simpl. apply in_map_iff. exists pc. auto.
Qed.

Lemma groupby_table (rows : DataFrame) :
  let T := groupby_Pattern_sum rows in
  sorted_rows T
  /\ NoDup (map Pattern T)
  /\ (forall p, In p (map Pattern T) <-> In p (map Pattern rows))
  /\ (forall p v c, In (p, v) T -> nth c v 0 = table_sum c p rows)
  /\ len T <= len rows.
Proof.
  intros T. subst T.
  destruct (groupby_fold rows []) as [H1 [H2 [H3 H4]]]; [constructor |].
  fold (groupby_Pattern_sum rows) in H1, H2, H3, H4.
  pose proof (sorted_rows_NoDup _ H1) as Hnd.
  split; [exact H1 |]. split; [exact Hnd |]. split; [| split].
  - intros p. rewrite H2. simpl. tauto.
  - intros p v c Hin. rewrite <- (table_sum_row c _ p v Hnd Hin), H3.
    unfold table_sum at 1. simpl. ring.
  - unfold len. simpl in H4. lia.
Qed.


(** *** From the slices to the table *)

Lemma table_sum_dict {A : Type} (f : A -> list Z) (t : dict A)
      (c : nat) (p : string) :
  NoDup (keys t) ->
  table_sum c p (map (fun pc => (fst pc, f (snd pc))) t)
  = match dict_get t p with
    | Some v => nth c (f v) 0
    | None => 0
    end.
Proof.
  induction t as [| [k v] t IH]; intros Hnd; [reflexivity |].
  inversion Hnd as [| x l Hk Hnd']; subst.
  cbn [map fst snd dict_get]. rewrite table_sum_cons.
  change (Pattern (k, f v)) with k.
  change (cell c (k, f v)) with (nth c (f v) 0).
  destruct (String.eqb_spec k p) as [-> | Hne].
  - rewrite table_sum_absent; [ring |].
    rewrite map_map. exact Hk.
  - rewrite (IH Hnd'). ring.
Qed.

Lemma sum_app {B : Type} (g : B -> Z) (a b : list B) :
  fold_right (fun x acc => g x + acc) 0 (a ++ b)
  = fold_right (fun x acc => g x + acc) 0 a
    + fold_right (fun x acc => g x + acc) 0 b.
Proof. induction a as [| x a IH]; simpl; [| rewrite IH]; ring. Qed.

Lemma sum_ext {B : Type} (g h : B -> Z) (l : list B) :
  (forall x, g x = h x) ->
  fold_right (fun x acc => g x + acc) 0 l
  = fold_right (fun x acc => h x + acc) 0 l.
Proof.
  intros E. induction l as [| x l IH]; simpl; [| rewrite IH, E]; reflexivity.
Qed.

Lemma position_rows_app {A : Type} (f : A -> list Z) (a b : dict (dict A)) :
  score_data_processing.position_rows f (a ++ b)
  = score_data_processing.position_rows f a
    ++ score_data_processing.position_rows f b.
Proof. apply flat_map_app. Qed.

Section SanaTable.

Context {A : Type}.
Variables (patterns : list (list string))
          (pattern_counter : Stream -> list string -> A)
          (f : A -> list Z) (c : nat) (p : string).

Lemma sana_entries_of_sum (i : Z) (sanai : list sana) (s : Z) :
  table_sum c p
    (score_data_processing.position_rows
       f (sana_entries_of patterns pattern_counter i sanai s))
  = fold_right
      (fun x acc =>
         table_sum c p
           (map (fun pc => (fst pc, f (snd pc)))
                (counts_of patterns pattern_counter (sa_score x)))
         + acc)
      0 sanai.
Proof.
  unfold sana_entries_of. revert s.
  induction sanai as [| x sanai IH]; intros s; [reflexivity |].
  cbn [enumerate map fold_right].
  unfold score_data_processing.position_rows. cbn [flat_map snd fst].
  rewrite table_sum_app. f_equal. apply IH.
Qed.

Lemma sana_entries_sum (tree : list section) (s : Z) :
  table_sum c p
    (score_data_processing.position_rows
       f (sana_entries patterns pattern_counter tree s))
  = fold_right
      (fun x acc =>
         table_sum c p
           (map (fun pc => (fst pc, f (snd pc)))
                (counts_of patterns pattern_counter (sa_score x)))
         + acc)
      0 (flat_map sanai_of tree).
Proof.
  unfold sana_entries. revert s.
  induction tree as [| x tree IH]; intros s; [reflexivity |].
  cbn [enumerate flat_map fst snd].
  rewrite position_rows_app, table_sum_app, sum_app, IH,
    sana_entries_of_sum.
  reflexivity.
Qed.

Lemma counts_of_sum (s : option Stream) :
  table_sum c p
    (map (fun pc => (fst pc, f (snd pc)))
         (counts_of patterns pattern_counter s))
  = match last_with_key patterns p with
    | Some pat =>
        nth c (f (pattern_counter
                    (match s with Some sc => sc | None => [] end) pat)) 0
    | None => 0
    end.
Proof.
  unfold counts_of, score_data_processing.count_all_patterns.
  rewrite table_sum_dict by (apply count_all_fold_keys; constructor).
  rewrite count_all_fold_get.
  destruct (last_with_key patterns p); reflexivity.
Qed.

Lemma sana_entries_known_key (tree : list section) (s : Z) :
  In p (map Pattern
          (score_data_processing.position_rows
             f (sana_entries patterns pattern_counter tree s))) ->
  exists pat, last_with_key patterns p = Some pat.
Proof.
  intros H. apply position_rows_patterns in H.
  destruct H as [label [table [Hin Hp]]].
  assert (Ht : exists sc, table
                          = score_data_processing.count_all_patterns
                              sc patterns pattern_counter).
  { unfold sana_entries in Hin. apply in_flat_map in Hin.
    destruct Hin as [ix [_ Hin]]. unfold sana_entries_of in Hin.
    apply in_map_iff in Hin. destruct Hin as [jx [E _]].
    injection E as _ <-. eexists. reflexivity. }
  destruct Ht as [sc ->].
  assert (Hg : dict_get (score_data_processing.count_all_patterns
                           sc patterns pattern_counter) p <> None).
  { revert Hp.
    generalize (score_data_processing.count_all_patterns
                  sc patterns pattern_counter).
    intros t. induction t as [| [k v] t IH]; simpl; [tauto |].
    intros [-> | Hp]; [rewrite String.eqb_refl; discriminate |].
    destruct (String.eqb k p); [discriminate | auto]. }
  unfold score_data_processing.count_all_patterns in Hg.
  rewrite count_all_fold_get in Hg.
  destruct (last_with_key patterns p) as [pat |]; [eauto |].
  destruct Hg. reflexivity.
Qed.

End SanaTable.

Lemma quartile_buckets_total (score : Stream) (pattern : list string) :
  nth 0 (score_data_processing.quartile_buckets
           (score_data_processing.count_pattern_in_score score pattern)) 0
  + nth 1 (score_data_processing.quartile_buckets
             (score_data_processing.count_pattern_in_score score pattern)) 0
  + nth 2 (score_data_processing.quartile_buckets
             (score_data_processing.count_pattern_in_score score pattern)) 0
  = total_occurrences (note_names score) pattern.
Proof.
  rewrite quartile_counts. cbv zeta. unfold total_occurrences.
  rewrite (count_partition3
             (fun i => i <? int_mul (len (note_names score)) f0_25)
             (fun i => i >=? len (note_names score)
                             - int_mul (len (note_names score)) f0_25)).
  reflexivity.
Qed.

(** X26.  From the slices to the table, nothing is lost or counted
    twice in the quartile scheme: in the table of the sanai of a piece, the
    three buckets of the row of a key add up to the number of occurrences,
    in the slices of all the sanai of the tree, of the last pattern of the
    list that spells this key. *)
Theorem sana_table_counts_occurrences
        (patterns : list (list string)) (tree : list section)
        (p : string) (v : list Z) :
  In (p, v)
     (score_data_processing.count_centos_positions
        (score_data_processing.cc_sanai
           (piece_entry patterns
                        score_data_processing.count_pattern_in_score
                        tree))) ->
  exists pat,
    last_with_key patterns p = Some pat
    /\ nth 0 v 0 + nth 1 v 0 + nth 2 v 0 = occurrences_in_sanai tree pat.
Proof.
  intros Hin. unfold piece_entry in Hin. cbn [score_data_processing.cc_sanai] in Hin.
  unfold score_data_processing.count_centos_positions in Hin.
  destruct (groupby_table
              (score_data_processing.position_rows
                 score_data_processing.quartile_buckets
                 (sana_entries patterns
                    score_data_processing.count_pattern_in_score tree 1)))
    as [_ [_ [H3 [H4 _]]]].
  assert (Hp : In p (map Pattern
                       (score_data_processing.position_rows
                          score_data_processing.quartile_buckets
                          (sana_entries
                             patterns
                             score_data_processing.count_pattern_in_score
                             tree 1)))).
  { apply H3. change p with (Pattern (p, v)). apply in_map. exact Hin. }
  destruct (sana_entries_known_key _ _ _ _ _ _ Hp) as [pat Hpat].
  exists pat. split; [exact Hpat |].
  rewrite (H4 p v 0%nat Hin), (H4 p v 1%nat Hin), (H4 p v 2%nat Hin).
  rewrite !sana_entries_sum.
  rewrite (sum_ext _ _ _
             (fun x : sana =>
                counts_of_sum patterns _ _ 0%nat p (sa_score x))).
  rewrite (sum_ext _ _ _
             (fun x : sana =>
                counts_of_sum patterns _ _ 1%nat p (sa_score x))).
  rewrite (sum_ext _ _ _
             (fun x : sana =>
                counts_of_sum patterns _ _ 2%nat p (sa_score x))).
  rewrite Hpat. unfold occurrences_in_sanai.
  induction (flat_map sanai_of tree) as [| x l IH]; [reflexivity |].
  cbn [fold_right]. rewrite <- IH, <- quartile_buckets_total. ring.
Qed.

Lemma sana_table_counts_occurrences_witness :
  In ("CD", [0; 1; 0])
     (score_data_processing.count_centos_positions
        (score_data_processing.cc_sanai
           (piece_entry [["C"; "D"]]
              score_data_processing.count_pattern_in_score
              (annotations
                 (snd (attach_piece ("p", Samples.piece_with_lines)))))))
  /\ exists pat,
       last_with_key [["C"; "D"]] "CD" = Some pat
       /\ nth 0 [0; 1; 0] 0 + nth 1 [0; 1; 0] 0 + nth 2 [0; 1; 0] 0
          = occurrences_in_sanai
              (annotations
                 (snd (attach_piece ("p", Samples.piece_with_lines))))
              pat.
Proof.
  assert (H : In ("CD", [0; 1; 0])
                 (score_data_processing.count_centos_positions
                    (score_data_processing.cc_sanai
                       (piece_entry [["C"; "D"]]
                          score_data_processing.count_pattern_in_score
                          (annotations
                             (snd (attach_piece
                                     ("p", Samples.piece_with_lines))))))))
    by (vm_compute; left; reflexivity).
  split; [exact H |].
  apply (sana_table_counts_occurrences
           [["C"; "D"]]
           (annotations (snd (attach_piece ("p", Samples.piece_with_lines))))
           "CD" [0; 1; 0] H).
Defined.

(* ----------------------------------------------------------------- *)
(** ** [get_centos_counts_per_tab_mizan_score]: one table per title *)

Lemma set_all_get {V : Type} (l : list (string * V)) (d : dict V)
      (k : string) :
  dict_get (set_all d l) k
  = match assigned_last l k with
    | Some v => Some v
    | None => dict_get d k
    end.
Proof.
  unfold set_all, assigned_last. revert d.
  induction l as [| [k0 v0] l IH]; intros d; simpl; [reflexivity |].
  rewrite IH, find_last.
  destruct (find (fun kv => String.eqb (fst kv) k) (rev l)); simpl;
    [reflexivity |].
  rewrite dict_get_set. destruct (String.eqb k0 k); reflexivity.
Qed.

Lemma set_all_app {V : Type} (a b : list (string * V)) (d : dict V) :
  set_all d (a ++ b) = set_all (set_all d a) b.
Proof. apply fold_left_app. Qed.

Section TitleLoops.
Import score_data_processing.

Context {A : Type}.
Variables (tab : string) (scores_mizan_dict : dict (list string))
          (centos_positions_counter : dict (dict A) -> DataFrame)
          (centos_list_names : list string).

Lemma titles_loop_spec (i : nat) (centos_list : dict centos_counts)
      (cumulative : dict DataFrame * dict DataFrame) :
  (forallb (piece_titled scores_mizan_dict centos_list_names i) centos_list
   = true ->
   titles_loop tab scores_mizan_dict centos_positions_counter
               centos_list_names i centos_list cumulative
   = inr (set_all (fst cumulative)
            (titled_tables_of tab scores_mizan_dict
               centos_positions_counter centos_list_names
               ": sanai of " cc_sanai i centos_list),
          set_all (snd cumulative)
            (titled_tables_of tab scores_mizan_dict
               centos_positions_counter centos_list_names
               ": lines of " cc_lines i centos_list)))
  /\ (forallb (piece_titled scores_mizan_dict centos_list_names i)
              centos_list = false ->
      exists e,
        titles_loop tab scores_mizan_dict centos_positions_counter
                    centos_list_names i centos_list cumulative = inl e
        /\ (e = IndexError
            \/ exists mbid, e = KeyError mbid
                            /\ In mbid (keys centos_list)
                            /\ dict_get scores_mizan_dict mbid = None)).
Proof.
  revert cumulative.
  induction centos_list as [| [mbid data] rest IH]; intros cumulative.
  - split; [destruct cumulative; reflexivity | discriminate].
  - cbn [titles_loop forallb]. unfold piece_titled at 1 3. cbn [fst].
    unfold titled_tables_of. cbn [map fst snd]. unfold title_of at 1 3.
    destruct (dict_get scores_mizan_dict mbid) as [mizans |] eqn:Em.
    + destruct (nth_error centos_list_names i) as [name |] eqn:En.
      * rewrite (nth_error_nth _ _ "" En). cbn [andb].
        destruct (IH (dict_set (fst cumulative)
                        (name ++ ": sanai of " ++ tab_mizan_name tab mizans)
                        (centos_positions_counter (cc_sanai data)),
                      dict_set (snd cumulative)
                        (name ++ ": lines of " ++ tab_mizan_name tab mizans)
                        (centos_positions_counter (cc_lines data))))
          as [H1 H2].
        split.
        -- intros H. rewrite (H1 H). reflexivity.
        -- intros H. destruct (H2 H) as [e [E He]]. exists e.
           split; [exact E |].
           destruct He as [-> | [m [-> [Hin Hm]]]]; [auto |].
           right. exists m. simpl. auto.
      * split; [discriminate |]. intros _. exists IndexError. auto.
    + split; [discriminate |]. intros _. exists (KeyError mbid).
      split; [reflexivity |]. right. exists mbid. simpl. auto.
Qed.

Lemma lists_loop_spec (i : nat) (centos_counts : list (dict centos_counts))
      (cumulative : dict DataFrame * dict DataFrame) :
  (all_titled scores_mizan_dict centos_list_names i centos_counts = true ->
   lists_loop tab scores_mizan_dict centos_positions_counter
              centos_list_names i centos_counts cumulative
   = inr (set_all (fst cumulative)
            (titled_tables tab scores_mizan_dict centos_positions_counter
               centos_list_names ": sanai of " cc_sanai i centos_counts),
          set_all (snd cumulative)
            (titled_tables tab scores_mizan_dict centos_positions_counter
               centos_list_names ": lines of " cc_lines i centos_counts)))
  /\ (all_titled scores_mizan_dict centos_list_names i centos_counts
      = false ->
      exists e,
        lists_loop tab scores_mizan_dict centos_positions_counter
                   centos_list_names i centos_counts cumulative = inl e
        /\ (e = IndexError
            \/ exists mbid, e = KeyError mbid
                            /\ In mbid (flat_map keys centos_counts)
                            /\ dict_get scores_mizan_dict mbid = None)).
Proof.
  revert i cumulative.
  induction centos_counts as [| cl rest IH]; intros i cumulative.
  - split; [destruct cumulative; reflexivity | discriminate].
  - cbn [lists_loop all_titled titled_tables flat_map].
    destruct (titles_loop_spec i cl cumulative) as [H1 H2].
    destruct (forallb (piece_titled scores_mizan_dict centos_list_names i)
                      cl).
    + rewrite (H1 eq_refl). cbn [andb].
      destruct (IH (S i)
                   (set_all (fst cumulative)
                      (titled_tables_of tab scores_mizan_dict
                         centos_positions_counter centos_list_names
                         ": sanai of " cc_sanai i cl),
                    set_all (snd cumulative)
                      (titled_tables_of tab scores_mizan_dict
                         centos_positions_counter centos_list_names
                         ": lines of " cc_lines i cl)))
        as [H3 H4].
      split.
      * intros H. rewrite (H3 H), !set_all_app. reflexivity.
      * intros H. destruct (H4 H) as [e [E He]]. exists e.
        split; [exact E |].
        destruct He as [-> | [m [-> [Hin Hm]]]]; [auto |].
        right. exists m. split; [reflexivity |].
        split; [apply in_or_app; auto | exact Hm].
    + split; [discriminate |]. intros _.
      destruct (H2 eq_refl) as [e [E He]]. rewrite E. exists e.
      split; [reflexivity |].
      destruct He as [-> | [m [-> [Hin Hm]]]]; [auto |].
      right. exists m. split; [reflexivity |].
      split; [apply in_or_app; auto | exact Hm].
Qed.

End TitleLoops.

(** X27.  When [get_centos_counts_per_tab_mizan_score] returns, each of
    its two dictionaries holds under a title the table of one piece, the
    last piece of the lists that has this title: the table of an earlier
    piece with the same pattern list and the same mizans is overwritten, not
    added to. *)
Theorem title_holds_last_piece {A : Type}
        (tab : string) (scores_mizan_dict : dict (list string))
        (centos_positions_counter : dict (dict A) -> DataFrame)
        (centos_list_names : list string)
        (centos_counts : list (dict score_data_processing.centos_counts))
        (sanai_positions line_positions : dict DataFrame) :
  score_data_processing.get_centos_counts_per_tab_mizan_score
    tab scores_mizan_dict centos_positions_counter centos_list_names
    centos_counts
  = inr (sanai_positions, line_positions) ->
  forall t,
    dict_get sanai_positions t
    = assigned_last
        (titled_tables tab scores_mizan_dict centos_positions_counter
           centos_list_names ": sanai of "
           score_data_processing.cc_sanai 0 centos_counts) t
    /\ dict_get line_positions t
       = assigned_last
           (titled_tables tab scores_mizan_dict centos_positions_counter
              centos_list_names ": lines of "
              score_data_processing.cc_lines 0 centos_counts) t.
Proof.
  unfold score_data_processing.get_centos_counts_per_tab_mizan_score.
  intros E t.
  destruct (lists_loop_spec tab scores_mizan_dict centos_positions_counter
              centos_list_names 0 centos_counts ([], [])) as [H1 H2].
  destruct (all_titled scores_mizan_dict centos_list_names 0 centos_counts).
  - rewrite (H1 eq_refl) in E. injection E as <- <-.
    rewrite !set_all_get. cbn [fst snd dict_get].
    split.
    + destruct (assigned_last _ t); reflexivity.
    + destruct (assigned_last _ t); reflexivity.
  - destruct (H2 eq_refl) as [e [E' _]]. rewrite E' in E. discriminate.
Qed.

Lemma title_holds_last_piece_witness :
  score_data_processing.get_centos_counts_per_tab_mizan_score
    "tab " Samples.mizans_of_two_pieces
    score_data_processing.count_centos_positions ["SIA centos "]
    Samples.counts_of_two_pieces
  = inr ([("SIA centos : sanai of tab quddam", [("CD", [0; 1; 0])])],
         [("SIA centos : lines of tab quddam", [])])
  /\ forall t,
       dict_get [("SIA centos : sanai of tab quddam", [("CD", [0; 1; 0])])] t
       = assigned_last
           (titled_tables "tab " Samples.mizans_of_two_pieces
              score_data_processing.count_centos_positions ["SIA centos "]
              ": sanai of " score_data_processing.cc_sanai 0
              Samples.counts_of_two_pieces) t
       /\ dict_get [("SIA centos : lines of tab quddam", [])] t
          = assigned_last
              (titled_tables "tab " Samples.mizans_of_two_pieces
                 score_data_processing.count_centos_positions
                 ["SIA centos "] ": lines of "
                 score_data_processing.cc_lines 0
                 Samples.counts_of_two_pieces) t.
Proof.
  assert (E : score_data_processing.get_centos_counts_per_tab_mizan_score
                "tab " Samples.mizans_of_two_pieces
                score_data_processing.count_centos_positions
                ["SIA centos "] Samples.counts_of_two_pieces
              = inr ([("SIA centos : sanai of tab quddam",
                       [("CD", [0; 1; 0])])],
                     [("SIA centos : lines of tab quddam", [])]))
    by (vm_compute; reflexivity).
  split; [exact E |].
  apply (title_holds_last_piece
           "tab " Samples.mizans_of_two_pieces
           score_data_processing.count_centos_positions ["SIA centos "]
           Samples.counts_of_two_pieces _ _ E).
Defined.

(** X28.  [get_centos_counts_per_tab_mizan_score] returns exactly when
    every piece of the lists has its mizans in [scores_mizan_dict] and every
    list that has a piece has a name in [centos_list_names]; otherwise it
    raises [KeyError] for a piece without mizans or [IndexError] for a list
    without a name. *)
Theorem titles_returns_iff {A : Type}
        (tab : string) (scores_mizan_dict : dict (list string))
        (centos_positions_counter : dict (dict A) -> DataFrame)
        (centos_list_names : list string)
        (centos_counts : list (dict score_data_processing.centos_counts)) :
  ((exists r,
       score_data_processing.get_centos_counts_per_tab_mizan_score
         tab scores_mizan_dict centos_positions_counter centos_list_names
         centos_counts = inr r)
   <-> all_titled scores_mizan_dict centos_list_names 0 centos_counts
       = true)
  /\ (forall e,
         score_data_processing.get_centos_counts_per_tab_mizan_score
           tab scores_mizan_dict centos_positions_counter centos_list_names
           centos_counts = inl e ->
         e = IndexError
         \/ exists mbid, e = KeyError mbid
                         /\ In mbid (flat_map keys centos_counts)
                         /\ dict_get scores_mizan_dict mbid = None).
Proof.
  unfold score_data_processing.get_centos_counts_per_tab_mizan_score.
  destruct (lists_loop_spec tab scores_mizan_dict centos_positions_counter
              centos_list_names 0 centos_counts ([], [])) as [H1 H2].
  destruct (all_titled scores_mizan_dict centos_list_names 0 centos_counts).
  - rewrite (H1 eq_refl). split; [split; eauto |].
    intros e E. discriminate.
  - destruct (H2 eq_refl) as [e [E He]]. rewrite E.
    split; [split; [intros [r Er]; discriminate | discriminate] |].
    intros e' E'. injection E' as <-. exact He.
Qed.

(* ----------------------------------------------------------------- *)
(** ** [count_distribution_over_dataset]: the totals are kept *)








(* ----------------------------------------------------------------- *)
(** ** [combine_normalized_position_counts]: what the totals add up to *)
















